(** * MetalZone storefront: cart pricing, checkout and order lifecycle

    A shallow embedding of the pricing and order code of [app.py] and
    [models.py], and the properties of its specification.

    Modelling conventions.
    - Python [int] is [Z].  Python [float] is binary64.  The handlers are
      embedded with money ([db.Float] columns and the results of [*], [/],
      [+], [-] on them) as rationals [Q]: each expression and comparison
      of the code is kept as written and read over the real numbers.  The
      statements on this embedding say which expression a result is and
      what its comparisons give.  Where the last bit of a double decides
      the result (rounding the tax, the order of additions, a product
      divided back) the same lines are given on doubles, with the
      arithmetic of [SpecFloat] (module [B64] and the definitions named
      [_b64]).
    - [datetime] values are integers on one time line ([Z]).
    - The SQLAlchemy tables are finite maps from primary key to row
      ([gmap Z _]) or lists of rows; an object loaded through the session's
      identity map is referred to by its primary key and always read from
      and written to the store, so two references to one row alias.
    - The Flask session is a record per client; a [dict] with string keys
      in insertion order is an association list.
    - A request that raises (a 500 response) commits nothing. *)

From Stdlib Require Import ZArith QArith Qround Qabs Qminmax Lia Lqa Ascii String.
From Stdlib Require Import Qpower SpecFloat.
From stdpp Require Import gmap strings list pretty.

Local Open Scope Z_scope.

(** ** Python built-ins used by the handlers *)

Module Py.

(** [str.isspace] on the ASCII range: space, [\t \n \v \f \r] and the
    separators [\x1c]..[\x1f]. *)
Definition isspace (c : ascii) : bool :=
  let n := nat_of_ascii c in
  ((n =? 32) || ((9 <=? n) && (n <=? 13)) || ((28 <=? n) && (n <=? 31)))%nat.

Fixpoint lstrip (s : string) : string :=
  match s with
  | String c s' => if isspace c then lstrip s' else s
  | EmptyString => EmptyString
  end.

Definition strip (s : string) : string :=
  String.rev (lstrip (String.rev (lstrip s))).

Definition digit_val (c : ascii) : option Z :=
  let n := nat_of_ascii c in
  if ((48 <=? n) && (n <=? 57))%nat then Some (Z.of_nat n - 48) else None.

(** The digit part of a decimal literal: digits, with single underscores
    allowed between two digits. [after_digit] tells whether the previous
    character was a digit. *)
Fixpoint digits (acc : Z) (after_digit : bool) (s : string) : option Z :=
  match s with
  | EmptyString => if after_digit then Some acc else None
  | String c s' =>
      match digit_val c with
      | Some d => digits (10 * acc + d) true s'
      | None =>
          if (Ascii.eqb c "_" && after_digit)%bool
          then digits acc false s'
          else None
      end
  end.

(** The whitespace [int()] skips around an ASCII literal ([Py_ISSPACE]):
    space and [\t \n \v \f \r], without the separators [\x1c]..[\x1f]
    that [str.strip] removes. *)
Definition is_c_space (c : ascii) : bool :=
  let n := nat_of_ascii c in
  ((n =? 32) || ((9 <=? n) && (n <=? 13)))%nat.

Fixpoint skip_spaces (s : string) : string :=
  match s with
  | String c s' => if is_c_space c then skip_spaces s' else s
  | EmptyString => EmptyString
  end.

(** [int(s)] for an ASCII [str] in base 10: surrounding whitespace, an
    optional sign, then the digits.  [None] is [ValueError].  A string
    with a character outside ASCII is rejected here; Python accepts other
    Unicode decimal digits and spaces, so the model is that of [int()] on
    ASCII text ([is_ascii] below). *)
Definition int (s : string) : option Z :=
  match String.rev (skip_spaces (String.rev (skip_spaces s))) with
  | String "-" s' => Z.opp <$> digits 0 false s'
  | String "+" s' => digits 0 false s'
  | s' => digits 0 false s'
  end.

(** [min(a, b)] returns [b] only when [b < a]. *)
Definition min (a b : Q) : Q := if Qle_bool a b then a else b.

(** [x or y] where [x] is a nullable float: [None] and [0.0] are falsy. *)
Definition or_else (x : option Q) (y : Q) : Q :=
  match x with
  | Some v => if Qeq_bool v 0 then y else v
  | None => y
  end.

(** [round(x)] to an integer, ties to even. *)
Definition round_half_even (x : Q) : Z :=
  let f := Qfloor x in
  match Qcompare (x - inject_Z f) (1 # 2) with
  | Lt => f
  | Gt => f + 1
  | Eq => if Z.even f then f else f + 1
  end.

(** [round(x, 2)]. *)
Definition round2 (x : Q) : Q :=
  (inject_Z (round_half_even (x * 100)) / 100)%Q.

(** [sum(xs)]: left to right from [0]. *)
Definition sum (xs : list Q) : Q := fold_left Qplus xs 0%Q.

(** Truth value of a nullable string: [None] and [''] are falsy. *)
Definition truthy (s : option string) : bool :=
  match s with
  | Some (String _ _) => true
  | _ => false
  end.

End Py.

(** ** Binary64 *)

(** Python's [float] is an IEEE 754 binary64 number, and every operation on
    it is rounded to the nearest double, ties to even: the arithmetic of
    [SpecFloat] at precision 53. *)
Module B64.

Definition prec : Z := 53.
Definition emax : Z := 1024.

Definition add : spec_float -> spec_float -> spec_float := SFadd prec emax.
Definition mul : spec_float -> spec_float -> spec_float := SFmul prec emax.
Definition div : spec_float -> spec_float -> spec_float := SFdiv prec emax.
Definition ltb : spec_float -> spec_float -> bool := SFltb.
Definition leb : spec_float -> spec_float -> bool := SFleb.

(** The double nearest to [n / d] ([s] is the sign of a zero): what a
    decimal literal of the source denotes, and [float(n)] when [d = 1]. *)
Definition ratio (s : bool) (n : Z) (d : positive) : spec_float :=
  match n with
  | Z0 => S754_zero s
  | Zpos p => div (S754_finite false p 0) (S754_finite false d 0)
  | Zneg p => div (S754_finite true p 0) (S754_finite false d 0)
  end.

Definition of_int (n : Z) : spec_float := ratio false n 1.

(** The real number that a finite double is. *)
Definition value (x : spec_float) : Q :=
  match x with
  | S754_finite s m e => ((if s then -1 else 1) * (inject_Z (Z.pos m) * 2 ^ e))%Q
  | _ => 0%Q
  end.

(** [round(x, 2)] on a float: the double nearest to the hundredth nearest
    to [x], where an [x] exactly halfway between two hundredths goes to the
    even one.  Zeros, infinities and NaN are returned as they are. *)
Definition round2 (x : spec_float) : spec_float :=
  match x with
  | S754_finite s _ _ => ratio s (Py.round_half_even (value x * 100)) 100
  | _ => x
  end.

(** [min(a, b)] returns [b] only when [b < a]. *)
Definition min (a b : spec_float) : spec_float := if ltb b a then b else a.

End B64.

(** ** models.py *)

(** A row's integer primary key ([id]) is its key in the table's map. *)

Module Product.
Record t := mk {
  name : string;
  price : Q;
  stock : Z;
  sku : string;
  sold_count : Z;
  is_active : bool
}.
End Product.

Module OrderItem.
Record t := mk {
  order_id : Z;
  product_id : Z;
  quantity : Z;
  unit_price : Q;
  product_name : string;
  product_sku : string
}.
End OrderItem.

Module Order.
Record t := mk {
  user_id : Z;
  order_number : string;
  status : string;
  payment_status : string;
  payment_method : string;
  subtotal : Q;
  tax : Q;
  shipping : Q;
  discount : Q;
  coupon_code : option string;
  total : Q;
  shipping_address : string;
  tracking_code : option string;
  estimated_delivery : option Z;
  delivered_at : option Z;
  notes : option string
}.
End Order.

Module Coupon.
Record t := mk {
  code : string;
  discount_type : string;
  discount_value : Q;
  min_purchase : Q;
  max_discount : option Q;
  usage_limit : option Z;
  used_count : Z;
  valid_from : Z;
  valid_until : Z;
  is_active : bool
}.
End Coupon.

Module Address.
Record t := mk {
  id : Z;
  user_id : Z;
  name : string;
  mobile : string;
  address_line1 : string;
  address_line2 : option string;
  city : string;
  state : string;
  pincode : string;
  country : string;
  is_default : bool
}.
End Address.

Module User.
Record t := mk {
  id : Z;
  is_admin : bool
}.
End User.

(** The tables the handlers read and write. [order_items] is the
    [OrderItem] table in insertion order; [Order.items] is its rows with
    the order's id. *)
Record Db := mkDb {
  products : gmap Z Product.t;
  coupons : list Coupon.t;
  orders : gmap Z Order.t;
  order_items : list OrderItem.t;
  addresses : list Address.t
}.

(** [flask.session] of one client. *)
Record Session := mkSession {
  cart : list (string * Z);
  session_coupon_code : option string
}.

Definition order_items_of (db : Db) (oid : Z) : list OrderItem.t :=
  filter (fun it => OrderItem.order_id it = oid) (order_items db).

(** [Order.recalc_total] *)
Definition recalc_total (items : list OrderItem.t) (o : Order.t) : Order.t :=
  let subtotal :=
    Py.sum (map (fun it => inject_Z (OrderItem.quantity it) * OrderItem.unit_price it)%Q items) in
  Order.mk (Order.user_id o) (Order.order_number o) (Order.status o)
    (Order.payment_status o) (Order.payment_method o)
    subtotal (Order.tax o) (Order.shipping o) (Order.discount o)
    (Order.coupon_code o)
    (subtotal + Order.tax o + Order.shipping o - Order.discount o)%Q
    (Order.shipping_address o) (Order.tracking_code o)
    (Order.estimated_delivery o) (Order.delivered_at o) (Order.notes o).

(** ** app.py: cart pricing *)

(** One entry of [items] in [cart_items]: the [Product] object (by
    identity), the clamped quantity and the line subtotal. *)
Record CartItem := mkItem {
  item_product : Z;
  item_quantity : Z;
  item_subtotal : Q
}.

(** The loop of [cart_items] over [cart.items()]. [None]: [int(pid)]
    raised. *)
Fixpoint cart_lines (ps : gmap Z Product.t) (cart : list (string * Z))
  : option (list CartItem) :=
  match cart with
  | [] => Some []
  | (pid, qty) :: rest =>
      k ← Py.int pid;
      items ← cart_lines ps rest;
      match ps !! k with
      | Some product =>
          if Product.is_active product && (0 <? Product.stock product)
          then
            let qty := Z.min qty (Product.stock product) in
            Some (mkItem k qty (inject_Z qty * Product.price product)%Q :: items)
          else Some items
      | None => Some items
      end
  end.

(** [Coupon.query.filter_by(code=coupon_code, is_active=True).first()] *)
Definition find_active_coupon (cs : list Coupon.t) (code : string) : option Coupon.t :=
  List.find (fun c => String.eqb (Coupon.code c) code && Coupon.is_active c) cs.

(** The discount block of [cart_items]. *)
Definition cart_discount (cs : list Coupon.t) (coupon_code : option string)
    (now : Z) (subtotal : Q) : Q :=
  match coupon_code with
  | Some (String _ _ as code) =>
      match find_active_coupon cs code with
      | Some coupon =>
          if (Coupon.valid_from coupon <=? now) && (now <=? Coupon.valid_until coupon)
          then
            if String.eqb (Coupon.discount_type coupon) "percentage"
            then Py.min (subtotal * Coupon.discount_value coupon / 100)%Q
                        (Py.or_else (Coupon.max_discount coupon) subtotal)
            else Py.min (Coupon.discount_value coupon) subtotal
          else 0%Q
      | None => 0%Q
      end
  | _ => 0%Q
  end.

Record Totals := mkTotals {
  t_items : list CartItem;
  t_subtotal : Q;
  t_tax : Q;
  t_shipping : Q;
  t_discount : Q;
  t_grand_total : Q
}.

(** [round(subtotal * 0.18, 2)] over the rationals; [tax_b64] below is the
    line on doubles. *)
Definition tax_of (subtotal : Q) : Q := Py.round2 (subtotal * 0.18)%Q.

Definition shipping_of (subtotal : Q) : Q :=
  if Qle_bool 500 subtotal then 0%Q else 50%Q.

(** [cart_items()], reading the session, the tables and [utcnow()]. *)
Definition cart_items (db : Db) (s : Session) (now : Z) : option Totals :=
  items ← cart_lines (products db) (cart s);
  let subtotal := Py.sum (map item_subtotal items) in
  let tax := tax_of subtotal in
  let shipping := shipping_of subtotal in
  let discount := cart_discount (coupons db) (session_coupon_code s) now subtotal in
  let grand_total := (subtotal + tax + shipping - discount)%Q in
  Some (mkTotals items subtotal tax shipping discount grand_total).

(** *** The pricing lines in binary64 *)

(** The money of [cart_items] above is rational: [tax_of], [cart_discount]
    and the sums are the code's expressions read over the real numbers.
    The lines below are the same expressions on the doubles that the code
    computes with, for the places where the last bit matters. *)

(** The literal [0.18]. *)
Definition tax_rate : spec_float := B64.ratio false 18 100.

(** [item_subtotal = qty * product.price]; the subtotal of a cart with one
    line is that line's subtotal. *)
Definition line_subtotal_b64 (qty : Z) (price : spec_float) : spec_float :=
  B64.mul (B64.of_int qty) price.

(** [tax = round(subtotal * 0.18, 2)] *)
Definition tax_b64 (subtotal : spec_float) : spec_float :=
  B64.round2 (B64.mul subtotal tax_rate).


(** [min(subtotal * coupon.discount_value / 100, max_discount)] for a
    percentage coupon with a cap that is set and not zero. *)
Definition capped_discount_b64 (subtotal discount_value max_discount : spec_float)
  : spec_float :=
  B64.min (B64.div (B64.mul subtotal discount_value) (B64.of_int 100)) max_discount.



(** ** app.py: identifiers, clock and randomness *)

(** What one request reads from outside the tables: [datetime.utcnow()]
    (seconds on the time line, and its [strftime('%Y%m%d%H%M%S')] text),
    [random.randint(1000, 9999)] and the indices drawn by
    [random.choices(..., k=12)]. *)
Record Env := mkEnv {
  utcnow : Z;
  utcnow_stamp : string;
  randint : Z;
  random_index : nat -> nat
}.

Definition tracking_alphabet : list ascii :=
  list_ascii_of_string "ABCDEFGHIJKLMNOPQRSTUVWXYZ0123456789".

Definition random_choices (e : Env) (k : nat) : list ascii :=
  map (fun i => nth (random_index e i mod 36)%nat tracking_alphabet "A"%char) (seq 0 k).

Definition generate_order_number (e : Env) : string :=
  "MZ" +:+ utcnow_stamp e +:+ pretty (randint e).

Definition generate_tracking_code (e : Env) : string :=
  "MZ-" +:+ string_of_list_ascii (random_choices e 12).

(** ** app.py: cart handlers *)

(** [d[k] = v] on a [dict] kept in insertion order. *)
Fixpoint dict_set (k : string) (v : Z) (d : list (string * Z)) : list (string * Z) :=
  match d with
  | [] => [(k, v)]
  | (k', v') :: d' => if String.eqb k' k then (k', v) :: d' else (k', v') :: dict_set k v d'
  end.

(** [d.get(k, default)] *)
Fixpoint dict_get (k : string) (d : list (string * Z)) (default : Z) : Z :=
  match d with
  | [] => default
  | (k', v') :: d' => if String.eqb k' k then v' else dict_get k d' default
  end.

Inductive CartResult :=
  | CartRaised          (* 404 or an exception: nothing stored *)
  | CartRejected        (* flashed a warning, session untouched *)
  | CartStored.

(** [cart_add(product_id)] with the form's [quantity] field ([None]: the
    field is absent and the default [1] is used). *)
Definition cart_add (db : Db) (s : Session) (product_id : Z) (quantity : option string)
  : CartResult * Session :=
  match products db !! product_id with
  | None => (CartRaised, s)
  | Some product =>
      if negb (Product.is_active product) || (Product.stock product <=? 0)
      then (CartRejected, s)
      else
        match (match quantity with Some q => Py.int q | None => Some 1 end) with
        | None => (CartRaised, s)
        | Some q =>
            let qty := Z.max 1 q in
            let current_qty := dict_get (pretty product_id) (cart s) 0 in
            let new_qty := current_qty + qty in
            let new_qty := if Product.stock product <? new_qty
                           then Product.stock product else new_qty in
            (CartStored,
             mkSession (dict_set (pretty product_id) new_qty (cart s))
                       (session_coupon_code s))
        end
  end.

(** [str.startswith] *)
Fixpoint startswith (p s : string) : bool :=
  match p, s with
  | EmptyString, _ => true
  | String a p', String b s' => Ascii.eqb a b && startswith p' s'
  | String _ _, EmptyString => false
  end.

(** [s.replace(old, '')] for a non-empty [old]: occurrences are removed left
    to right without overlap; [skip] counts the characters of the current
    occurrence still to drop. *)
Fixpoint remove_all (old : string) (skip : nat) (s : string) : string :=
  match s with
  | EmptyString => EmptyString
  | String c s' =>
      match skip with
      | S n => remove_all old n s'
      | O =>
          if startswith old s
          then remove_all old (String.length old - 1) s'
          else String c (remove_all old O s')
      end
  end.

(** The loop of [cart_update] over [request.form.items()]; [None] when an
    [int(...)] raises. *)
Fixpoint cart_update_loop (ps : gmap Z Product.t) (form : list (string * string))
    (cart : list (string * Z)) : option (list (string * Z)) :=
  match form with
  | [] => Some cart
  | (key, value) :: rest =>
      if startswith "qty_" key then
        let pid := remove_all "qty_" O key in
        v ← Py.int value;
        let qty := Z.max 1 v in
        k ← Py.int pid;
        match ps !! k with
        | Some product =>
            if Product.is_active product
            then cart_update_loop ps rest (dict_set pid (Z.min qty (Product.stock product)) cart)
            else cart_update_loop ps rest cart
        | None => cart_update_loop ps rest cart
        end
      else cart_update_loop ps rest cart
  end.

Definition cart_update (db : Db) (s : Session) (form : list (string * string))
  : CartResult * Session :=
  match cart_update_loop (products db) form [] with
  | Some cart => (CartStored, mkSession cart (session_coupon_code s))
  | None => (CartRaised, s)
  end.

(** [cart_remove(product_id)]: [cart.pop(str(product_id), None)] *)
Definition cart_remove (s : Session) (product_id : Z) : Session :=
  mkSession (List.filter (fun kv => negb (String.eqb (fst kv) (pretty product_id))) (cart s))
            (session_coupon_code s).

(** ASCII [str.upper]. *)
Definition upper_ascii (c : ascii) : ascii :=
  let n := nat_of_ascii c in
  if ((97 <=? n) && (n <=? 122))%nat then ascii_of_nat (n - 32) else c.

Fixpoint upper (s : string) : string :=
  match s with
  | EmptyString => EmptyString
  | String c s' => String (upper_ascii c) (upper s')
  end.

Inductive CouponResult :=
  | CouponRaised
  | InvalidCouponCode
  | CouponExpired
  | UsageLimitReached
  | MinimumPurchaseRequired
  | CouponApplied.

(** [cart_coupon()] with the form's [coupon_code] field. *)
Definition cart_coupon (db : Db) (s : Session) (now : Z) (coupon_code : string)
  : CouponResult * Session :=
  let code := upper (Py.strip coupon_code) in
  match find_active_coupon (coupons db) code with
  | None => (InvalidCouponCode, s)
  | Some coupon =>
      if (now <? Coupon.valid_from coupon) || (Coupon.valid_until coupon <? now)
      then (CouponExpired, s)
      else if (match Coupon.usage_limit coupon with
               | Some limit => negb (limit =? 0) && (limit <=? Coupon.used_count coupon)
               | None => false
               end)
      then (UsageLimitReached, s)
      else
        match cart_items db s now with
        | None => (CouponRaised, s)
        | Some t =>
            if negb (Qle_bool (Coupon.min_purchase coupon) (t_subtotal t))
            then (MinimumPurchaseRequired, s)
            else (CouponApplied, mkSession (cart s) (Some code))
        end
  end.

(** [cart_coupon_remove()] *)
Definition cart_coupon_remove (s : Session) : Session :=
  mkSession (cart s) None.

(** ** app.py: checkout *)

(** The submitted [CheckoutForm]. *)
Record CheckoutForm := mkCheckoutForm {
  validate_on_submit : bool;
  form_address_id : option Z;
  form_payment_method : string;
  form_notes : option string
}.

Definition newline : string := String (ascii_of_nat 10) EmptyString.

Definition format_address (a : Address.t) : string :=
  let shipping_address :=
    Address.name a +:+ ", " +:+ Address.mobile a +:+ newline +:+ Address.address_line1 a in
  let shipping_address :=
    match Address.address_line2 a with
    | Some (String _ _ as l2) => shipping_address +:+ newline +:+ l2
    | _ => shipping_address
    end in
  shipping_address +:+ newline +:+ Address.city a +:+ ", " +:+ Address.state a +:+ " "
    +:+ Address.pincode a +:+ newline +:+ Address.country a.

Inductive AddressChoice :=
  | AddressOk (shipping_address : string)
  | InvalidAddress
  | NoAddress.

(** The "Get or create address" block of [checkout]. *)
Definition resolve_address (db : Db) (u : User.t) (address_id : option Z) : AddressChoice :=
  if (match address_id with Some i => 0 <? i | None => false end) then
    match List.find (fun a => Address.id a =? default 0 address_id) (addresses db) with
    | Some address =>
        if Address.user_id address =? User.id u
        then AddressOk (format_address address)
        else InvalidAddress
    | None => InvalidAddress
    end
  else
    let mine := filter (fun a => Address.user_id a = User.id u) (addresses db) in
    match mine with
    | first :: _ =>
        let address := default first (List.find Address.is_default mine) in
        AddressOk (format_address address)
    | [] => NoAddress
    end.

(** The primary key given to a new [Order] row: one more than the largest
    key in use. *)
Definition next_order_id (os : gmap Z Order.t) : Z :=
  1 + foldr Z.max 0 (map fst (map_to_list os)).

(** The unique constraints on [order_number] and [tracking_code], which make
    the flush or commit of a clashing row raise [IntegrityError]. *)
Definition order_number_in_use (os : gmap Z Order.t) (n : string) : bool :=
  existsb (fun kv => String.eqb (Order.order_number (snd kv)) n) (map_to_list os).

Definition tracking_code_in_use (os : gmap Z Order.t) (code : string) : bool :=
  existsb (fun kv => match Order.tracking_code (snd kv) with
                     | Some c => String.eqb c code
                     | None => false
                     end)
          (map_to_list os).

Definition violates_unique (os : gmap Z Order.t) (o : Order.t) : bool :=
  order_number_in_use os (Order.order_number o)
  || match Order.tracking_code o with
     | Some code => tracking_code_in_use os code
     | None => false
     end.

(** One turn of the loop "Add order items and update stock". The product is
    the live object: its stock is read from the store at this point. *)
Definition place_item (oid : Z) (st : gmap Z Product.t * list OrderItem.t) (item : CartItem)
  : gmap Z Product.t * list OrderItem.t :=
  match st.1 !! item_product item with
  | Some product =>
      let product' :=
        Product.mk (Product.name product) (Product.price product)
          (Z.max 0 (Product.stock product - item_quantity item))
          (Product.sku product)
          (Product.sold_count product + item_quantity item)
          (Product.is_active product) in
      (<[item_product item := product']> st.1,
       st.2 ++ [OrderItem.mk oid (item_product item) (item_quantity item)
                  (Product.price product) (Product.name product) (Product.sku product)])
  | None => st
  end.

Definition increment_used (c : Coupon.t) : Coupon.t :=
  Coupon.mk (Coupon.code c) (Coupon.discount_type c) (Coupon.discount_value c)
    (Coupon.min_purchase c) (Coupon.max_discount c) (Coupon.usage_limit c)
    (Coupon.used_count c + 1) (Coupon.valid_from c) (Coupon.valid_until c)
    (Coupon.is_active c).

(** "Update coupon usage": the first row with the code, active or not. *)
Fixpoint use_coupon (code : string) (cs : list Coupon.t) : list Coupon.t :=
  match cs with
  | [] => []
  | c :: cs' =>
      if String.eqb (Coupon.code c) code then increment_used c :: cs'
      else c :: use_coupon code cs'
  end.

Inductive CheckoutResult :=
  | CheckoutRaised
  | EmptyCart
  | RenderCheckout
  | InvalidAddressSelected
  | AddAddressFirst
  | OrderPlaced (order_id : Z).

Definition empty_cart_session : Session := mkSession [] None.

(** The [Order(...)] row that [checkout] builds. *)
Definition new_order (s : Session) (u : User.t) (form : CheckoutForm) (e : Env)
    (t : Totals) (shipping_address : string) : Order.t :=
  Order.mk (User.id u) (generate_order_number e) "placed" "pending"
    (form_payment_method form)
    (t_subtotal t) (t_tax t) (t_shipping t) (t_discount t)
    (session_coupon_code s) (t_grand_total t)
    shipping_address (Some (generate_tracking_code e))
    (Some (utcnow e + 5 * 86400)) None (form_notes form).

(** "Update coupon usage" for the session's code. *)
Definition count_coupon_use (s : Session) (cs : list Coupon.t) : list Coupon.t :=
  match session_coupon_code s with
  | Some (String _ _ as coupon_code) => use_coupon coupon_code cs
  | _ => cs
  end.

(** [checkout()] for the logged-in user [u]. *)
Definition checkout (db : Db) (s : Session) (u : User.t) (form : CheckoutForm) (e : Env)
  : CheckoutResult * Db * Session :=
  match cart_items db s (utcnow e) with
  | None => (CheckoutRaised, db, s)
  | Some t =>
      match t_items t with
      | [] => (EmptyCart, db, s)
      | _ :: _ =>
          if negb (validate_on_submit form) then (RenderCheckout, db, s)
          else
            match resolve_address db u (form_address_id form) with
            | InvalidAddress => (InvalidAddressSelected, db, s)
            | NoAddress => (AddAddressFirst, db, s)
            | AddressOk shipping_address =>
                let order := new_order s u form e t shipping_address in
                if violates_unique (orders db) order then (CheckoutRaised, db, s)
                else
                  let oid := next_order_id (orders db) in
                  let st := fold_left (place_item oid) (t_items t)
                                      (products db, order_items db) in
                  (OrderPlaced oid,
                   mkDb st.1 (count_coupon_use s (coupons db))
                        (<[oid := order]> (orders db)) st.2 (addresses db),
                   empty_cart_session)
            end
      end
  end.

(** ** app.py: order lifecycle *)

Inductive CancelResult :=
  | OrderNotFound
  | NotAuthorized
  | CannotBeCancelled
  | OrderCancelled.

Definition set_status (o : Order.t) (status payment_status : string) : Order.t :=
  Order.mk (Order.user_id o) (Order.order_number o) status payment_status
    (Order.payment_method o) (Order.subtotal o) (Order.tax o) (Order.shipping o)
    (Order.discount o) (Order.coupon_code o) (Order.total o)
    (Order.shipping_address o) (Order.tracking_code o)
    (Order.estimated_delivery o) (Order.delivered_at o) (Order.notes o).

(** One turn of the loop "Restore stock". *)
Definition restore_item (ps : gmap Z Product.t) (item : OrderItem.t) : gmap Z Product.t :=
  match ps !! OrderItem.product_id item with
  | Some product =>
      <[OrderItem.product_id item :=
          Product.mk (Product.name product) (Product.price product)
            (Product.stock product + OrderItem.quantity item)
            (Product.sku product) (Product.sold_count product)
            (Product.is_active product)]> ps
  | None => ps
  end.

Definition cancellable (status : string) : bool :=
  String.eqb status "placed" || String.eqb status "packed".

(** [order_cancel(order_id)] for the logged-in user [u]. *)
Definition order_cancel (db : Db) (u : User.t) (order_id : Z) : CancelResult * Db :=
  match orders db !! order_id with
  | None => (OrderNotFound, db)
  | Some order =>
      if negb (Order.user_id order =? User.id u) && negb (User.is_admin u)
      then (NotAuthorized, db)
      else if negb (cancellable (Order.status order))
      then (CannotBeCancelled, db)
      else
        let order' :=
          set_status order "cancelled"
            (if String.eqb (Order.payment_status order) "paid"
             then "refunded" else "cancelled") in
        (OrderCancelled,
         mkDb (fold_left restore_item (order_items_of db order_id) (products db))
              (coupons db)
              (<[order_id := order']> (orders db))
              (order_items db) (addresses db))
  end.

Inductive AdminResult :=
  | AdminLoginRequired
  | AdminNotFound
  | AdminRaised
  | OrderUpdated.

(** The [POST] branch of [admin_orders()] with the form's [order_id]
    (already an integer) and [status]. *)
Definition admin_orders (db : Db) (u : User.t) (order_id : Z) (status : string) (e : Env)
  : AdminResult * Db :=
  if negb (User.is_admin u) then (AdminLoginRequired, db)
  else
    match orders db !! order_id with
    | None => (AdminNotFound, db)
    | Some order =>
        let generate :=
          String.eqb status "shipped" && negb (Py.truthy (Order.tracking_code order)) in
        let tracking_code :=
          if generate then Some (generate_tracking_code e)
          else Order.tracking_code order in
        if generate && tracking_code_in_use (delete order_id (orders db)) (generate_tracking_code e)
        then (AdminRaised, db) else
        let delivered := String.eqb status "delivered" in
        let order' :=
          Order.mk (Order.user_id order) (Order.order_number order) status
            (if delivered then "paid" else Order.payment_status order)
            (Order.payment_method order) (Order.subtotal order) (Order.tax order)
            (Order.shipping order) (Order.discount order) (Order.coupon_code order)
            (Order.total order) (Order.shipping_address order) tracking_code
            (Order.estimated_delivery order)
            (if delivered then Some (utcnow e) else Order.delivered_at order)
            (Order.notes order) in
        (OrderUpdated,
         mkDb (products db) (coupons db) (<[order_id := order']> (orders db))
              (order_items db) (addresses db))
    end.

(** ** app.py: uploads *)

Definition ALLOWED_EXTENSIONS : list string := ["png"; "jpg"; "jpeg"; "webp"; "gif"].

(** ASCII [str.lower]. *)
Definition lower_ascii (c : ascii) : ascii :=
  let n := nat_of_ascii c in
  if ((65 <=? n) && (n <=? 90))%nat then ascii_of_nat (n + 32) else c.

Fixpoint lower (s : string) : string :=
  match s with
  | EmptyString => EmptyString
  | String c s' => String (lower_ascii c) (lower s')
  end.

(** [s.rsplit('.', 1)[1]]: the text after the last ['.'] of [s]; [None]
    when [s] has no ['.']. *)
Fixpoint after_last_dot (s : string) : option string :=
  match s with
  | EmptyString => None
  | String c s' =>
      match after_last_dot s' with
      | Some ext => Some ext
      | None => if Ascii.eqb c "." then Some s' else None
      end
  end.

(** [allowed_file(filename)] *)
Definition allowed_file (filename : string) : bool :=
  match after_last_dot filename with
  | Some ext => existsb (String.eqb (lower ext)) ALLOWED_EXTENSIONS
  | None => false
  end.

(** ** app.py: saved addresses *)

Inductive AddressDeleteResult :=
  | AddressNotFound
  | AddressUnauthorized
  | AddressDeleted.

(** [address_delete(address_id)] for the logged-in user [u]; the row is
    deleted by its primary key. *)
Definition address_delete (db : Db) (u : User.t) (address_id : Z)
  : AddressDeleteResult * Db :=
  match List.find (fun a => Address.id a =? address_id) (addresses db) with
  | None => (AddressNotFound, db)
  | Some address =>
      if negb (Address.user_id address =? User.id u)
      then (AddressUnauthorized, db)
      else (AddressDeleted,
            mkDb (products db) (coupons db) (orders db) (order_items db)
                 (List.filter (fun a => negb (Address.id a =? address_id)) (addresses db)))
  end.

(** ** models.py and app.py: reviews *)

Module Review.
Record t := mk {
  user_id : Z;
  product_id : Z;
  rating : Z;
  approved : bool
}.
End Review.

(** [Product.update_rating] for the product with key [product_id], over the
    [Review] table: the values it assigns to [rating] and [review_count]. *)
Definition update_rating (reviews : list Review.t) (product_id : Z) : Q * Z :=
  let reviews :=
    List.filter (fun r => (Review.product_id r =? product_id) && Review.approved r) reviews in
  match reviews with
  | [] => (0%Q, 0)
  | _ :: _ =>
      ((inject_Z (fold_left Z.add (map Review.rating reviews) 0%Z)
        / inject_Z (Z.of_nat (length reviews)))%Q,
       Z.of_nat (length reviews))
  end.

Inductive ReviewResult :=
  | ReviewProductNotFound
  | ReviewFormInvalid
  | AlreadyReviewed
  | ReviewSubmitted (rating : Q) (review_count : Z).

(** [add_review(product_id)] for the logged-in user [u], with the validated
    form's [rating]; returns the [Review] table afterwards. *)
Definition add_review (db : Db) (reviews : list Review.t) (u : User.t) (product_id : Z)
    (validate_on_submit : bool) (rating : Z) : ReviewResult * list Review.t :=
  match products db !! product_id with
  | None => (ReviewProductNotFound, reviews)
  | Some _ =>
      if negb validate_on_submit then (ReviewFormInvalid, reviews)
      else if existsb (fun r => (Review.user_id r =? User.id u)
                                && (Review.product_id r =? product_id)) reviews
      then (AlreadyReviewed, reviews)
      else
        let reviews' := reviews ++ [Review.mk (User.id u) product_id rating false] in
        (ReviewSubmitted (update_rating reviews' product_id).1
                         (update_rating reviews' product_id).2,
         reviews')
  end.

(** ** scripts/normalize_images.py *)

(** [c in s] for a one-character [c]. *)
Fixpoint contains (c : ascii) (s : string) : bool :=
  match s with
  | EmptyString => false
  | String a s' => Ascii.eqb a c || contains c s'
  end.

(** [normalize_value(p)] for a nullable [Product.image]. *)
Definition normalize_value (p : option string) : option string :=
  match p with
  | None | Some EmptyString => None
  | Some p =>
      let s := Py.strip p in
      match s with
      | EmptyString => None
      | String _ _ =>
          if startswith "http://" s || startswith "https://" s then Some s
          else if startswith "/static/" s then Some s
          else if startswith "static/" s then Some ("/" +:+ s)
          else if negb (contains "/" s) then Some ("/uploads/" +:+ s)
          else Some (if startswith "/" s then s else "/" +:+ s)
      end
  end.

(** * Notions used in the statements *)

(** A product that [cart_items] prices: active, with stock. *)
Definition available (p : Product.t) : Prop :=
  Product.is_active p = true /\ 0 < Product.stock p.

(** The line that [cart_items] builds for an available product. *)
Definition line_of (k qty : Z) (p : Product.t) : CartItem :=
  mkItem k (Z.min qty (Product.stock p))
         (inject_Z (Z.min qty (Product.stock p)) * Product.price p)%Q.

(** The quantities of the priced lines that refer to product [k], in cart
    order. *)
Definition quantities_for (k : Z) (items : list CartItem) : list Z :=
  map item_quantity (filter (fun it => item_product it = k) items).

(** The stock left after the decrements [qs], each one stopping at zero. *)
Definition drain (stock : Z) (qs : list Z) : Z :=
  fold_left (fun st q => Z.max 0 (st - q)) qs stock.

Definition total_of (qs : list Z) : Z := fold_right Z.add 0 qs.

(** The [OrderItem] row that snapshots product [p] for a priced line. *)
Definition snapshot (oid : Z) (p : Product.t) (item : CartItem) : OrderItem.t :=
  OrderItem.mk oid (item_product item) (item_quantity item)
    (Product.price p) (Product.name p) (Product.sku p).

(** The quantities of the order lines of order [oid] that refer to product
    [k]. *)
Definition ordered_for (k : Z) (ois : list OrderItem.t) : list Z :=
  map OrderItem.quantity (filter (fun oi => OrderItem.product_id oi = k) ois).

Definition with_stock (p : Product.t) (stock sold_count : Z) : Product.t :=
  Product.mk (Product.name p) (Product.price p) stock (Product.sku p)
    sold_count (Product.is_active p).

(** ** The storefront as a transition system

    The store and the sessions of all clients; one step is one request
    served by a handler of the cart, checkout and order-lifecycle code. A
    client without a session yet has the empty one. *)

Record World := mkWorld {
  w_db : Db;
  w_sessions : gmap nat Session
}.

Definition session_of (w : World) (client : nat) : Session :=
  default empty_cart_session (w_sessions w !! client).

Definition with_session (w : World) (client : nat) (s : Session) : World :=
  mkWorld (w_db w) (<[client := s]> (w_sessions w)).

Inductive step : World -> World -> Prop :=
  | step_cart_add w c product_id quantity :
      step w (with_session w c
                (cart_add (w_db w) (session_of w c) product_id quantity).2)
  | step_cart_update w c form :
      step w (with_session w c (cart_update (w_db w) (session_of w c) form).2)
  | step_cart_remove w c product_id :
      step w (with_session w c (cart_remove (session_of w c) product_id))
  | step_cart_coupon w c now code :
      step w (with_session w c (cart_coupon (w_db w) (session_of w c) now code).2)
  | step_cart_coupon_remove w c :
      step w (with_session w c (cart_coupon_remove (session_of w c)))
  | step_checkout w c u form e :
      step w (mkWorld (checkout (w_db w) (session_of w c) u form e).1.2
                (<[c := (checkout (w_db w) (session_of w c) u form e).2]> (w_sessions w)))
  | step_order_cancel w u order_id :
      step w (mkWorld (order_cancel (w_db w) u order_id).2 (w_sessions w))
  | step_admin_orders w u order_id status e :
      step w (mkWorld (admin_orders (w_db w) u order_id status e).2 (w_sessions w)).

(** Every product's stock is a non-negative integer. *)
Definition stock_nonneg (db : Db) : Prop :=
  forall k p, products db !! k = Some p -> 0 <= Product.stock p.

(** Every stored order line has a non-negative quantity. *)
Definition lines_nonneg (db : Db) : Prop :=
  Forall (fun oi => 0 <= OrderItem.quantity oi) (order_items db).

(** Every quantity in a cart is non-negative. *)
Definition cart_nonneg (s : Session) : Prop :=
  Forall (fun kv => 0 <= kv.2) (cart s).

Definition consistent (w : World) : Prop :=
  stock_nonneg (w_db w) /\ lines_nonneg (w_db w) /\
  forall c s, w_sessions w !! c = Some s -> cart_nonneg s.

(** ** Decimal text *)

(** A string of decimal digits, and the number it denotes after [acc]. *)
Fixpoint all_digits (s : string) : bool :=
  match s with
  | EmptyString => true
  | String c s' =>
      match Py.digit_val c with
      | Some _ => all_digits s'
      | None => false
      end
  end.

Fixpoint digits_value (acc : Z) (s : string) : Z :=
  match s with
  | EmptyString => acc
  | String c s' => digits_value (10 * acc + default 0 (Py.digit_val c)) s'
  end.

(** A text of ASCII characters only: the texts on which [Py.int] is
    [int()]. *)
Fixpoint is_ascii (s : string) : bool :=
  match s with
  | EmptyString => true
  | String c s' => (nat_of_ascii c <? 128)%nat && is_ascii s'
  end.

(** A form field on which [Py.int] is [int()]: ASCII text of at most 4300
    characters, the default limit of [int()] on the digits of a literal. *)
Definition short_ascii (s : string) : bool :=
  is_ascii s && (String.length s <=? 4300)%nat.

Fixpoint no_space (s : string) : bool :=
  match s with
  | EmptyString => true
  | String c s' => negb (Py.isspace c) && no_space s'
  end.

(** ** Entries of an updated cart *)

(** An entry that [cart_update] stores: it comes from a [qty_] field of the
    form whose value is an integer [v] and whose key names an active
    product, and holds min(max(1, v), stock). *)
Definition update_entry (db : Db) (form : list (string * string)) (pid : string) (qty : Z)
  : Prop :=
  exists key value v k p,
    In (key, value) form /\ startswith "qty_" key = true /\
    pid = remove_all "qty_" 0 key /\
    Py.int value = Some v /\ Py.int pid = Some k /\
    products db !! k = Some p /\ Product.is_active p = true /\
    qty = Z.min (Z.max 1 v) (Product.stock p).

(** ** Further notions *)

(** Every stored order line belongs to a stored order (the foreign key of
    [OrderItem.order_id]). *)
Definition lines_reference_orders (db : Db) : Prop :=
  Forall (fun oi => is_Some (orders db !! OrderItem.order_id oi)) (order_items db).

Fixpoint has_dot (s : string) : bool :=
  match s with
  | EmptyString => false
  | String c s' => Ascii.eqb c "." || has_dot s'
  end.

(** The approved reviews of a product. *)
Definition approved_for (product_id : Z) (reviews : list Review.t) : list Review.t :=
  List.filter (fun r => (Review.product_id r =? product_id) && Review.approved r) reviews.

(** The reviews of a product by a user. *)
Definition reviews_by (user_id product_id : Z) (reviews : list Review.t) : list Review.t :=
  List.filter (fun r => (Review.user_id r =? user_id) && (Review.product_id r =? product_id))
              reviews.

(** Order numbers and tracking codes identify orders: no two stored orders
    share one. *)
Definition unique_identifiers (db : Db) : Prop :=
  forall i j oi oj,
    orders db !! i = Some oi -> orders db !! j = Some oj -> i <> j ->
    Order.order_number oi <> Order.order_number oj /\
    (forall c, Order.tracking_code oi = Some c -> Order.tracking_code oj <> Some c).

(** A text that does not start with white space. *)
Definition first_ok (s : string) : bool :=
  match s with
  | EmptyString => true
  | String c _ => negb (Py.isspace c)
  end.

(** A text without white space at either end. *)
Definition stripped (s : string) : Prop :=
  first_ok s = true /\ first_ok (String.rev s) = true.

(** * The specification's own formulas

    Written from the specification's words, to be compared with the code. *)

(** "Standard half-up rounding to 2 decimals": the hundredth below
    [x + 0.005]. *)
Definition round_half_up2 (x : Q) : Q :=
  (inject_Z (Qfloor (x * 100 + (1 # 2))) / 100)%Q.

(** "percentage type: discount = min(subtotal * discountValue / 100,
    maxDiscount if set else subtotal)"; "fixed type: discount =
    min(discountValue, subtotal)". *)
Definition spec_discount (c : Coupon.t) (subtotal : Q) : Q :=
  if String.eqb (Coupon.discount_type c) "percentage"
  then Qmin (subtotal * Coupon.discount_value c / 100)%Q
            (match Coupon.max_discount c with Some m => m | None => subtotal end)
  else Qmin (Coupon.discount_value c) subtotal.

(** A coupon that passes the validator of 4.2: "isActive", "now" inside
    "[validFrom, validUntil]", "usageLimit" unset or "usedCount" below it,
    and "subtotal" not below "minPurchase". *)
Definition spec_valid (c : Coupon.t) (subtotal : Q) (now : Z) : Prop :=
  Coupon.is_active c = true /\
  (Coupon.valid_from c <= now <= Coupon.valid_until c) /\
  match Coupon.usage_limit c with
  | Some limit => Coupon.used_count c < limit
  | None => True
  end /\
  (Coupon.min_purchase c <= subtotal)%Q.


(** "returns min(requestedQty, currentStock, 1) when product is active and
    stock > 0, else signals Unavailable" *)
Definition spec_reserve_quantity (p : Product.t) (requested : Z) : option Z :=
  if Product.is_active p && (0 <? Product.stock p)
  then Some (Z.min (Z.min requested (Product.stock p)) 1)
  else None.

(** * Example data *)

Module Sample.

Definition car : Product.t := Product.mk "Metal Car" 100 5 "MC-1" 0 true.
Definition truck : Product.t := Product.mk "RC Truck" 250 3 "RC-2" 0 true.
Definition retired : Product.t := Product.mk "Old Car" 80 4 "OC-3" 7 false.
Definition sold_out : Product.t := Product.mk "Rare Car" 900 0 "RR-4" 2 true.

Definition catalog : gmap Z Product.t :=
  <[1 := car]> (<[2 := truck]> (<[3 := retired]> (<[4 := sold_out]> ∅))).

(** 50% off, capped at 100, one use, already used once. *)
Definition half : Coupon.t :=
  Coupon.mk "HALF" "percentage" 50 0 (Some 100%Q) (Some 1) 1 0 1000 true.
(** 200% off with a cap above the subtotals below. *)
Definition double : Coupon.t :=
  Coupon.mk "DOUBLE" "percentage" 200 0 (Some 1000%Q) None 0 0 1000 true.
(** 10% off with the cap set to zero. *)
Definition tenth : Coupon.t :=
  Coupon.mk "TENTH" "percentage" 10 0 (Some 0%Q) None 0 0 1000 true.
(** 1000 off. *)
Definition flat : Coupon.t :=
  Coupon.mk "FLAT" "fixed" 1000 0 None None 0 0 1000 true.

(** 50 off, usable once, not used yet. *)
Definition once : Coupon.t :=
  Coupon.mk "ONCE" "fixed" 50 0 None (Some 1) 0 0 1000 true.

Definition home : Address.t :=
  Address.mk 7 1 "Asha" "9000000000" "1 Main Road" None "Pune" "MH" "411001" "India" true.

Definition db : Db := mkDb catalog [half; double; tenth; flat; once] ∅ [] [home].

(** Another user's default address, then two addresses of the customer,
    none of them the default. *)
Definition neighbour : Address.t :=
  Address.mk 6 2 "Ravi" "9000000001" "3 Lake View" None "Pune" "MH" "411003" "India" true.
Definition office : Address.t :=
  Address.mk 8 1 "Asha" "9000000000" "2 Mill Lane" None "Pune" "MH" "411002" "India" false.
Definition depot : Address.t :=
  Address.mk 9 1 "Asha" "9000000000" "5 Dock Road" None "Pune" "MH" "411004" "India" false.
Definition address_book : Db := mkDb catalog [] ∅ [] [neighbour; office; depot].

Definition customer : User.t := User.mk 1 false.
Definition admin : User.t := User.mk 9 true.

Definition env : Env := mkEnv 500 "20260101120000" 4321 (fun i => i).
Definition later : Env := mkEnv 560 "20260101120100" 8765 (fun i => 2 * i)%nat.

Definition form : CheckoutForm := mkCheckoutForm true None "cod" None.

(** The end-to-end cart of the specification: 2 x 100.00 and 1 x 250.00. *)
Definition basket : Session := mkSession [("1", 2); ("2", 1)] None.

(** One line asking for 8 of a product with 5 in stock, with a coupon. *)
Definition greedy : Session := mkSession [("1", 8)] (Some "HALF").

Definition one_car (code : string) : Session := mkSession [("1", 1)] (Some code).

(** 8 of a product with 5 in stock, with the fixed coupon. *)
Definition overdraw : Session := mkSession [("1", 8)] (Some "FLAT").

(** Two clients put 2 cars in their carts and apply ONCE while it is unused;
    the first one checks out. *)
Definition two_cars : Session := (cart_add db empty_cart_session 1 (Some "2")).2.
Definition two_cars_once : Session := (cart_coupon db two_cars 5 " once ").2.
Definition once_used_db : Db := (checkout db two_cars_once customer form env).1.2.

(** The store after the customer has checked out the basket. *)
Definition placed_db : Db := (checkout db basket customer form env).1.2.

(** A client adds 8 cars to the cart, checks out, then cancels the order. *)
Definition world0 : World := mkWorld db ∅.
Definition world1 : World :=
  with_session world0 0 (cart_add (w_db world0) (session_of world0 0) 1 (Some "8")).2.
Definition world2 : World :=
  mkWorld (checkout (w_db world1) (session_of world1 0) customer form env).1.2
          (<[0%nat := (checkout (w_db world1) (session_of world1 0) customer form env).2]>
             (w_sessions world1)).
Definition world3 : World :=
  mkWorld (order_cancel (w_db world2) customer 1).2 (w_sessions world2).

End Sample.

(** * Properties *)

(** ** Arithmetic of the built-ins *)

Section Builtins.

Local Open Scope Q_scope.

Lemma py_min_l a b : Py.min a b <= a.
Proof.
  unfold Py.min. destruct (Qle_bool a b) eqn:E.
  - apply Qle_refl.
  - apply Qlt_le_weak, Qnot_le_lt. intros H.
    apply Qle_bool_iff in H. congruence.
Qed.

Lemma py_min_r a b : Py.min a b <= b.
Proof.
  unfold Py.min. destruct (Qle_bool a b) eqn:E.
  - now apply Qle_bool_iff.
  - apply Qle_refl.
Qed.

Lemma py_min_cases a b :
  (a <= b /\ Py.min a b = a) \/ (b < a /\ Py.min a b = b).
Proof.
  unfold Py.min. destruct (Qle_bool a b) eqn:E.
  - left. split; [now apply Qle_bool_iff | reflexivity].
  - right. split; [| reflexivity].
    apply Qnot_le_lt. intros H. apply Qle_bool_iff in H. congruence.
Qed.

Lemma or_else_none y : Py.or_else None y = y.
Proof. reflexivity. Qed.

Lemma or_else_zero m y : m == 0 -> Py.or_else (Some m) y = y.
Proof.
  intros H. unfold Py.or_else.
  apply Qeq_bool_iff in H. now rewrite H.
Qed.

Lemma or_else_nonzero m y : ~ m == 0 -> Py.or_else (Some m) y = m.
Proof.
  intros H. unfold Py.or_else.
  destruct (Qeq_bool m 0) eqn:E; [| reflexivity].
  apply Qeq_bool_iff in E. contradiction.
Qed.

(** The fractional part left by [Qfloor]. *)
Lemma floor_frac x : 0 <= x - inject_Z (Qfloor x) /\ x - inject_Z (Qfloor x) < 1.
Proof.
  pose proof (Qfloor_le x) as Hl. pose proof (Qlt_floor x) as Hu.
  rewrite inject_Z_plus in Hu. change (inject_Z 1) with 1 in Hu.
  split; lra.
Qed.

(** [round_half_even] picks a nearest integer. *)
Lemma round_half_even_near x :
  Qabs (x - inject_Z (Py.round_half_even x)) <= 1 # 2.
Proof.
  destruct (floor_frac x) as [H0 H1].
  unfold Py.round_half_even.
  destruct (Qcompare (x - inject_Z (Qfloor x)) (1 # 2)) eqn:E.
  - apply Qeq_alt in E.
    destruct (Z.even (Qfloor x)).
    + apply Qabs_Qle_condition. split; lra.
    + rewrite inject_Z_plus. change (inject_Z 1) with 1.
      apply Qabs_Qle_condition. split; lra.
  - apply Qlt_alt in E. apply Qabs_Qle_condition. split; lra.
  - apply Qgt_alt in E. rewrite inject_Z_plus. change (inject_Z 1) with 1.
    apply Qabs_Qle_condition. split; lra.
Qed.

End Builtins.

(** ** Tax *)

Section Tax.

Local Open Scope Q_scope.

Lemma Qfloor_unique (q : Q) (n : Z) :
  inject_Z n <= q -> q < inject_Z (n + 1) -> Qfloor q = n.
Proof.
  intros Hl Hu.
  pose proof (Qfloor_le q) as Fl. pose proof (Qlt_floor q) as Fu.
  assert (H1 : (Qfloor q < n + 1)%Z).
  { rewrite Zlt_Qlt. eapply Qle_lt_trans; eauto. }
  assert (H2 : (n < Qfloor q + 1)%Z).
  { rewrite Zlt_Qlt. eapply Qle_lt_trans; eauto. }
  lia.
Qed.

Lemma round_half_even_tie_even x :
  Qabs (x - inject_Z (Py.round_half_even x)) == 1 # 2 ->
  Z.even (Py.round_half_even x) = true.
Proof.
  destruct (floor_frac x) as [H0 H1].
  unfold Py.round_half_even.
  destruct (Qcompare (x - inject_Z (Qfloor x)) (1 # 2)) eqn:E.
  - intros _. destruct (Z.even (Qfloor x)) eqn:Ev; [exact Ev |].
    rewrite Z.add_1_r, Z.even_succ, <- Z.negb_even, Ev. reflexivity.
  - apply Qlt_alt in E. intros H.
    rewrite Qabs_pos in H by lra. lra.
  - apply Qgt_alt in E. rewrite inject_Z_plus. change (inject_Z 1) with 1.
    intros H. rewrite Qabs_neg in H by lra. lra.
Qed.

Lemma round_half_even_half_up x :
  ~ x - inject_Z (Qfloor x) == 1 # 2 ->
  Py.round_half_even x = Qfloor (x + (1 # 2)).
Proof.
  intros Hne. destruct (floor_frac x) as [H0 H1].
  unfold Py.round_half_even.
  destruct (Qcompare (x - inject_Z (Qfloor x)) (1 # 2)) eqn:E.
  - apply Qeq_alt in E. contradiction.
  - apply Qlt_alt in E. symmetry. apply Qfloor_unique.
    + lra.
    + rewrite inject_Z_plus. change (inject_Z 1) with 1. lra.
  - apply Qgt_alt in E. symmetry. apply Qfloor_unique.
    + rewrite inject_Z_plus. change (inject_Z 1) with 1. lra.
    + rewrite !inject_Z_plus. change (inject_Z 1) with 1. lra.
Qed.

Lemma round_half_even_nonneg x : 0 <= x -> (0 <= Py.round_half_even x)%Z.
Proof.
  intros H. apply Qfloor_resp_le in H. change (Qfloor 0) with 0%Z in H.
  unfold Py.round_half_even.
  destruct (Qcompare _ _); [destruct (Z.even _) | |]; lia.
Qed.

(** A rounded result keeps the sign it is given. *)
Lemma binary_round_aux_sign s m e l s' m' e' :
  binary_round_aux B64.prec B64.emax s m e l = S754_finite s' m' e' -> s' = s.
Proof.
  unfold binary_round_aux.
  destruct (shr_fexp _ _ _ _ _) as [mrs1 e1].
  destruct (shr_fexp _ _ _ _ _) as [mrs2 e2].
  destruct (shr_m mrs2); [discriminate | | discriminate].
  destruct (Z.leb _ _); [| discriminate]. congruence.
Qed.

Lemma tax_rate_value : tax_rate = S754_finite false 6485183463413514 (-55).
Proof. vm_compute. reflexivity. Qed.

(** The product of a subtotal that is not negative and the rate is not
    negative. *)
Lemma tax_product_sign subtotal s m e :
  B64.leb (B64.of_int 0) subtotal = true ->
  B64.mul subtotal tax_rate = S754_finite s m e -> s = false.
Proof.
  rewrite tax_rate_value. intros Hle Hp.
  destruct subtotal as [sx | sx | | sx mx ex]; try discriminate.
  assert (sx = false) by (destruct sx; [discriminate | reflexivity]). subst sx.
  unfold B64.mul, SFmul in Hp. now apply binary_round_aux_sign in Hp.
Qed.

Lemma value_nonneg m e : 0 <= B64.value (S754_finite false m e).
Proof.
  unfold B64.value. rewrite Qmult_1_l.
  apply Qmult_le_0_compat; [| now apply Qpower_0_le].
  change 0 with (inject_Z 0). rewrite <- Zle_Qle. lia.
Qed.

(** Not C4 as written.  For a subtotal of 6.25 the product with 0.18 is
    1.125 exactly, as a real number and as a double; half-up rounding gives
    1.13 and the code computes 1.12.  For a subtotal of 2.75 the real
    product 0.495 rounds half-up to 0.50; the double product lies below
    0.495 and the code computes 0.49. *)
Lemma tax_half_up_fails :
  (let subtotal := B64.ratio false 625 100 in
   B64.leb (B64.of_int 0) subtotal = true /\
   B64.value subtotal == 625 # 100 /\
   B64.value (B64.mul subtotal tax_rate) == 1125 # 1000 /\
   round_half_up2 ((625 # 100) * 0.18) == 113 # 100 /\
   round_half_up2 (B64.value (B64.mul subtotal tax_rate)) == 113 # 100 /\
   tax_b64 subtotal = B64.ratio false 112 100 /\
   tax_b64 subtotal <> B64.ratio false 113 100) /\
  (let subtotal := B64.ratio false 275 100 in
   B64.leb (B64.of_int 0) subtotal = true /\
   B64.value subtotal == 275 # 100 /\
   B64.value (B64.mul subtotal tax_rate) < 495 # 1000 /\
   round_half_up2 ((275 # 100) * 0.18) == 50 # 100 /\
   tax_b64 subtotal = B64.ratio false 49 100 /\
   tax_b64 subtotal <> B64.ratio false 50 100).
Proof.
  cbv zeta. repeat split; try (vm_compute; congruence).
Qed.

(** C4 (amended). For every subtotal >= 0 the tax is the double nearest to
    k / 100, where k is the integer nearest to 100 * p and p is the double
    that [subtotal * 0.18] evaluates to; when 100 * p is exactly halfway
    between two integers k is the even one, and otherwise k / 100 is the
    half-up rounding of p.  A product that is zero or infinite is the tax
    as it is. *)
Theorem tax_rounds_binary_product (subtotal : spec_float) :
  B64.leb (B64.of_int 0) subtotal = true ->
  let p := B64.mul subtotal tax_rate in
  (forall s m e, p = S754_finite s m e ->
     exists k : Z,
       tax_b64 subtotal = B64.ratio false k 100 /\ (0 <= k)%Z /\
       Qabs (B64.value p * 100 - inject_Z k) <= 1 # 2 /\
       (Qabs (B64.value p * 100 - inject_Z k) == 1 # 2 -> Z.even k = true) /\
       (~ B64.value p * 100 - inject_Z (Qfloor (B64.value p * 100)) == 1 # 2 ->
        inject_Z k / 100 = round_half_up2 (B64.value p))) /\
  ((forall s m e, p <> S754_finite s m e) -> tax_b64 subtotal = p).
Proof.
  intros Hle p. split.
  - intros s m e Hp.
    pose proof (tax_product_sign _ _ _ _ Hle Hp) as ->.
    exists (Py.round_half_even (B64.value p * 100)).
    split; [unfold tax_b64, B64.round2; fold p; now rewrite Hp |].
    split.
    { apply round_half_even_nonneg. rewrite Hp.
      apply Qmult_le_0_compat; [apply value_nonneg | discriminate]. }
    split; [apply round_half_even_near |].
    split; [apply round_half_even_tie_even |].
    intros Hne. unfold round_half_up2. now rewrite round_half_even_half_up.
  - intros Hp. unfold tax_b64, B64.round2. fold p.
    destruct p as [| | | s m e]; try reflexivity. destruct (Hp s m e eq_refl).
Qed.

Lemma tax_rounds_binary_product_witness :
  let p := B64.mul (B64.ratio false 27999 100) tax_rate in
  exists k : Z,
    tax_b64 (B64.ratio false 27999 100) = B64.ratio false k 100 /\ (0 <= k)%Z /\
    Qabs (B64.value p * 100 - inject_Z k) <= 1 # 2 /\
    (Qabs (B64.value p * 100 - inject_Z k) == 1 # 2 -> Z.even k = true) /\
    (~ B64.value p * 100 - inject_Z (Qfloor (B64.value p * 100)) == 1 # 2 ->
     inject_Z k / 100 = round_half_up2 (B64.value p)).
Proof.
  eapply (proj1 (tax_rounds_binary_product (B64.ratio false 27999 100) eq_refl)).
  vm_compute. reflexivity.
Defined.

End Tax.

(** ** Discount *)

Section Discount.

Local Open Scope Q_scope.

Lemma py_min_Qmin a b : Py.min a b == Qmin a b.
Proof.
  destruct (py_min_cases a b) as [[H ->] | [H ->]].
  - symmetry. now apply Q.min_l.
  - symmetry. apply Q.min_r. now apply Qlt_le_weak.
Qed.

(** What the discount block computes for a coupon that the query finds and
    whose window contains [now]. *)
Lemma cart_discount_found cs c a code now subtotal :
  find_active_coupon cs (String a code) = Some c ->
  (Coupon.valid_from c <= now <= Coupon.valid_until c)%Z ->
  cart_discount cs (Some (String a code)) now subtotal =
    if String.eqb (Coupon.discount_type c) "percentage"
    then Py.min (subtotal * Coupon.discount_value c / 100)
                (Py.or_else (Coupon.max_discount c) subtotal)
    else Py.min (Coupon.discount_value c) subtotal.
Proof.
  intros Hf [H1 H2]. unfold cart_discount. rewrite Hf.
  apply Z.leb_le in H1, H2. now rewrite H1, H2.
Qed.

Lemma cart_items_discount db s now t :
  cart_items db s now = Some t ->
  t_discount t = cart_discount (coupons db) (session_coupon_code s) now (t_subtotal t).
Proof.
  unfold cart_items. destruct (cart_lines _ _); simpl; [| discriminate].
  intros [= <-]. reflexivity.
Qed.

(** Not C5 as written.  The coupons DOUBLE and TENTH pass every rule of
    the validator.  DOUBLE, 200% capped at 1000, takes 200 off a subtotal
    of 100, more than the subtotal; TENTH, 10% with the cap set to 0, takes
    10 off where the formula with "maxDiscount if set" gives 0.  On doubles
    even a rate of 100% can take more than the subtotal: for 3 items at
    299.94 under a 100% coupon capped at 1000, subtotal * 100 / 100 is the
    double above the subtotal. *)
Lemma discount_formula_fails :
  (exists t, cart_items Sample.db (Sample.one_car "DOUBLE") 5 = Some t /\
             spec_valid Sample.double (t_subtotal t) 5 /\
             t_subtotal t == 100 /\ t_discount t == 200 /\
             ~ t_discount t <= t_subtotal t) /\
  (exists t, cart_items Sample.db (Sample.one_car "TENTH") 5 = Some t /\
             spec_valid Sample.tenth (t_subtotal t) 5 /\
             t_subtotal t == 100 /\ t_discount t == 10 /\
             spec_discount Sample.tenth (t_subtotal t) == 0 /\
             ~ t_discount t == spec_discount Sample.tenth (t_subtotal t)) /\
  (let subtotal := line_subtotal_b64 3 (B64.ratio false 29994 100) in
   let discount := capped_discount_b64 subtotal (B64.of_int 100) (B64.of_int 1000) in
   B64.ltb subtotal discount = true).
Proof.
  split; [| split].
  - eexists. split; [vm_compute; reflexivity |].
    repeat split; vm_compute; congruence.
  - eexists. split; [vm_compute; reflexivity |].
    repeat split; vm_compute; congruence.
  - vm_compute. reflexivity.
Qed.

(** C5 (amended). For a valid coupon (active, inside its validity window,
    its usage limit not reached, the subtotal not below its minimum
    purchase) a percentage coupon takes min(subtotal * discountValue / 100,
    cap), where the cap is maxDiscount when it is set and not zero and the
    subtotal otherwise; any other coupon takes min(discountValue,
    subtotal).  The discount does not exceed the subtotal for a fixed
    coupon and for a percentage coupon with no cap or a zero cap, and does
    not exceed maxDiscount for a percentage coupon with a cap that is set
    and not zero. *)
Theorem discount_by_coupon_terms db s now t a code c :
  cart_items db s now = Some t ->
  session_coupon_code s = Some (String a code) ->
  find_active_coupon (coupons db) (String a code) = Some c ->
  spec_valid c (t_subtotal t) now ->
  let subtotal := t_subtotal t in
  let pct := subtotal * Coupon.discount_value c / 100 in
  (Coupon.discount_type c = "percentage" ->
   match Coupon.max_discount c with
   | Some m => (~ m == 0 -> t_discount t == Qmin pct m /\ t_discount t <= m) /\
               (m == 0 -> t_discount t == Qmin pct subtotal /\ t_discount t <= subtotal)
   | None => t_discount t == Qmin pct subtotal /\ t_discount t <= subtotal
   end) /\
  (Coupon.discount_type c <> "percentage" ->
   t_discount t == Qmin (Coupon.discount_value c) subtotal /\
   t_discount t <= subtotal).
Proof.
  intros Ht Hs Hf (_ & Hw & _ & _) subtotal pct.
  rewrite (cart_items_discount _ _ _ _ Ht), Hs,
    (cart_discount_found _ _ _ _ _ _ Hf Hw).
  fold subtotal. fold pct. split.
  - intros Hp. rewrite Hp, String.eqb_refl.
    destruct (Coupon.max_discount c) as [m |].
    + split; intros Hm.
      * rewrite (or_else_nonzero _ _ Hm). split; [apply py_min_Qmin | apply py_min_r].
      * rewrite (or_else_zero _ _ Hm). split; [apply py_min_Qmin | apply py_min_r].
    + rewrite or_else_none. split; [apply py_min_Qmin | apply py_min_r].
  - intros Hp. apply String.eqb_neq in Hp. rewrite Hp.
    split; [apply py_min_Qmin | apply py_min_r].
Qed.

Lemma discount_by_coupon_terms_witness :
  exists t, cart_items Sample.db (Sample.one_car "FLAT") 5 = Some t /\
            t_discount t == Qmin 1000 (t_subtotal t) /\
            t_discount t <= t_subtotal t.
Proof.
  eexists. split; [vm_compute; reflexivity |].
  refine (proj2 (discount_by_coupon_terms Sample.db (Sample.one_car "FLAT") 5 _
                   "F" "LAT" Sample.flat _ _ _ _) _).
  - vm_compute. reflexivity.
  - reflexivity.
  - reflexivity.
  - repeat split; vm_compute; congruence.
  - simpl. congruence.
Defined.

(** C10. A percentage coupon whose maxDiscount is set to exactly 0 is priced
    as if it had no cap: the discount is min(subtotal * discountValue / 100,
    subtotal), and so is not 0 on a positive subtotal at a positive rate. *)
Theorem zero_cap_is_no_cap db s now t a code c m :
  cart_items db s now = Some t ->
  session_coupon_code s = Some (String a code) ->
  find_active_coupon (coupons db) (String a code) = Some c ->
  (Coupon.valid_from c <= now <= Coupon.valid_until c)%Z ->
  Coupon.discount_type c = "percentage" ->
  Coupon.max_discount c = Some m ->
  m == 0 ->
  t_discount t == Qmin (t_subtotal t * Coupon.discount_value c / 100) (t_subtotal t) /\
  (0 < t_subtotal t -> 0 < Coupon.discount_value c -> 0 < t_discount t).
Proof.
  intros Ht Hs Hf Hw Hp Hm H0.
  rewrite (cart_items_discount _ _ _ _ Ht), Hs,
    (cart_discount_found _ _ _ _ _ _ Hf Hw), Hp, String.eqb_refl, Hm,
    (or_else_zero _ _ H0).
  split; [apply py_min_Qmin |].
  intros Hs0 Hv0.
  set (v := Coupon.discount_value c) in *. set (x := t_subtotal t) in *.
  assert (Hxv : 0 < x * v) by nra.
  destruct (py_min_cases (x * v / 100) x) as [[_ ->] | [_ ->]]; [| exact Hs0].
  apply Qlt_shift_div_l; [reflexivity |]. now rewrite Qmult_0_l.
Qed.

Lemma zero_cap_is_no_cap_witness :
  exists t, cart_items Sample.db (Sample.one_car "TENTH") 5 = Some t /\
            t_discount t == Qmin (t_subtotal t * 10 / 100) (t_subtotal t) /\
            (0 < t_subtotal t -> 0 < 10 -> 0 < t_discount t).
Proof.
  eexists. split; [vm_compute; reflexivity |].
  apply (zero_cap_is_no_cap Sample.db (Sample.one_car "TENTH") 5 _
           "T" "ENTH" Sample.tenth 0).
  - vm_compute. reflexivity.
  - reflexivity.
  - reflexivity.
  - simpl. lia.
  - reflexivity.
  - reflexivity.
  - reflexivity.
Defined.

(** C6, the code at the failing input: the coupon HALF has usageLimit 1 and
    usedCount 1. Applying it is refused ([cart_coupon]), yet a session that
    still carries its code is priced with the discount, at cart view and in
    the order that checkout stores, and checkout counts a second use. Such
    a session arises from the handlers: two clients apply ONCE (usageLimit
    1) while it is unused, and after the first has checked out the second
    is still given the discount and checks out with it. *)
Lemma exhausted_coupon_still_discounts :
  fst (cart_coupon Sample.db (mkSession [("1", 8%Z)] None) 5 "half") = UsageLimitReached /\
  (exists t, cart_items Sample.db Sample.greedy 5 = Some t /\
             t_subtotal t == 500 /\ t_discount t == 100) /\
  (let r := checkout Sample.db Sample.greedy Sample.customer Sample.form Sample.env in
   r.1.1 = OrderPlaced 1 /\
   (exists o, orders r.1.2 !! 1%Z = Some o /\ Order.discount o == 100) /\
   map Coupon.used_count (coupons r.1.2) = [2; 0; 0; 0; 0]%Z) /\
  (Sample.two_cars_once = mkSession [("1", 2%Z)] (Some "ONCE") /\
   map Coupon.used_count (coupons Sample.once_used_db) = [1; 0; 0; 0; 1]%Z /\
   fst (cart_coupon Sample.once_used_db Sample.two_cars 5 "once") = UsageLimitReached /\
   (exists t, cart_items Sample.once_used_db Sample.two_cars_once 5 = Some t /\
              t_discount t == 50) /\
   let r := checkout Sample.once_used_db Sample.two_cars_once Sample.customer
              Sample.form Sample.later in
   r.1.1 = OrderPlaced 2 /\
   (exists o, orders r.1.2 !! 2%Z = Some o /\ Order.discount o == 50) /\
   map Coupon.used_count (coupons r.1.2) = [1; 0; 0; 0; 2]%Z).
Proof.
  split; [vm_compute; reflexivity |]. split; [| split].
  - eexists. split; [vm_compute; reflexivity |]. split; vm_compute; reflexivity.
  - cbv zeta. split; [vm_compute; reflexivity |]. split; [| vm_compute; reflexivity].
    eexists. split; [vm_compute; reflexivity |]. vm_compute. reflexivity.
  - split; [vm_compute; reflexivity |]. split; [vm_compute; reflexivity |].
    split; [vm_compute; reflexivity |]. split.
    + eexists. split; [vm_compute; reflexivity |]. vm_compute. reflexivity.
    + cbv zeta. split; [vm_compute; reflexivity |]. split; [| vm_compute; reflexivity].
      eexists. split; [vm_compute; reflexivity |]. vm_compute. reflexivity.
Qed.

End Discount.

(** ** Priced quantities *)

Section Lines.

Lemma available_test p :
  Product.is_active p && (0 <? Product.stock p) = true <-> available p.
Proof.
  unfold available. rewrite andb_true_iff, Z.ltb_lt. tauto.
Qed.

Lemma cart_lines_cons ps pid qty rest :
  cart_lines ps ((pid, qty) :: rest) =
    match Py.int pid, cart_lines ps rest with
    | Some k, Some items =>
        match ps !! k with
        | Some product =>
            if Product.is_active product && (0 <? Product.stock product)
            then Some (line_of k qty product :: items)
            else Some items
        | None => Some items
        end
    | _, _ => None
    end.
Proof.
  simpl. destruct (Py.int pid); simpl; [| reflexivity].
  destruct (cart_lines ps rest); reflexivity.
Qed.

Lemma cart_lines_total ps cart :
  Forall (fun kv => is_Some (Py.int kv.1)) cart -> is_Some (cart_lines ps cart).
Proof.
  induction 1 as [| [pid qty] rest [k Hk] _ [items IH]].
  - now exists [].
  - rewrite cart_lines_cons. simpl in Hk. rewrite Hk, IH.
    destruct (ps !! k) as [p |]; [| eauto].
    destruct (Product.is_active p && (0 <? Product.stock p)); eauto.
Qed.

Lemma cart_lines_sound ps cart items :
  cart_lines ps cart = Some items ->
  forall item, In item items ->
    exists pid qty p,
      In (pid, qty) cart /\ Py.int pid = Some (item_product item) /\
      ps !! item_product item = Some p /\ available p /\
      item = line_of (item_product item) qty p.
Proof.
  revert items. induction cart as [| [pid qty] rest IH]; intros items.
  - intros [= <-] item [].
  - rewrite cart_lines_cons.
    destruct (Py.int pid) as [k |] eqn:Hk; [| discriminate].
    destruct (cart_lines ps rest) as [items' |]; [| discriminate].
    assert (Hrest : forall item, In item items' ->
              exists pid0 qty0 p,
                In (pid0, qty0) ((pid, qty) :: rest) /\
                Py.int pid0 = Some (item_product item) /\
                ps !! item_product item = Some p /\ available p /\
                item = line_of (item_product item) qty0 p).
    { intros item Hin. destruct (IH _ eq_refl item Hin) as (pid0 & qty0 & p & H & H').
      exists pid0, qty0, p. split; [now right | exact H']. }
    destruct (ps !! k) as [p |] eqn:Hp; [| intros [= <-]; exact Hrest].
    destruct (Product.is_active p && (0 <? Product.stock p)) eqn:Ha;
      [| intros [= <-]; exact Hrest].
    intros [= <-] item [<- | Hin]; [| now apply Hrest].
    exists pid, qty, p. simpl. apply available_test in Ha.
    repeat split; auto; apply Ha.
Qed.

Lemma cart_lines_complete ps cart items :
  cart_lines ps cart = Some items ->
  forall pid qty k p,
    In (pid, qty) cart -> Py.int pid = Some k -> ps !! k = Some p -> available p ->
    In (line_of k qty p) items.
Proof.
  revert items. induction cart as [| [pid qty] rest IH]; intros items.
  - intros _ ? ? ? ? [].
  - rewrite cart_lines_cons.
    destruct (Py.int pid) as [k |] eqn:Hk; [| discriminate].
    destruct (cart_lines ps rest) as [items' |]; [| discriminate].
    intros Hitems pid0 qty0 k0 p0 [[= <- <-] | Hin] Hk0 Hp0 Ha0.
    + rewrite Hk in Hk0. injection Hk0 as ->. rewrite Hp0 in Hitems.
      apply available_test in Ha0. rewrite Ha0 in Hitems.
      injection Hitems as <-. now left.
    + specialize (IH _ eq_refl _ _ _ _ Hin Hk0 Hp0 Ha0).
      destruct (ps !! k) as [p |]; [| now injection Hitems as <-].
      destruct (Product.is_active p && (0 <? Product.stock p));
        injection Hitems as <-; [now right | assumption].
Qed.

End Lines.

Section PricedQuantity.

(** Not C7 as written: 3 of a product with 5 in stock are priced as 3, where
    min(requestedQty, currentStock, 1) is 1. *)
Lemma reserve_quantity_fails :
  available Sample.car /\
  cart_lines Sample.catalog [("1", 3)] = Some [mkItem 1 3 (inject_Z 3 * 100)%Q] /\
  spec_reserve_quantity Sample.car 3 = Some 1 /\
  (exists t, cart_items Sample.db (mkSession [("1", 3)] None) 5 = Some t /\
             map item_quantity (t_items t) = [3] /\
             map Some (map item_quantity (t_items t))
               <> [spec_reserve_quantity Sample.car 3]).
Proof.
  split; [split; reflexivity |]. split; [vm_compute; reflexivity |].
  split; [reflexivity |]. eexists. split; [vm_compute; reflexivity |].
  split; [vm_compute; reflexivity |]. vm_compute. congruence.
Qed.

(** C7 (amended). [cart_items] prices a cart whose keys are integers, and
    every line over a product that is active with stock > 0 is priced at
    min(requestedQty, currentStock), which is at most the stock; every priced
    line is such a line, so lines over missing, inactive or zero-stock
    products are left out before pricing. *)
Theorem priced_quantity_clamped db s now :
  Forall (fun kv => is_Some (Py.int kv.1)) (cart s) ->
  exists t,
    cart_items db s now = Some t /\
    (forall pid qty k p,
        In (pid, qty) (cart s) -> Py.int pid = Some k ->
        products db !! k = Some p -> available p ->
        In (mkItem k (Z.min qty (Product.stock p))
                   (inject_Z (Z.min qty (Product.stock p)) * Product.price p)%Q)
           (t_items t)) /\
    (forall item, In item (t_items t) ->
        exists pid qty p,
          In (pid, qty) (cart s) /\ Py.int pid = Some (item_product item) /\
          products db !! item_product item = Some p /\ available p /\
          item_quantity item = Z.min qty (Product.stock p) /\
          item_quantity item <= Product.stock p) /\
    (forall k, match products db !! k with
               | Some p => Product.is_active p = false \/ Product.stock p <= 0
               | None => True
               end ->
               forall item, In item (t_items t) -> item_product item <> k).
Proof.
  intros Hkeys.
  destruct (cart_lines_total (products db) _ Hkeys) as [items Hitems].
  unfold cart_items. rewrite Hitems. simpl. eexists. split; [reflexivity |].
  simpl. split; [| split].
  - intros pid qty k p. apply (cart_lines_complete _ _ _ Hitems).
  - intros item Hin.
    destruct (cart_lines_sound _ _ _ Hitems item Hin) as (pid & qty & p & H1 & H2 & H3 & H4 & H5).
    exists pid, qty, p. repeat split; try assumption; try apply H4.
    + rewrite H5 at 1. reflexivity.
    + rewrite H5 at 1. simpl. lia.
  - intros k Hk item Hin <-.
    destruct (cart_lines_sound _ _ _ Hitems item Hin) as (_ & _ & p & _ & _ & H3 & [H4 H4'] & _).
    rewrite H3 in Hk. destruct Hk as [Hk | Hk]; [congruence | lia].
Qed.

Lemma priced_quantity_clamped_witness :
  exists t,
    cart_items Sample.db (mkSession [("1", 8); ("3", 1); ("4", 1); ("5", 2)] None) 5 = Some t /\
    map item_quantity (t_items t) = [5].
Proof.
  destruct (priced_quantity_clamped Sample.db
              (mkSession [("1", 8); ("3", 1); ("4", 1); ("5", 2)] None) 5)
    as (t & Ht & _).
  - repeat constructor; vm_compute; eauto.
  - exists t. split; [exact Ht |].
    vm_compute in Ht. injection Ht as <-. reflexivity.
Defined.

End PricedQuantity.

(** ** Checkout *)

Section Checkout.

Lemma drain_nonneg st qs : 0 <= st -> 0 <= drain st qs.
Proof.
  revert st. induction qs as [| q qs IH]; intros st H; simpl; [exact H |].
  apply IH. lia.
Qed.

Lemma place_item_found oid ps ois item p :
  ps !! item_product item = Some p ->
  place_item oid (ps, ois) item =
    (<[item_product item :=
         with_stock p (Z.max 0 (Product.stock p - item_quantity item))
                    (Product.sold_count p + item_quantity item)]> ps,
     ois ++ [snapshot oid p item]).
Proof. intros H. unfold place_item. simpl. now rewrite H. Qed.

Lemma place_item_missing oid ps ois item :
  ps !! item_product item = None -> place_item oid (ps, ois) item = (ps, ois).
Proof. intros H. unfold place_item. simpl. now rewrite H. Qed.

(** The products after the loop: every row keeps its name, price, sku and
    flag; its stock is drained by the lines that refer to it and its sold
    count grows by their quantities. *)
Lemma place_items_products oid items : forall ps ois k,
  (fold_left (place_item oid) items (ps, ois)).1 !! k =
    (fun p => with_stock p (drain (Product.stock p) (quantities_for k items))
                (Product.sold_count p + total_of (quantities_for k items)))
    <$> ps !! k.
Proof.
  induction items as [| item items IH]; intros ps ois k.
  - simpl. destruct (ps !! k) as [[]|]; simpl; [| reflexivity].
    unfold with_stock. simpl. now rewrite Z.add_0_r.
  - simpl fold_left. destruct (ps !! item_product item) as [p |] eqn:Hp.
    + rewrite (place_item_found _ _ _ _ _ Hp), IH.
      unfold quantities_for. rewrite filter_cons.
      destruct (decide (item_product item = k)) as [<- | Hne].
      * rewrite lookup_insert_eq, Hp. simpl. unfold with_stock. simpl.
        f_equal. f_equal. lia.
      * now rewrite lookup_insert_ne.
    + rewrite (place_item_missing _ _ _ _ Hp), IH.
      unfold quantities_for. rewrite filter_cons.
      destruct (decide (item_product item = k)) as [<- | Hne]; [| reflexivity].
      now rewrite Hp.
Qed.

(** The order lines after the loop, when every priced line refers to a row
    of the table: one snapshot per line, appended in cart order. *)
Lemma place_items_lines oid items : forall ps ois,
  Forall (fun item => is_Some (ps !! item_product item)) items ->
  exists new,
    (fold_left (place_item oid) items (ps, ois)).2 = ois ++ new /\
    Forall2 (fun item oi => exists p, ps !! item_product item = Some p /\
                                      oi = snapshot oid p item) items new.
Proof.
  induction items as [| item items IH]; intros ps ois Hall.
  - exists []. simpl. rewrite app_nil_r. split; [reflexivity | constructor].
  - inversion Hall as [| ? ? [p Hp] Hrest]; subst.
    simpl fold_left. rewrite (place_item_found _ _ _ _ _ Hp).
    set (ps' := <[item_product item := _]> ps).
    destruct (IH ps' (ois ++ [snapshot oid p item])) as (new & Hnew & Hsnap).
    { eapply Forall_impl; [exact Hrest |]. intros it [q Hq]. unfold ps'.
      destruct (decide (item_product item = item_product it)) as [E | E].
      - rewrite E, lookup_insert_eq. eauto.
      - rewrite lookup_insert_ne by exact E. eauto. }
    exists (snapshot oid p item :: new). split.
    + rewrite Hnew, <- app_assoc. reflexivity.
    + constructor; [eauto |].
      eapply Forall2_impl; [exact Hsnap |].
      intros it oi (q & Hq & ->). unfold ps' in Hq.
      destruct (decide (item_product item = item_product it)) as [E | E].
      * rewrite E, lookup_insert_eq in Hq. injection Hq as <-.
        exists p. rewrite <- E. split; [exact Hp | reflexivity].
      * rewrite lookup_insert_ne in Hq by exact E. eauto.
Qed.

Lemma cart_items_lines db s now t :
  cart_items db s now = Some t ->
  cart_lines (products db) (cart s) = Some (t_items t).
Proof.
  unfold cart_items. destruct (cart_lines _ _); simpl; [| discriminate].
  now intros [= <-].
Qed.

Lemma cart_items_products db s now t :
  cart_items db s now = Some t ->
  Forall (fun item => exists p, products db !! item_product item = Some p /\ available p)
         (t_items t).
Proof.
  intros H. apply cart_items_lines in H. apply Forall_forall. intros item Hin.
  apply list_elem_of_In in Hin.
  destruct (cart_lines_sound _ _ _ H item Hin) as (_ & _ & p & _ & _ & Hp & Ha & _).
  eauto.
Qed.

(** The outcome of [checkout] once the cart prices a line, the form
    validates, the address resolves and the new identifiers are unused. *)
Lemma checkout_places db s u form e t addr :
  cart_items db s (utcnow e) = Some t ->
  t_items t <> [] ->
  validate_on_submit form = true ->
  resolve_address db u (form_address_id form) = AddressOk addr ->
  violates_unique (orders db) (new_order s u form e t addr) = false ->
  checkout db s u form e =
    (OrderPlaced (next_order_id (orders db)),
     mkDb (fold_left (place_item (next_order_id (orders db))) (t_items t)
                     (products db, order_items db)).1
          (count_coupon_use s (coupons db))
          (<[next_order_id (orders db) := new_order s u form e t addr]> (orders db))
          (fold_left (place_item (next_order_id (orders db))) (t_items t)
                     (products db, order_items db)).2
          (addresses db),
     empty_cart_session).
Proof.
  intros Ht Hne Hv Ha Hu. unfold checkout. rewrite Ht.
  destruct (t_items t) as [| item items] eqn:Hi; [congruence |].
  rewrite Hv. simpl negb. cbv iota. rewrite Ha, Hu. reflexivity.
Qed.

(** Conversely, an order is placed only in that case. *)
Lemma checkout_placed db s u form e oid db' s' :
  checkout db s u form e = (OrderPlaced oid, db', s') ->
  exists t addr,
    cart_items db s (utcnow e) = Some t /\ t_items t <> [] /\
    validate_on_submit form = true /\
    resolve_address db u (form_address_id form) = AddressOk addr /\
    violates_unique (orders db) (new_order s u form e t addr) = false.
Proof.
  unfold checkout.
  destruct (cart_items db s (utcnow e)) as [t |]; [| discriminate].
  destruct (t_items t) as [| item items] eqn:Hi; [discriminate |].
  destruct (validate_on_submit form); simpl negb; cbv iota; [| discriminate].
  destruct (resolve_address db u (form_address_id form)) as [addr | |];
    [| discriminate | discriminate].
  destruct (violates_unique _ _) eqn:Hu; [discriminate |].
  intros _. exists t, addr. rewrite Hi. repeat split; congruence.
Qed.

(** A checkout that does not place an order changes nothing. *)
Lemma checkout_not_placed db s u form e r db' s' :
  checkout db s u form e = (r, db', s') ->
  (forall oid, r <> OrderPlaced oid) -> db' = db /\ s' = s.
Proof.
  unfold checkout.
  destruct (cart_items db s (utcnow e)) as [t |]; [| now intros [= <- <- <-]].
  destruct (t_items t) as [| item items]; [now intros [= <- <- <-] |].
  destruct (validate_on_submit form); simpl negb; cbv iota; [| now intros [= <- <- <-]].
  destruct (resolve_address db u (form_address_id form)) as [addr | |];
    [| now intros [= <- <- <-] | now intros [= <- <- <-]].
  destruct (violates_unique _ _); [now intros [= <- <- <-] |].
  intros [= <- <- <-] H. now destruct (H (next_order_id (orders db))).
Qed.

Lemma foldr_max_ge (l : list Z) x : In x l -> x <= foldr Z.max 0 l.
Proof.
  induction l as [| y l IH]; simpl; [tauto |].
  intros [-> | H]; [lia |]. specialize (IH H). lia.
Qed.

(** The key given to a new order is not in use. *)
Lemma next_order_id_fresh (os : gmap Z Order.t) : os !! next_order_id os = None.
Proof.
  destruct (os !! next_order_id os) as [o |] eqn:E; [| reflexivity].
  apply elem_of_map_to_list in E. apply list_elem_of_In in E.
  apply (in_map fst) in E. apply foldr_max_ge in E.
  unfold next_order_id in E. simpl in E. lia.
Qed.




Lemma use_coupon_first code before c after :
  Forall (fun x => Coupon.code x <> code) before ->
  Coupon.code c = code ->
  use_coupon code (before ++ c :: after) = before ++ increment_used c :: after.
Proof.
  intros Hb Hc. induction Hb as [| x before Hx _ IH]; simpl.
  - apply String.eqb_eq in Hc. now rewrite Hc.
  - apply String.eqb_neq in Hx. now rewrite Hx, IH.
Qed.

(** Not C2 as written: the cart asks for 8 of a product with 5 in stock, and
    checkout places the order: one order line of 5 is stored, the stock goes
    from 5 to 0, the sold count from 0 to 5, and the coupon's use is
    counted. *)
Lemma checkout_overdraw_succeeds :
  let r := checkout Sample.db Sample.overdraw Sample.customer Sample.form Sample.env in
  cart Sample.overdraw = [("1", 8)] /\
  Product.stock <$> products Sample.db !! 1 = Some 5 /\
  r.1.1 = OrderPlaced 1 /\
  order_items Sample.db = [] /\
  map OrderItem.quantity (order_items r.1.2) = [5] /\
  Product.stock <$> products r.1.2 !! 1 = Some 0 /\
  Product.sold_count <$> products r.1.2 !! 1 = Some 5 /\
  map Coupon.used_count (coupons Sample.db) = [1; 0; 0; 0; 0] /\
  map Coupon.used_count (coupons r.1.2) = [1; 0; 0; 1; 0] /\
  ~ ((forall oid, r.1.1 <> OrderPlaced oid) /\ r.1.2 = Sample.db).
Proof.
  cbv zeta. repeat (split; [vm_compute; reflexivity |]).
  intros [H _]. apply (H 1). vm_compute. reflexivity.
Qed.

(** C2 (amended). A checkout does not fail for lack of stock. When the cart
    prices at least one line, the form validates, the address resolves and
    the new identifiers are unused, the order is placed: a line that asks
    for more than the stock is priced at the stock, one order line per
    priced line is stored with the priced quantity (at most the stock read
    when the cart was priced), each product's stock is drained by its lines,
    never below zero, its sold count grows by their quantities, and the
    use of the session's coupon is counted. *)
Theorem checkout_clamps_to_stock db s u form e t addr :
  cart_items db s (utcnow e) = Some t ->
  t_items t <> [] ->
  validate_on_submit form = true ->
  resolve_address db u (form_address_id form) = AddressOk addr ->
  violates_unique (orders db) (new_order s u form e t addr) = false ->
  let oid := next_order_id (orders db) in
  exists db',
    checkout db s u form e = (OrderPlaced oid, db', empty_cart_session) /\
    (forall pid qty k p,
        In (pid, qty) (cart s) -> Py.int pid = Some k ->
        products db !! k = Some p -> available p -> Product.stock p < qty ->
        exists price, In (mkItem k (Product.stock p) price) (t_items t)) /\
    orders db' !! oid = Some (new_order s u form e t addr) /\
    (exists new,
        order_items db' = order_items db ++ new /\
        Forall2 (fun item oi =>
                   exists p, products db !! item_product item = Some p /\
                             item_quantity item <= Product.stock p /\
                             oi = snapshot oid p item)
                (t_items t) new) /\
    (forall k,
        products db' !! k =
          (fun p => with_stock p (drain (Product.stock p) (quantities_for k (t_items t)))
                      (Product.sold_count p + total_of (quantities_for k (t_items t))))
          <$> products db !! k) /\
    coupons db' = count_coupon_use s (coupons db) /\
    (forall a code before c after,
        session_coupon_code s = Some (String a code) ->
        coupons db = before ++ c :: after ->
        Forall (fun x => Coupon.code x <> String a code) before ->
        Coupon.code c = String a code ->
        coupons db' = before ++ increment_used c :: after /\
        Coupon.used_count (increment_used c) = Coupon.used_count c + 1).
Proof.
  intros Ht Hne Hv Ha Hu oid.
  eexists. split; [apply (checkout_places _ _ _ _ _ _ _ Ht Hne Hv Ha Hu) |].
  fold oid. simpl. pose proof (cart_items_lines _ _ _ _ Ht) as Hl.
  split; [| split; [| split; [| split; [| split]]]].
  - intros pid qty k p Hin Hk Hp Hav Hlt.
    pose proof (cart_lines_complete _ _ _ Hl _ _ _ _ Hin Hk Hp Hav) as H.
    unfold line_of in H. rewrite Z.min_r in H by lia. eauto.
  - apply lookup_insert_eq.
  - destruct (place_items_lines oid (t_items t) (products db) (order_items db))
      as (new & Hnew & Hsnap).
    { eapply Forall_impl; [apply (cart_items_products _ _ _ _ Ht) |].
      intros item (p & Hp & _). eauto. }
    exists new. split; [exact Hnew |].
    apply Forall2_same_length_lookup. destruct (proj1 (Forall2_same_length_lookup _ _ _) Hsnap)
      as [Hlen Hlook].
    split; [exact Hlen |]. intros i item oi Hi Hoi.
    destruct (Hlook i item oi Hi Hoi) as (p & Hp & ->).
    exists p. repeat split; try assumption.
    apply list_elem_of_lookup_2, list_elem_of_In in Hi.
    destruct (cart_lines_sound _ _ _ Hl item Hi) as (_ & qty & p' & _ & _ & Hp' & _ & Heq).
    rewrite Hp in Hp'. injection Hp' as <-. rewrite Heq. simpl. lia.
  - intros k. apply place_items_products.
  - reflexivity.
  - intros a code before c after Hs Hcs Hbefore Hc.
    unfold count_coupon_use. rewrite Hs, Hcs.
    split; [now apply use_coupon_first | reflexivity].
Qed.

Lemma checkout_clamps_to_stock_witness :
  exists db',
    checkout Sample.db Sample.overdraw Sample.customer Sample.form Sample.env
      = (OrderPlaced 1, db', empty_cart_session) /\
    Product.stock <$> products db' !! 1 = Some 0.
Proof.
  destruct (checkout_clamps_to_stock Sample.db Sample.overdraw Sample.customer
              Sample.form Sample.env
              (mkTotals [mkItem 1 5 (inject_Z 5 * 100)%Q]
                 (0 + inject_Z 5 * 100)%Q
                 (tax_of (0 + inject_Z 5 * 100))
                 (shipping_of (0 + inject_Z 5 * 100))
                 (Py.min 1000 (0 + inject_Z 5 * 100))
                 (0 + inject_Z 5 * 100 + tax_of (0 + inject_Z 5 * 100)
                  + shipping_of (0 + inject_Z 5 * 100)
                  - Py.min 1000 (0 + inject_Z 5 * 100))%Q)
              (format_address Sample.home))
    as (db' & Hc & _ & _ & _ & Hp & _ & _).
  - reflexivity.
  - discriminate.
  - reflexivity.
  - reflexivity.
  - reflexivity.
  - exists db'. split; [exact Hc |]. rewrite Hp. reflexivity.
Defined.

(** Not C9 as written: the order that checkout places already carries a
    tracking code while its status is placed. *)
Lemma checkout_assigns_tracking_code :
  let r := checkout Sample.db Sample.basket Sample.customer Sample.form Sample.env in
  r.1.1 = OrderPlaced 1 /\
  Order.status <$> orders r.1.2 !! 1 = Some "placed" /\
  Order.tracking_code <$> orders r.1.2 !! 1 = Some (Some "MZ-ABCDEFGHIJKL") /\
  Order.tracking_code <$> orders r.1.2 !! 1 <> Some None.
Proof.
  cbv zeta. repeat (split; [vm_compute; reflexivity |]). vm_compute. congruence.
Qed.

End Checkout.

(** ** Order lifecycle *)

Section Lifecycle.

Lemma cancellable_iff status :
  cancellable status = true <-> status = "placed" \/ status = "packed".
Proof.
  unfold cancellable. rewrite orb_true_iff, !String.eqb_eq. reflexivity.
Qed.

(** The products after the restore loop: each row's stock grows by the
    quantities of the order lines that refer to it, and nothing else
    changes. *)
Lemma restore_items_products items : forall (ps : gmap Z Product.t) k,
  fold_left restore_item items ps !! k =
    (fun p => with_stock p (Product.stock p + total_of (ordered_for k items))
                (Product.sold_count p))
    <$> ps !! k.
Proof.
  induction items as [| item items IH]; intros ps k.
  - simpl. destruct (ps !! k) as [[]|]; simpl; [| reflexivity].
    unfold with_stock. simpl. now rewrite Z.add_0_r.
  - simpl fold_left. rewrite IH. unfold restore_item, ordered_for.
    rewrite filter_cons.
    destruct (ps !! OrderItem.product_id item) as [p |] eqn:Hp.
    + destruct (decide (OrderItem.product_id item = k)) as [<- | Hne].
      * rewrite lookup_insert_eq, Hp. simpl. unfold with_stock. simpl.
        f_equal. f_equal. lia.
      * now rewrite lookup_insert_ne.
    + destruct (decide (OrderItem.product_id item = k)) as [<- | Hne]; [| reflexivity].
      now rewrite Hp.
Qed.

Lemma order_cancel_allowed db u oid o :
  orders db !! oid = Some o ->
  Order.user_id o = User.id u \/ User.is_admin u = true ->
  order_cancel db u oid =
    if cancellable (Order.status o)
    then (OrderCancelled,
          mkDb (fold_left restore_item (order_items_of db oid) (products db))
               (coupons db)
               (<[oid := set_status o "cancelled"
                           (if String.eqb (Order.payment_status o) "paid"
                            then "refunded" else "cancelled")]> (orders db))
               (order_items db) (addresses db))
    else (CannotBeCancelled, db).
Proof.
  intros Ho Hu. unfold order_cancel. rewrite Ho.
  assert (E : negb (Order.user_id o =? User.id u) && negb (User.is_admin u) = false).
  { destruct Hu as [-> | ->]; [rewrite Z.eqb_refl | rewrite andb_comm]; reflexivity. }
  rewrite E. now destruct (cancellable (Order.status o)).
Qed.

Lemma order_cancel_cases db u oid :
  (fst (order_cancel db u oid) = OrderCancelled ->
   exists o, orders db !! oid = Some o /\
             (Order.user_id o = User.id u \/ User.is_admin u = true) /\
             (Order.status o = "placed" \/ Order.status o = "packed")) /\
  (fst (order_cancel db u oid) <> OrderCancelled -> snd (order_cancel db u oid) = db).
Proof.
  unfold order_cancel.
  destruct (orders db !! oid) as [o |]; [| split; [discriminate | reflexivity]].
  destruct (negb (Order.user_id o =? User.id u) && negb (User.is_admin u)) eqn:Eu;
    [split; [discriminate | reflexivity] |].
  destruct (negb (cancellable (Order.status o))) eqn:Ec;
    [split; [discriminate | reflexivity] |].
  split; [| simpl; congruence]. intros _. exists o. split; [reflexivity |]. split.
  - apply andb_false_iff in Eu. destruct Eu as [Eu | Eu]; apply negb_false_iff in Eu.
    + left. now apply Z.eqb_eq.
    + now right.
  - apply negb_false_iff in Ec. now apply cancellable_iff.
Qed.

(** C8. Cancelling an order succeeds only when its status is placed or
    packed, and a cancel that does not succeed changes nothing. For the
    order's owner or an admin it then does succeed: the status becomes
    cancelled, the payment status refunded if it was paid and cancelled
    otherwise, and every product's stock grows by the quantities of the
    order's lines that refer to it, once; cancelling again is then refused
    and changes nothing. In any other status (cancelled included) the
    cancel is refused and neither the order nor any stock changes. *)
Theorem cancel_from_placed_or_packed db u oid o :
  orders db !! oid = Some o ->
  (fst (order_cancel db u oid) = OrderCancelled ->
   Order.status o = "placed" \/ Order.status o = "packed") /\
  (fst (order_cancel db u oid) <> OrderCancelled -> snd (order_cancel db u oid) = db) /\
  (Order.user_id o = User.id u \/ User.is_admin u = true ->
   (Order.status o = "placed" \/ Order.status o = "packed" ->
    exists db' o',
      order_cancel db u oid = (OrderCancelled, db') /\
      orders db' !! oid = Some o' /\
      Order.status o' = "cancelled" /\
      Order.payment_status o' =
        (if String.eqb (Order.payment_status o) "paid" then "refunded" else "cancelled") /\
      o' = set_status o (Order.status o') (Order.payment_status o') /\
      (forall j, j <> oid -> orders db' !! j = orders db !! j) /\
      (forall k,
          products db' !! k =
            (fun p => with_stock p
                        (Product.stock p + total_of (ordered_for k (order_items_of db oid)))
                        (Product.sold_count p))
            <$> products db !! k) /\
      order_items db' = order_items db /\
      coupons db' = coupons db /\
      order_cancel db' u oid = (CannotBeCancelled, db')) /\
   (~ (Order.status o = "placed" \/ Order.status o = "packed") ->
    order_cancel db u oid = (CannotBeCancelled, db))).
Proof.
  intros Ho. destruct (order_cancel_cases db u oid) as [Honly Hkeep].
  split; [| split; [exact Hkeep |]].
  { intros H. destruct (Honly H) as (o0 & Ho0 & _ & Hs).
    rewrite Ho in Ho0. now injection Ho0 as <-. }
  intros Hu. rewrite (order_cancel_allowed _ _ _ _ Ho Hu). split.
  - intros Hs. apply cancellable_iff in Hs. rewrite Hs.
    eexists. eexists. split; [reflexivity |]. simpl.
    split; [apply lookup_insert_eq |].
    split; [reflexivity |]. split; [reflexivity |]. split; [reflexivity |].
    split; [intros j Hj; now apply lookup_insert_ne |].
    split; [intros k; apply restore_items_products |].
    split; [reflexivity |]. split; [reflexivity |].
    erewrite order_cancel_allowed; [| simpl; apply lookup_insert_eq | exact Hu].
    reflexivity.
  - intros Hs. destruct (cancellable (Order.status o)) eqn:E; [| reflexivity].
    apply cancellable_iff in E. contradiction.
Qed.

Lemma cancel_from_placed_or_packed_witness :
  exists db',
    order_cancel Sample.placed_db Sample.customer 1 = (OrderCancelled, db') /\
    Product.stock <$> products Sample.placed_db !! 1 = Some 3 /\
    Product.stock <$> products db' !! 1 = Some 5 /\
    order_cancel db' Sample.customer 1 = (CannotBeCancelled, db').
Proof.
  destruct (orders Sample.placed_db !! 1) as [o |] eqn:Ho;
    [| vm_compute in Ho; discriminate].
  assert (Hu : Order.user_id o = 1 /\ Order.status o = "placed").
  { vm_compute in Ho. injection Ho as <-. split; reflexivity. }
  destruct (cancel_from_placed_or_packed Sample.placed_db Sample.customer 1 o Ho)
    as (_ & _ & Hauth).
  destruct (Hauth (or_introl (proj1 Hu))) as [Hyes _].
  destruct (Hyes (or_introl (proj2 Hu)))
    as (db' & o' & Hc & _ & _ & _ & _ & _ & Hp & _ & _ & Hagain).
  exists db'. split; [exact Hc |]. split; [vm_compute; reflexivity |].
  split; [| exact Hagain]. rewrite Hp. vm_compute. reflexivity.
Defined.

(** C9 (amended). Every order has a tracking code from its placement on:
    checkout stores the new order, in status placed, with a freshly
    generated, non-empty code. A status change by an admin generates a code
    only when the new status is shipped and the order has none (null or
    empty), and otherwise keeps the code; cancelling keeps every order's
    code. *)
Theorem tracking_code_lifecycle :
  (forall db s u form e oid db' s',
      checkout db s u form e = (OrderPlaced oid, db', s') ->
      orders db !! oid = None /\
      (exists o, orders db' !! oid = Some o /\ Order.status o = "placed" /\
                 Order.tracking_code o = Some (generate_tracking_code e) /\
                 Py.truthy (Order.tracking_code o) = true) /\
      (forall j, j <> oid -> orders db' !! j = orders db !! j)) /\
  (forall db u oid status e db' o,
      admin_orders db u oid status e = (OrderUpdated, db') ->
      orders db !! oid = Some o ->
      (exists o', orders db' !! oid = Some o' /\ Order.status o' = status /\
                  Order.tracking_code o' =
                    if String.eqb status "shipped" && negb (Py.truthy (Order.tracking_code o))
                    then Some (generate_tracking_code e)
                    else Order.tracking_code o) /\
      (forall j, j <> oid -> orders db' !! j = orders db !! j)) /\
  (forall db u oid r db' j o,
      order_cancel db u oid = (r, db') ->
      orders db !! j = Some o ->
      exists o', orders db' !! j = Some o' /\
                 Order.tracking_code o' = Order.tracking_code o).
Proof.
  split; [| split].
  - intros db s u form e oid db' s' Hc.
    destruct (checkout_placed _ _ _ _ _ _ _ _ Hc) as (t & addr & Ht & Hne & Hv & Ha & Hu).
    rewrite (checkout_places _ _ _ _ _ _ _ Ht Hne Hv Ha Hu) in Hc.
    injection Hc as <- <- <-. simpl.
    split; [apply next_order_id_fresh |]. split.
    + eexists. split; [apply lookup_insert_eq |]. repeat split.
    + intros j Hj. now apply lookup_insert_ne.
  - intros db u oid status e db' o Hc Ho. unfold admin_orders in Hc.
    destruct (User.is_admin u); simpl negb in Hc; cbv iota in Hc; [| discriminate].
    rewrite Ho in Hc.
    destruct (String.eqb status "shipped" && negb (Py.truthy (Order.tracking_code o)));
      simpl in Hc.
    + destruct (tracking_code_in_use _ _); [discriminate |].
      injection Hc as <-. simpl. split.
      * eexists. split; [apply lookup_insert_eq |]. split; reflexivity.
      * intros j Hj. now apply lookup_insert_ne.
    + injection Hc as <-. simpl. split.
      * eexists. split; [apply lookup_insert_eq |]. split; reflexivity.
      * intros j Hj. now apply lookup_insert_ne.
  - intros db u oid r db' j o Hc Hj. unfold order_cancel in Hc.
    destruct (orders db !! oid) as [order |] eqn:Ho; [| injection Hc as <- <-; eauto].
    destruct (negb (Order.user_id order =? User.id u) && negb (User.is_admin u));
      [injection Hc as <- <-; eauto |].
    destruct (negb (cancellable (Order.status order)));
      [injection Hc as <- <-; eauto |].
    injection Hc as <- <-. simpl.
    destruct (decide (oid = j)) as [-> | Hne].
    + rewrite lookup_insert_eq. rewrite Ho in Hj. injection Hj as <-.
      eexists. split; reflexivity.
    + rewrite lookup_insert_ne by exact Hne. eauto.
Qed.

Lemma tracking_code_lifecycle_witness :
  exists db1 db2 db3,
    checkout Sample.db Sample.basket Sample.customer Sample.form Sample.env
      = (OrderPlaced 1, db1, empty_cart_session) /\
    admin_orders db1 Sample.admin 1 "shipped" Sample.env = (OrderUpdated, db2) /\
    order_cancel db1 Sample.customer 1 = (OrderCancelled, db3) /\
    Order.tracking_code <$> orders db1 !! 1 = Some (Some (generate_tracking_code Sample.env)) /\
    Order.tracking_code <$> orders db2 !! 1 = Some (Some (generate_tracking_code Sample.env)) /\
    Order.tracking_code <$> orders db3 !! 1 = Some (Some (generate_tracking_code Sample.env)).
Proof.
  destruct tracking_code_lifecycle as (Hplace & Hadmin & Hcancel).
  destruct (checkout Sample.db Sample.basket Sample.customer Sample.form Sample.env)
    as [[r db1] s1] eqn:Hc.
  assert (Hr : r = OrderPlaced 1 /\ s1 = empty_cart_session).
  { vm_compute in Hc. injection Hc as <- _ <-. split; reflexivity. }
  destruct Hr as [-> ->].
  destruct (Hplace _ _ _ _ _ _ _ _ Hc) as (_ & (o & Ho & _ & Htc & Htruthy) & _).
  destruct (admin_orders db1 Sample.admin 1 "shipped" Sample.env) as [r2 db2] eqn:Ha.
  assert (Hr2 : r2 = OrderUpdated).
  { unfold admin_orders in Ha. simpl negb in Ha. cbv iota in Ha. rewrite Ho in Ha.
    rewrite Htruthy in Ha. simpl in Ha. now injection Ha as <- _. }
  subst r2.
  destruct (order_cancel db1 Sample.customer 1) as [r3 db3] eqn:Hx.
  assert (Hr3 : r3 = OrderCancelled).
  { assert (Hs : Order.user_id o = 1 /\ Order.status o = "placed").
    { assert (Hdb : db1 = Sample.placed_db) by (unfold Sample.placed_db; now rewrite Hc).
      rewrite Hdb in Ho. vm_compute in Ho. injection Ho as <-. split; reflexivity. }
    rewrite (order_cancel_allowed db1 Sample.customer 1 o Ho (or_introl (proj1 Hs))) in Hx.
    rewrite (proj2 Hs) in Hx. simpl in Hx. now injection Hx as <- _. }
  subst r3.
  exists db1, db2, db3.
  split; [reflexivity |]. split; [exact Ha |]. split; [exact Hx |].
  split; [| split].
  - rewrite Ho. simpl. now rewrite Htc.
  - destruct (Hadmin _ _ _ _ _ _ _ Ha Ho) as ((o' & Ho' & _ & Htc') & _).
    rewrite Htruthy in Htc'. simpl in Htc'. rewrite Ho'. simpl. now rewrite Htc', Htc.
  - destruct (Hcancel _ _ _ _ _ _ _ Hx Ho) as (o' & Ho' & Htc').
    rewrite Ho'. simpl. now rewrite Htc', Htc.
Defined.

End Lifecycle.

(** ** Stock is never negative *)

Section Stock.

Lemma dict_get_nonneg k d :
  Forall (fun kv : string * Z => 0 <= kv.2) d -> 0 <= dict_get k d 0.
Proof.
  induction 1 as [| [k' v'] d Hv _ IH]; simpl; [lia |].
  destruct (String.eqb k' k); [exact Hv | exact IH].
Qed.

Lemma dict_set_nonneg k v d :
  0 <= v -> Forall (fun kv : string * Z => 0 <= kv.2) d ->
  Forall (fun kv : string * Z => 0 <= kv.2) (dict_set k v d).
Proof.
  intros Hv. induction 1 as [| [k' v'] d Hv' Hd IH]; simpl.
  - repeat constructor. exact Hv.
  - destruct (String.eqb k' k); constructor; assumption.
Qed.

Lemma cart_add_nonneg db s product_id quantity :
  cart_nonneg s -> cart_nonneg (cart_add db s product_id quantity).2.
Proof.
  intros Hs. unfold cart_add.
  destruct (products db !! product_id) as [p |]; [| exact Hs].
  destruct (negb (Product.is_active p) || (Product.stock p <=? 0)) eqn:E; [exact Hs |].
  apply orb_false_iff in E. destruct E as [_ E]. apply Z.leb_gt in E.
  destruct (match quantity with Some q => Py.int q | None => Some 1 end) as [q |];
    [| exact Hs].
  unfold cart_nonneg. simpl. apply dict_set_nonneg; [| exact Hs].
  pose proof (dict_get_nonneg (pretty product_id) _ Hs).
  destruct (Product.stock p <? _); lia.
Qed.

Lemma cart_update_loop_cons ps key value rest cart :
  cart_update_loop ps ((key, value) :: rest) cart =
    if startswith "qty_" key then
      match Py.int value, Py.int (remove_all "qty_" 0 key) with
      | Some v, Some k =>
          match ps !! k with
          | Some product =>
              if Product.is_active product
              then cart_update_loop ps rest
                     (dict_set (remove_all "qty_" 0 key)
                        (Z.min (Z.max 1 v) (Product.stock product)) cart)
              else cart_update_loop ps rest cart
          | None => cart_update_loop ps rest cart
          end
      | _, _ => None
      end
    else cart_update_loop ps rest cart.
Proof.
  cbn [cart_update_loop]. destruct (startswith "qty_" key); [| reflexivity].
  destruct (Py.int value); [| reflexivity].
  destruct (Py.int (remove_all "qty_" 0 key)); reflexivity.
Qed.

Lemma cart_update_loop_nonneg ps form : forall cart cart',
  (forall k p, ps !! k = Some p -> 0 <= Product.stock p) ->
  Forall (fun kv : string * Z => 0 <= kv.2) cart ->
  cart_update_loop ps form cart = Some cart' ->
  Forall (fun kv : string * Z => 0 <= kv.2) cart'.
Proof.
  induction form as [| [key value] rest IH]; intros cart cart' Hps Hc.
  - now intros [= <-].
  - rewrite cart_update_loop_cons.
    destruct (startswith "qty_" key); [| now apply IH].
    destruct (Py.int value) as [v |]; [| discriminate].
    destruct (Py.int (remove_all "qty_" 0 key)) as [k |]; [| discriminate].
    destruct (ps !! k) as [p |] eqn:Hp; [| now apply IH].
    destruct (Product.is_active p); [| now apply IH].
    apply IH; [exact Hps |]. apply dict_set_nonneg; [| exact Hc].
    specialize (Hps _ _ Hp). lia.
Qed.

Lemma cart_update_nonneg db s form :
  stock_nonneg db -> cart_nonneg s -> cart_nonneg (cart_update db s form).2.
Proof.
  intros Hdb Hs. unfold cart_update.
  destruct (cart_update_loop (products db) form []) as [cart' |] eqn:E; [| exact Hs].
  unfold cart_nonneg. simpl.
  eapply cart_update_loop_nonneg; [exact Hdb | constructor | exact E].
Qed.

Lemma cart_remove_nonneg s product_id :
  cart_nonneg s -> cart_nonneg (cart_remove s product_id).
Proof.
  unfold cart_nonneg, cart_remove. simpl. intros H.
  induction H as [| kv d Hv _ IH]; simpl; [constructor |].
  destruct (negb _); [constructor |]; assumption.
Qed.

Lemma cart_coupon_nonneg db s now code :
  cart_nonneg s -> cart_nonneg (cart_coupon db s now code).2.
Proof.
  intros Hs. unfold cart_coupon.
  destruct (find_active_coupon _ _) as [c |]; [| exact Hs].
  destruct (_ || _); [exact Hs |].
  destruct (match Coupon.usage_limit c with Some _ => _ | None => _ end); [exact Hs |].
  destruct (cart_items db s now) as [t |]; [| exact Hs].
  destruct (negb _); exact Hs.
Qed.

Lemma total_of_nonneg qs : Forall (fun q => 0 <= q) qs -> 0 <= total_of qs.
Proof. induction 1; simpl; lia. Qed.

(** Checkout's decrement keeps every stock non-negative, whatever the
    cart. *)
Lemma checkout_stock_nonneg db s u form e :
  stock_nonneg db -> stock_nonneg (checkout db s u form e).1.2.
Proof.
  intros Hdb. destruct (checkout db s u form e) as [[r db'] s'] eqn:Hc. simpl.
  destruct r as [| | | | | oid];
    try (destruct (checkout_not_placed _ _ _ _ _ _ _ _ Hc) as [-> _];
         [discriminate | exact Hdb]).
  destruct (checkout_placed _ _ _ _ _ _ _ _ Hc) as (t & addr & Ht & Hne & Hv & Ha & Hu).
  rewrite (checkout_places _ _ _ _ _ _ _ Ht Hne Hv Ha Hu) in Hc.
  injection Hc as _ <- _. intros k p. simpl. rewrite place_items_products.
  destruct (products db !! k) as [p0 |] eqn:Hp0; simpl; [| discriminate].
  intros [= <-]. simpl. apply drain_nonneg. eapply Hdb, Hp0.
Qed.

(** The order lines that checkout stores have non-negative quantities when
    the cart has. *)
Lemma checkout_lines_nonneg db s u form e :
  lines_nonneg db -> cart_nonneg s -> lines_nonneg (checkout db s u form e).1.2.
Proof.
  intros Hdb Hs. destruct (checkout db s u form e) as [[r db'] s'] eqn:Hc. simpl.
  destruct r as [| | | | | oid];
    try (destruct (checkout_not_placed _ _ _ _ _ _ _ _ Hc) as [-> _];
         [discriminate | exact Hdb]).
  destruct (checkout_placed _ _ _ _ _ _ _ _ Hc) as (t & addr & Ht & Hne & Hv & Ha & Hu).
  rewrite (checkout_places _ _ _ _ _ _ _ Ht Hne Hv Ha Hu) in Hc.
  injection Hc as _ <- _. unfold lines_nonneg. simpl.
  pose proof (cart_items_lines _ _ _ _ Ht) as Hl.
  destruct (place_items_lines (next_order_id (orders db)) (t_items t)
              (products db) (order_items db)) as (new & -> & Hsnap).
  { eapply Forall_impl; [apply (cart_items_products _ _ _ _ Ht) |].
    intros item (p & Hp & _). eauto. }
  apply Forall_app. split; [exact Hdb |].
  apply Forall_forall. intros oi Hoi.
  apply list_elem_of_lookup in Hoi. destruct Hoi as [i Hi].
  destruct (Forall2_lookup_r _ _ _ _ _ Hsnap Hi) as (item & Hitem & p & _ & ->).
  simpl. apply list_elem_of_lookup_2, list_elem_of_In in Hitem.
  destruct (cart_lines_sound _ _ _ Hl item Hitem)
    as (pid & qty & p' & Hin & _ & _ & [_ Hpos] & ->).
  simpl. unfold cart_nonneg in Hs. rewrite Forall_forall in Hs.
  apply list_elem_of_In in Hin. specialize (Hs _ Hin). simpl in Hs. lia.
Qed.

Lemma checkout_session_nonneg db s u form e :
  cart_nonneg s -> cart_nonneg (checkout db s u form e).2.
Proof.
  intros Hs. destruct (checkout db s u form e) as [[r db'] s'] eqn:Hc. simpl.
  destruct r as [| | | | | oid];
    try (destruct (checkout_not_placed _ _ _ _ _ _ _ _ Hc) as [_ ->];
         [discriminate | exact Hs]).
  destruct (checkout_placed _ _ _ _ _ _ _ _ Hc) as (t & addr & Ht & Hne & Hv & Ha & Hu).
  rewrite (checkout_places _ _ _ _ _ _ _ Ht Hne Hv Ha Hu) in Hc.
  injection Hc as _ _ <-. constructor.
Qed.

Lemma order_items_of_nonneg db oid :
  lines_nonneg db -> Forall (fun oi => 0 <= OrderItem.quantity oi) (order_items_of db oid).
Proof.
  unfold lines_nonneg, order_items_of. intros H.
  apply Forall_forall. intros oi Hoi. apply list_elem_of_filter in Hoi as [_ Hoi].
  rewrite Forall_forall in H. now apply H.
Qed.

Lemma ordered_for_nonneg k ois :
  Forall (fun oi => 0 <= OrderItem.quantity oi) ois ->
  Forall (fun q => 0 <= q) (ordered_for k ois).
Proof.
  intros H. unfold ordered_for. apply Forall_forall. intros q Hq.
  apply list_elem_of_fmap in Hq as (oi & -> & Hoi).
  apply list_elem_of_filter in Hoi as [_ Hoi].
  rewrite Forall_forall in H. now apply H.
Qed.

(** Cancellation's restore keeps every stock non-negative, the stored
    quantities being non-negative, and stores no order line. *)
Lemma order_cancel_nonneg db u oid :
  stock_nonneg db -> lines_nonneg db ->
  stock_nonneg (order_cancel db u oid).2 /\ lines_nonneg (order_cancel db u oid).2.
Proof.
  intros Hdb Hl. unfold order_cancel.
  destruct (orders db !! oid) as [o |]; [| now split].
  destruct (negb (Order.user_id o =? User.id u) && negb (User.is_admin u)); [now split |].
  destruct (negb (cancellable (Order.status o))); [now split |].
  split; [| exact Hl]. intros k p. simpl. rewrite restore_items_products.
  destruct (products db !! k) as [p0 |] eqn:Hp0; simpl; [| discriminate].
  intros [= <-]. simpl. specialize (Hdb _ _ Hp0).
  pose proof (total_of_nonneg _ (ordered_for_nonneg k _ (order_items_of_nonneg db oid Hl))).
  lia.
Qed.

Lemma admin_orders_tables db u oid status e :
  products (admin_orders db u oid status e).2 = products db /\
  order_items (admin_orders db u oid status e).2 = order_items db.
Proof.
  unfold admin_orders. destruct (negb (User.is_admin u)); [now split |].
  destruct (orders db !! oid) as [o |]; [| now split].
  destruct (_ && tracking_code_in_use _ _); now split.
Qed.

Lemma with_session_consistent w c s :
  consistent w -> cart_nonneg s -> consistent (with_session w c s).
Proof.
  intros (H1 & H2 & H3) Hs. split; [exact H1 |]. split; [exact H2 |].
  intros c' s'. simpl. destruct (decide (c = c')) as [-> | Hne].
  - rewrite lookup_insert_eq. now intros [= <-].
  - rewrite lookup_insert_ne by exact Hne. apply H3.
Qed.

Lemma session_of_nonneg w c : consistent w -> cart_nonneg (session_of w c).
Proof.
  intros (_ & _ & H). unfold session_of.
  destruct (w_sessions w !! c) as [s |] eqn:E; simpl; [eauto | constructor].
Qed.

(** Every request keeps the store and the sessions consistent. *)
Lemma step_consistent w w' : consistent w -> step w w' -> consistent w'.
Proof.
  intros Hw Hstep. pose proof Hw as (H1 & H2 & H3).
  destruct Hstep.
  - apply with_session_consistent; [exact Hw |].
    apply cart_add_nonneg, session_of_nonneg, Hw.
  - apply with_session_consistent; [exact Hw |].
    apply cart_update_nonneg; [exact H1 | apply session_of_nonneg, Hw].
  - apply with_session_consistent; [exact Hw |].
    apply cart_remove_nonneg, session_of_nonneg, Hw.
  - apply with_session_consistent; [exact Hw |].
    apply cart_coupon_nonneg, session_of_nonneg, Hw.
  - apply with_session_consistent; [exact Hw |].
    apply session_of_nonneg, Hw.
  - pose proof (session_of_nonneg w c Hw) as Hs.
    split; [now apply checkout_stock_nonneg |].
    split; [now apply checkout_lines_nonneg |].
    intros c' s'. simpl. destruct (decide (c = c')) as [-> | Hne].
    + rewrite lookup_insert_eq. intros [= <-]. now apply checkout_session_nonneg.
    + rewrite lookup_insert_ne by exact Hne. apply H3.
  - destruct (order_cancel_nonneg (w_db w) u order_id H1 H2) as [Hs Hl].
    split; [exact Hs |]. split; [exact Hl | exact H3].
  - destruct (admin_orders_tables (w_db w) u order_id status e) as [Hp Hi].
    split; [| split; [| exact H3]].
    + intros k p. simpl. rewrite Hp. apply H1.
    + unfold lines_nonneg. simpl. rewrite Hi. exact H2.
Qed.

(** C3. Starting from a store with non-negative stocks (and non-negative
    quantities in the stored order lines and in the carts, which the
    handlers themselves maintain), every sequence of requests leaves every
    product's stock non-negative; in particular checkout's decrement keeps
    it so for any cart, and cancellation's restore keeps it so. *)
Theorem stock_never_negative w w' :
  consistent w ->
  rtc step w w' ->
  stock_nonneg (w_db w') /\
  (forall c u form e,
      stock_nonneg (checkout (w_db w') (session_of w' c) u form e).1.2) /\
  (forall u order_id, stock_nonneg (order_cancel (w_db w') u order_id).2).
Proof.
  intros Hw Hsteps.
  assert (Hw' : consistent w').
  { induction Hsteps as [| w1 w2 w3 Hstep _ IH]; [exact Hw |].
    apply IH. eapply step_consistent; eassumption. }
  split; [apply Hw' |]. split.
  - intros c u form e. apply checkout_stock_nonneg, Hw'.
  - intros u order_id. apply order_cancel_nonneg; apply Hw'.
Qed.

Lemma stock_never_negative_witness :
  consistent Sample.world0 /\
  rtc step Sample.world0 Sample.world3 /\
  stock_nonneg (w_db Sample.world3) /\
  Product.stock <$> products (w_db Sample.world1) !! 1 = Some 5 /\
  Product.stock <$> products (w_db Sample.world2) !! 1 = Some 0 /\
  Product.stock <$> products (w_db Sample.world3) !! 1 = Some 5.
Proof.
  assert (H0 : consistent Sample.world0).
  { split; [| split].
    - intros k p. simpl. unfold Sample.catalog.
      rewrite !lookup_insert. repeat case_decide; intros [= <-]; simpl; lia.
    - constructor.
    - intros c s. simpl. rewrite lookup_empty. discriminate. }
  assert (Hsteps : rtc step Sample.world0 Sample.world3).
  { eapply rtc_l; [apply (step_cart_add Sample.world0 0%nat 1 (Some "8")) |].
    eapply rtc_l; [apply (step_checkout Sample.world1 0%nat Sample.customer
                            Sample.form Sample.env) |].
    eapply rtc_l; [apply (step_order_cancel Sample.world2 Sample.customer 1) |].
    apply rtc_refl. }
  split; [exact H0 |]. split; [exact Hsteps |].
  split; [apply (stock_never_negative _ _ H0 Hsteps) |].
  repeat split; vm_compute; reflexivity.
Defined.

End Stock.

(** * Further properties of the handlers *)

(** ** Cart keys: [str] and [int] *)

Section Keys.

Lemma digits_all_digits s : forall acc b,
  all_digits s = true -> s <> EmptyString \/ b = true ->
  Py.digits acc b s = Some (digits_value acc s).
Proof.
  induction s as [| c s IH]; intros acc b Hd Hne.
  - destruct Hne as [Hne | ->]; [congruence | reflexivity].
  - simpl in *. destruct (Py.digit_val c) as [d |]; [| discriminate].
    simpl. apply IH; [exact Hd | now right].
Qed.

Lemma digits_value_acc s : forall acc,
  digits_value acc s = acc * 10 ^ Z.of_nat (String.length s) + digits_value 0 s.
Proof.
  induction s as [| c s IH]; intros acc.
  - simpl. lia.
  - cbn [digits_value String.length]. rewrite IH, (IH (10 * 0 + _)).
    rewrite Nat2Z.inj_succ, Z.pow_succ_r by lia. lia.
Qed.

Lemma digit_val_pretty_char (d : N) :
  (d < 10)%N -> Py.digit_val (pretty_N_char d) = Some (Z.of_N d).
Proof.
  intros H.
  assert (d = 0 \/ d = 1 \/ d = 2 \/ d = 3 \/ d = 4 \/ d = 5 \/ d = 6
          \/ d = 7 \/ d = 8 \/ d = 9)%N as Hd by lia.
  repeat destruct Hd as [-> | Hd]; try subst d; reflexivity.
Qed.

(** [pretty_N_go x s] writes the digits of [x] in front of [s]. *)
Lemma pretty_N_go_value (x : N) : forall s,
  all_digits s = true ->
  all_digits (pretty_N_go x s) = true /\
  digits_value 0 (pretty_N_go x s)
    = Z.of_N x * 10 ^ Z.of_nat (String.length s) + digits_value 0 s /\
  (String.length s <= String.length (pretty_N_go x s))%nat.
Proof.
  induction (N.lt_wf_0 x) as [x _ IH]. intros s Hs.
  destruct (decide (x = 0%N)) as [-> | Hx].
  - rewrite pretty_N_go_0. split; [exact Hs |]. split; lia.
  - rewrite pretty_N_go_step by lia.
    assert (Hm : (x `mod` 10 < 10)%N) by (apply N.mod_lt; lia).
    destruct (IH (x `div` 10)%N) with (s := String (pretty_N_char (x `mod` 10)) s)
      as (H1 & H2 & H3).
    { apply N.div_lt; lia. }
    { simpl. now rewrite (digit_val_pretty_char _ Hm). }
    split; [exact H1 |]. split.
    + rewrite H2. cbn [digits_value String.length].
      rewrite (digit_val_pretty_char _ Hm). simpl default.
      rewrite (digits_value_acc s (10 * 0 + _)).
      rewrite Nat2Z.inj_succ, Z.pow_succ_r by lia.
      pose proof (N.div_mod x 10 ltac:(lia)) as Hdm.
      assert (Z.of_N x = 10 * Z.of_N (x `div` 10) + Z.of_N (x `mod` 10)) by lia.
      lia.
    + simpl in H3. lia.
Qed.

Lemma pretty_N_digits (x : N) :
  all_digits (pretty x) = true /\ digits_value 0 (pretty x) = Z.of_N x /\
  pretty x <> EmptyString.
Proof.
  unfold pretty, pretty_N. destruct (decide (x = 0%N)) as [-> | Hx].
  - repeat split. discriminate.
  - rewrite pretty_N_go_step by lia.
    assert (Hm : (x `mod` 10 < 10)%N) by (apply N.mod_lt; lia).
    destruct (pretty_N_go_value (x `div` 10)%N (String (pretty_N_char (x `mod` 10)) ""))
      as (H1 & H2 & H3).
    { simpl. now rewrite (digit_val_pretty_char _ Hm). }
    split; [exact H1 |]. split.
    + rewrite H2. simpl. rewrite (digit_val_pretty_char _ Hm). simpl.
      pose proof (N.div_mod x 10 ltac:(lia)). lia.
    + intros E. rewrite E in H3. simpl in H3. lia.
Qed.

Lemma rev_app_rev_app s : forall a b,
  String.rev_app (String.rev_app s a) b = String.rev_app a (s +:+ b).
Proof.
  induction s as [| c s IH]; intros a b; simpl; [reflexivity |].
  now rewrite IH.
Qed.

Lemma string_app_empty s : s +:+ "" = s.
Proof.
  induction s as [| c s IH]; [reflexivity |].
  change (String c (s +:+ "") = String c s). now rewrite IH.
Qed.

Lemma rev_rev s : String.rev (String.rev s) = s.
Proof.
  unfold String.rev. rewrite rev_app_rev_app. apply string_app_empty.
Qed.

Lemma no_space_rev_app s : forall a,
  no_space s = true -> no_space a = true -> no_space (String.rev_app s a) = true.
Proof.
  induction s as [| c s IH]; intros a Hs Ha; simpl in *; [exact Ha |].
  apply andb_true_iff in Hs as [Hc Hs]. apply IH; [exact Hs |].
  simpl. now rewrite Hc, Ha.
Qed.

Lemma c_space_isspace c : Py.is_c_space c = true -> Py.isspace c = true.
Proof.
  unfold Py.is_c_space, Py.isspace. intros H. now rewrite H.
Qed.

Lemma skip_spaces_no_space s : no_space s = true -> Py.skip_spaces s = s.
Proof.
  destruct s as [| c s]; simpl; [reflexivity |].
  intros H. apply andb_true_iff in H as [Hc _].
  apply negb_true_iff in Hc.
  destruct (Py.is_c_space c) eqn:E; [| reflexivity].
  apply c_space_isspace in E. congruence.
Qed.

(** [int()] skips nothing around a text without whitespace. *)
Lemma int_trim_no_space s :
  no_space s = true ->
  String.rev (Py.skip_spaces (String.rev (Py.skip_spaces s))) = s.
Proof.
  intros H. rewrite (skip_spaces_no_space s H).
  rewrite skip_spaces_no_space; [apply rev_rev |].
  unfold String.rev. now apply no_space_rev_app.
Qed.

Lemma digit_not_space c d : Py.digit_val c = Some d -> Py.isspace c = false.
Proof.
  unfold Py.digit_val, Py.isspace.
  destruct ((48 <=? nat_of_ascii c)%nat && (nat_of_ascii c <=? 57)%nat) eqn:E;
    [| discriminate].
  intros _. apply andb_true_iff in E as [E1 E2].
  apply Nat.leb_le in E1, E2.
  repeat (apply orb_false_iff; split).
  - apply Nat.eqb_neq. lia.
  - apply andb_false_iff. right. apply Nat.leb_gt. lia.
  - apply andb_false_iff. right. apply Nat.leb_gt. lia.
Qed.

Lemma all_digits_no_space s : all_digits s = true -> no_space s = true.
Proof.
  induction s as [| c s IH]; simpl; [reflexivity |].
  destruct (Py.digit_val c) as [d |] eqn:E; [| discriminate].
  intros H. now rewrite (digit_not_space _ _ E), IH.
Qed.

(** A text that starts with a digit is read without a sign. *)
Lemma int_unsigned c s :
  is_Some (Py.digit_val c) -> no_space (String c s) = true ->
  Py.int (String c s) = Py.digits 0 false (String c s).
Proof.
  intros [d Hd] Hs. unfold Py.int. rewrite (int_trim_no_space _ Hs).
  destruct c as [[] [] [] [] [] [] [] []]; try reflexivity;
    vm_compute in Hd; discriminate.
Qed.

(** [int(str(z)) = z]: the key that [cart_add] writes for a product is read
    back as that product by [cart_items]. *)
Lemma int_pretty (z : Z) : Py.int (pretty z) = Some z.
Proof.
  assert (Hpos : forall p : positive, Py.int (pretty p) = Some (Z.pos p) /\
                   all_digits (pretty p) = true /\ pretty p <> EmptyString /\
                   Py.digits 0 false (pretty p) = Some (Z.pos p)).
  { intros p. unfold pretty at 1 2 3 4, pretty_positive.
    destruct (pretty_N_digits (N.pos p)) as (H1 & H2 & H3).
    assert (Hd : Py.digits 0 false (pretty (N.pos p)) = Some (Z.pos p)).
    { rewrite (digits_all_digits _ 0 false H1 (or_introl H3)), H2. reflexivity. }
    split; [| now repeat split].
    destruct (pretty (N.pos p)) as [| c s] eqn:E; [congruence |].
    rewrite int_unsigned; [exact Hd | | now apply all_digits_no_space].
    simpl in H1. destruct (Py.digit_val c); [eauto | discriminate]. }
  destruct z as [| p | p].
  - reflexivity.
  - apply Hpos.
  - destruct (Hpos p) as (_ & H1 & _ & H2).
    change (pretty (Z.neg p)) with (String "-" (pretty p)).
    unfold Py.int. rewrite int_trim_no_space.
    + cbv beta iota. rewrite H2. reflexivity.
    + cbn [no_space]. rewrite (all_digits_no_space _ H1). reflexivity.
Qed.

End Keys.

(** ** The cart handlers *)

Section CartHandlers.

Lemma dict_get_set_eq k v d d0 : dict_get k (dict_set k v d) d0 = v.
Proof.
  induction d as [| [k' v'] d IH]; simpl.
  - now rewrite String.eqb_refl.
  - destruct (String.eqb k' k) eqn:E; simpl; rewrite E; [reflexivity | exact IH].
Qed.

Lemma dict_get_set_ne k k' v d d0 :
  k' <> k -> dict_get k' (dict_set k v d) d0 = dict_get k' d d0.
Proof.
  intros Hne. induction d as [| [k1 v1] d IH]; simpl.
  - apply String.eqb_neq in Hne. rewrite String.eqb_sym in Hne. now rewrite Hne.
  - destruct (String.eqb k1 k) eqn:E; simpl.
    + apply String.eqb_eq in E. subst k1.
      assert (E' : String.eqb k k' = false) by (apply String.eqb_neq; congruence).
      now rewrite E'.
    + destruct (String.eqb k1 k'); [reflexivity | exact IH].
Qed.

Lemma dict_set_In k v d : In (k, v) (dict_set k v d).
Proof.
  induction d as [| [k' v'] d IH]; simpl; [now left |].
  destruct (String.eqb k' k) eqn:E.
  - apply String.eqb_eq in E. subst. now left.
  - now right.
Qed.

Lemma dict_set_elem k v d k' v' :
  In (k', v') (dict_set k v d) -> (k' = k /\ v' = v) \/ In (k', v') d.
Proof.
  induction d as [| [k1 v1] d IH]; simpl.
  - intros [[= <- <-] | []]. now left.
  - destruct (String.eqb k1 k) eqn:E.
    + apply String.eqb_eq in E. subst k1.
      intros [[= <- <-] | H]; [now left | right; now right].
    + intros [H | H]; [right; now left |].
      destruct (IH H) as [? | ?]; [now left | right; now right].
Qed.

Lemma dict_set_keys k v d :
  forall k', In k' (map fst (dict_set k v d)) <-> k' = k \/ In k' (map fst d).
Proof.
  intros k'. induction d as [| [k1 v1] d IH]; simpl.
  - intuition congruence.
  - destruct (String.eqb k1 k) eqn:E; simpl.
    + apply String.eqb_eq in E. subst k1. intuition congruence.
    + rewrite IH. intuition congruence.
Qed.

Lemma dict_set_NoDup k v d :
  List.NoDup (map fst d) -> List.NoDup (map fst (dict_set k v d)).
Proof.
  induction d as [| [k1 v1] d IH]; simpl; intros H.
  - constructor; [intros [] | constructor].
  - inversion H as [| ? ? Hnot Hd]; subst.
    destruct (String.eqb k1 k) eqn:E; simpl.
    + constructor; assumption.
    + constructor; [| now apply IH].
      rewrite dict_set_keys. intros [-> | Hin]; [| contradiction].
      rewrite String.eqb_refl in E. discriminate.
Qed.

Lemma dict_set_parses k v d :
  is_Some (Py.int k) ->
  Forall (fun kv : string * Z => is_Some (Py.int kv.1)) d ->
  Forall (fun kv : string * Z => is_Some (Py.int kv.1)) (dict_set k v d).
Proof.
  intros Hk. induction 1 as [| [k1 v1] d H1 Hd IH]; simpl.
  - repeat constructor. exact Hk.
  - destruct (String.eqb k1 k); constructor; assumption.
Qed.

(** What [cart_add] answers and stores for an available product and an
    integer quantity. *)
Lemma cart_add_available db s product_id quantity p q :
  products db !! product_id = Some p ->
  available p ->
  match quantity with Some x => Py.int x | None => Some 1 end = Some q ->
  cart_add db s product_id quantity =
    (CartStored,
     mkSession (dict_set (pretty product_id)
                  (Z.min (dict_get (pretty product_id) (cart s) 0 + Z.max 1 q)
                         (Product.stock p))
                  (cart s))
               (session_coupon_code s)).
Proof.
  intros Hp [Ha Hs] Hq. unfold cart_add. rewrite Hp, Ha, Hq.
  assert (E : (Product.stock p <=? 0) = false) by (apply Z.leb_gt; exact Hs).
  rewrite E. simpl negb. cbv iota. simpl orb. cbv iota.
  f_equal. f_equal.
  destruct (Product.stock p <? _) eqn:E'; [apply Z.ltb_lt in E' | apply Z.ltb_ge in E'];
    f_equal; lia.
Qed.

(** X1. For a product that is active with stock > 0 and a quantity field
    that [int()] reads as the integer q (ASCII text within the digit limit;
    q is 1 when the field is absent), [cart_add] stores min(previous +
    max(1, q), stock) under the product's key: at least 1 and at most the
    stock when the previous quantity is not negative. Every other entry of
    the cart and the coupon code are untouched. *)
Theorem cart_add_quantity db s product_id quantity p q :
  products db !! product_id = Some p ->
  available p ->
  match quantity with Some x => short_ascii x = true | None => True end ->
  match quantity with Some x => Py.int x | None => Some 1 end = Some q ->
  let r := cart_add db s product_id quantity in
  let key := pretty product_id in
  r.1 = CartStored /\
  dict_get key (cart r.2) 0
    = Z.min (dict_get key (cart s) 0 + Z.max 1 q) (Product.stock p) /\
  (0 <= dict_get key (cart s) 0 -> 1 <= dict_get key (cart r.2) 0 <= Product.stock p) /\
  (forall k d, k <> key -> dict_get k (cart r.2) d = dict_get k (cart s) d) /\
  session_coupon_code r.2 = session_coupon_code s.
Proof.
  intros Hp Ha _ Hq r key. unfold r.
  rewrite (cart_add_available _ _ _ _ _ _ Hp Ha Hq). simpl. fold key.
  split; [reflexivity |]. rewrite dict_get_set_eq.
  split; [reflexivity |]. split; [destruct Ha; lia |].
  split; [| reflexivity]. intros k d Hk. now apply dict_get_set_ne.
Qed.

Lemma cart_add_quantity_witness :
  let r := cart_add Sample.db (mkSession [("2", 1); ("1", 4)] None) 1 (Some " 3 ") in
  r.1 = CartStored /\ cart r.2 = [("2", 1); ("1", 5)].
Proof.
  destruct (cart_add_quantity Sample.db (mkSession [("2", 1); ("1", 4)] None) 1
              (Some " 3 ") Sample.car 3) as (H1 & _).
  - reflexivity.
  - split; reflexivity.
  - reflexivity.
  - reflexivity.
  - split; [exact H1 | reflexivity].
Defined.

Lemma cart_add_cases db s product_id quantity :
  ((cart_add db s product_id quantity).1 = CartStored ->
   exists p q, products db !! product_id = Some p /\ available p /\
               match quantity with Some x => Py.int x | None => Some 1 end = Some q) /\
  ((cart_add db s product_id quantity).1 <> CartStored ->
   (cart_add db s product_id quantity).2 = s).
Proof.
  unfold cart_add.
  destruct (products db !! product_id) as [p |]; [| split; [discriminate | reflexivity]].
  destruct (negb (Product.is_active p) || (Product.stock p <=? 0)) eqn:E;
    [split; [discriminate | reflexivity] |].
  apply orb_false_iff in E as [Ea Es]. apply negb_false_iff in Ea. apply Z.leb_gt in Es.
  destruct (match quantity with Some x => Py.int x | None => Some 1 end) as [q |];
    [| split; [discriminate | reflexivity]].
  split; [| simpl; congruence]. intros _. exists p, q. repeat split; auto.
Qed.

(** X2. For a quantity field of ASCII text within the digit limit,
    [cart_add] stores only for a product that exists, is active and has
    stock > 0, and a quantity field that is absent or an integer literal as
    [int()] reads it; in every other case (a missing, inactive or
    out-of-stock product, a quantity that is not an integer, such as digits
    next to a separator character 0x1c) the session is left as it was. *)
Theorem cart_add_only_available db s product_id quantity :
  match quantity with Some x => short_ascii x = true | None => True end ->
  let r := cart_add db s product_id quantity in
  (r.1 = CartStored <->
   exists p q, products db !! product_id = Some p /\ available p /\
               match quantity with Some x => Py.int x | None => Some 1 end = Some q) /\
  (r.1 <> CartStored -> r.2 = s).
Proof.
  intros _. cbv zeta. destruct (cart_add_cases db s product_id quantity) as [Hyes Hno].
  split; [| exact Hno]. split; [exact Hyes |].
  intros (p & q & Hp & Ha & Hq). now rewrite (cart_add_available _ _ _ _ _ _ Hp Ha Hq).
Qed.

Lemma cart_add_only_available_witness :
  (cart_add Sample.db Sample.basket 3 None).2 = Sample.basket /\
  (cart_add Sample.db Sample.basket 4 None).2 = Sample.basket /\
  (cart_add Sample.db Sample.basket 77 None).2 = Sample.basket /\
  (cart_add Sample.db Sample.basket 1 (Some "two")).2 = Sample.basket /\
  (cart_add Sample.db Sample.basket 1 (Some (String (ascii_of_nat 28) "4"))).2
    = Sample.basket.
Proof.
  split; [| split; [| split; [| split]]].
  - apply (proj2 (cart_add_only_available Sample.db Sample.basket 3 None I)).
    vm_compute. congruence.
  - apply (proj2 (cart_add_only_available Sample.db Sample.basket 4 None I)).
    vm_compute. congruence.
  - apply (proj2 (cart_add_only_available Sample.db Sample.basket 77 None I)).
    vm_compute. congruence.
  - apply (proj2 (cart_add_only_available Sample.db Sample.basket 1 (Some "two") eq_refl)).
    vm_compute. congruence.
  - apply (proj2 (cart_add_only_available Sample.db Sample.basket 1
                    (Some (String (ascii_of_nat 28) "4")) eq_refl)).
    vm_compute. congruence.
Defined.

(** X3. A product stored by [cart_add] in a cart whose keys are integers is
    priced by [cart_items]: its key reads back as the product's id, and the
    line carries the stored quantity, which is at most the stock. *)
Theorem added_product_is_priced db s product_id quantity now :
  Forall (fun kv => is_Some (Py.int kv.1)) (cart s) ->
  (cart_add db s product_id quantity).1 = CartStored ->
  let s' := (cart_add db s product_id quantity).2 in
  exists t p qty,
    cart_items db s' now = Some t /\
    products db !! product_id = Some p /\
    qty = dict_get (pretty product_id) (cart s') 0 /\
    qty <= Product.stock p /\
    In (mkItem product_id qty (inject_Z qty * Product.price p)%Q) (t_items t).
Proof.
  intros Hkeys Hr s'.
  destruct (proj1 (cart_add_cases db s product_id quantity) Hr)
    as (p & q & Hp & Ha & Hq).
  pose proof (cart_add_available _ s _ _ _ _ Hp Ha Hq) as Hadd.
  assert (Hkeys' : Forall (fun kv => is_Some (Py.int kv.1)) (cart s')).
  { unfold s'. rewrite Hadd. simpl. apply dict_set_parses; [| exact Hkeys].
    rewrite int_pretty. eauto. }
  destruct (cart_lines_total (products db) _ Hkeys') as [items Hitems].
  set (qty := Z.min (dict_get (pretty product_id) (cart s) 0 + Z.max 1 q) (Product.stock p)).
  assert (Hin : In (pretty product_id, qty) (cart s')).
  { unfold s'. rewrite Hadd. simpl. apply dict_set_In. }
  pose proof (cart_lines_complete _ _ _ Hitems _ _ _ _ Hin (int_pretty product_id) Hp Ha)
    as Hline.
  unfold cart_items. rewrite Hitems. simpl.
  eexists. exists p, qty. split; [reflexivity |]. split; [exact Hp |].
  split; [unfold s'; rewrite Hadd; simpl; now rewrite dict_get_set_eq |].
  split; [unfold qty; lia |]. simpl.
  unfold line_of in Hline. replace (Z.min qty (Product.stock p)) with qty in Hline
    by (unfold qty; lia).
  exact Hline.
Qed.

Lemma added_product_is_priced_witness :
  exists t, cart_items Sample.db (cart_add Sample.db Sample.basket 1 (Some "9")).2 5 = Some t /\
            In (mkItem 1 5 (inject_Z 5 * 100)%Q) (t_items t).
Proof.
  destruct (added_product_is_priced Sample.db Sample.basket 1 (Some "9") 5)
    as (t & p & qty & Ht & Hp & Hq & _ & Hin).
  - repeat constructor; vm_compute; eauto.
  - reflexivity.
  - exists t. split; [exact Ht |].
    vm_compute in Hp. injection Hp as <-. vm_compute in Hq. subst qty. exact Hin.
Defined.

End CartHandlers.

Section CartUpdate.

Lemma cart_update_loop_entries db form0 form : forall cart cart',
  (forall kv, In kv form -> In kv form0) ->
  List.NoDup (map fst cart) ->
  (forall pid qty, In (pid, qty) cart -> update_entry db form0 pid qty) ->
  cart_update_loop (products db) form cart = Some cart' ->
  List.NoDup (map fst cart') /\
  (forall pid qty, In (pid, qty) cart' -> update_entry db form0 pid qty).
Proof.
  induction form as [| [key value] rest IH]; intros cart cart' Hsub Hnd Hent.
  - intros [= <-]. now split.
  - rewrite cart_update_loop_cons.
    assert (Hsub' : forall kv, In kv rest -> In kv form0)
      by (intros kv H; apply Hsub; now right).
    destruct (startswith "qty_" key) eqn:Hsw; [| now apply IH].
    destruct (Py.int value) as [v |] eqn:Hv; [| discriminate].
    destruct (Py.int (remove_all "qty_" 0 key)) as [k |] eqn:Hk; [| discriminate].
    destruct (products db !! k) as [p |] eqn:Hp; [| now apply IH].
    destruct (Product.is_active p) eqn:Ha; [| now apply IH].
    apply IH; [exact Hsub' | now apply dict_set_NoDup |].
    intros pid qty Hin. apply dict_set_elem in Hin as [[-> ->] | Hin]; [| now apply Hent].
    exists key, value, v, k, p. repeat split; auto. apply Hsub. now left.
Qed.

(** X4. The cart that [cart_update] stores is built from the form alone:
    its keys are distinct, and every entry comes from a [qty_] field with
    an integer value v whose key names an existing, active product, and
    holds min(max(1, v), stock), so at most the stock and at least 1 when the
    stock is. Whatever the old cart held and the form does not name is
    gone; the coupon code is kept. *)
Theorem cart_update_entries db s form s' :
  cart_update db s form = (CartStored, s') ->
  List.NoDup (map fst (cart s')) /\
  (forall pid qty, In (pid, qty) (cart s') ->
     update_entry db form pid qty /\
     forall k p, Py.int pid = Some k -> products db !! k = Some p ->
                 qty <= Product.stock p /\ (1 <= Product.stock p -> 1 <= qty)) /\
  (forall s0, cart (cart_update db s0 form).2 = cart s') /\
  session_coupon_code s' = session_coupon_code s.
Proof.
  unfold cart_update.
  destruct (cart_update_loop (products db) form []) as [cart' |] eqn:E; [| discriminate].
  intros [= <-]. simpl.
  destruct (cart_update_loop_entries db form form [] cart') as [Hnd Hent]; auto.
  { constructor. }
  { intros ? ? []. }
  split; [exact Hnd |]. split; [| split; [reflexivity | reflexivity]].
  intros pid qty Hin. split; [now apply Hent |].
  destruct (Hent _ _ Hin) as (key & value & v & k & p & _ & _ & _ & _ & Hk & Hp & _ & ->).
  intros k' p' Hk' Hp'. rewrite Hk in Hk'. injection Hk' as <-.
  rewrite Hp in Hp'. injection Hp' as <-. lia.
Qed.

Lemma cart_update_entries_witness :
  cart_update Sample.db Sample.greedy
    [("csrf_token", "x"); ("qty_2", "0"); ("qty_1", "12"); ("qty_4", "2"); ("qty_3", "1");
     ("qty_9", "1"); ("qty_02", "7")]
  = (CartStored, mkSession [("2", 1); ("1", 5); ("4", 0); ("02", 3)] (Some "HALF")) /\
  List.NoDup ["2"; "1"; "4"; "02"].
Proof.
  assert (H : cart_update Sample.db Sample.greedy
    [("csrf_token", "x"); ("qty_2", "0"); ("qty_1", "12"); ("qty_4", "2"); ("qty_3", "1");
     ("qty_9", "1"); ("qty_02", "7")]
  = (CartStored, mkSession [("2", 1); ("1", 5); ("4", 0); ("02", 3)] (Some "HALF")))
    by (vm_compute; reflexivity).
  split; [exact H |].
  exact (proj1 (cart_update_entries _ _ _ _ H)).
Defined.

(** X5. After [cart_remove] the product's key is absent from the cart, every
    other entry reads as before, and removing a key that is absent, or
    removing twice, changes nothing. *)
Theorem cart_remove_entry s product_id :
  let s' := cart_remove s product_id in
  (forall qty, ~ In (pretty product_id, qty) (cart s')) /\
  (forall k qty, k <> pretty product_id -> In (k, qty) (cart s') <-> In (k, qty) (cart s)) /\
  ((forall qty, ~ In (pretty product_id, qty) (cart s)) -> s' = mkSession (cart s) (session_coupon_code s)) /\
  cart_remove s' product_id = s' /\
  session_coupon_code s' = session_coupon_code s.
Proof.
  cbv zeta. unfold cart_remove. simpl.
  split; [| split; [| split; [| split]]].
  - intros qty Hin. apply filter_In in Hin as [_ Hin]. simpl in Hin.
    rewrite String.eqb_refl in Hin. discriminate.
  - intros k qty Hk. rewrite filter_In. simpl.
    apply String.eqb_neq in Hk. rewrite Hk. simpl. tauto.
  - intros Habs. f_equal.
    induction (cart s) as [| [k v] d IH]; simpl; [reflexivity |].
    destruct (String.eqb k (pretty product_id)) eqn:E; simpl.
    + apply String.eqb_eq in E. subst k. destruct (Habs v). now left.
    + f_equal. apply IH. intros qty Hin. apply (Habs qty). now right.
  - f_equal.
    induction (cart s) as [| [k v] d IH]; simpl; [reflexivity |].
    destruct (String.eqb k (pretty product_id)) eqn:E; simpl; [exact IH |].
    rewrite E. simpl. now f_equal.
  - reflexivity.
Qed.

Lemma cart_remove_entry_witness :
  cart_remove Sample.basket 1 = mkSession [("2", 1)] None /\
  cart_remove Sample.basket 5 = Sample.basket.
Proof.
  split; [reflexivity |].
  apply (proj1 (proj2 (proj2 (cart_remove_entry Sample.basket 5)))).
  intros qty [H | [H | []]]; vm_compute in H; discriminate.
Defined.

End CartUpdate.

(** ** Applying a coupon *)

Section ApplyCoupon.

Local Open Scope Q_scope.

(** What an applied code tells about the coupon and the session. *)
Lemma cart_coupon_applied db s now coupon_code :
  (cart_coupon db s now coupon_code).1 = CouponApplied ->
  exists c t,
    find_active_coupon (coupons db) (upper (Py.strip coupon_code)) = Some c /\
    (Coupon.valid_from c <= now <= Coupon.valid_until c)%Z /\
    cart_items db s now = Some t /\
    Coupon.min_purchase c <= t_subtotal t /\
    (cart_coupon db s now coupon_code).2
      = mkSession (cart s) (Some (upper (Py.strip coupon_code))).
Proof.
  unfold cart_coupon.
  destruct (find_active_coupon (coupons db) (upper (Py.strip coupon_code))) as [c |];
    [| discriminate].
  destruct ((now <? Coupon.valid_from c)%Z || (Coupon.valid_until c <? now)%Z) eqn:Ew;
    [discriminate |].
  apply orb_false_iff in Ew as [Ew1 Ew2]. apply Z.ltb_ge in Ew1, Ew2.
  destruct (match Coupon.usage_limit c with Some _ => _ | None => _ end); [discriminate |].
  destruct (cart_items db s now) as [t |]; [| discriminate].
  destruct (Qle_bool (Coupon.min_purchase c) (t_subtotal t)) eqn:Em; [| discriminate].
  intros _. exists c, t. split; [reflexivity |]. split; [lia |].
  split; [reflexivity |]. split; [now apply Qle_bool_iff | reflexivity].
Qed.

(** X6. [cart_coupon] applies a code exactly when, for the code stripped
    and upper-cased, an active coupon exists, [now] lies in its validity
    window, its usage limit is unset, zero or above its use count, the cart
    prices, and the subtotal is at least the minimum purchase. It then
    stores the normalised code and keeps the cart; a refused code leaves
    the session as it was. *)
Theorem cart_coupon_applies db s now coupon_code :
  let code := upper (Py.strip coupon_code) in
  let r := cart_coupon db s now coupon_code in
  (r.1 = CouponApplied <->
   exists c t,
     find_active_coupon (coupons db) code = Some c /\
     (Coupon.valid_from c <= now <= Coupon.valid_until c)%Z /\
     match Coupon.usage_limit c with
     | Some limit => limit = 0%Z \/ (Coupon.used_count c < limit)%Z
     | None => True
     end /\
     cart_items db s now = Some t /\
     Coupon.min_purchase c <= t_subtotal t) /\
  (r.1 = CouponApplied -> r.2 = mkSession (cart s) (Some code)) /\
  (r.1 <> CouponApplied -> r.2 = s).
Proof.
  cbv zeta. unfold cart_coupon.
  destruct (find_active_coupon (coupons db) (upper (Py.strip coupon_code))) as [c |];
    [| split; [split; [discriminate | intros (c & t & [=] & _)] |
               split; [discriminate | reflexivity]]].
  destruct ((now <? Coupon.valid_from c)%Z || (Coupon.valid_until c <? now)%Z) eqn:Ew.
  { split; [split; [discriminate |] | split; [discriminate | reflexivity]].
    intros (c' & t & [= <-] & Hw & _).
    apply orb_true_iff in Ew as [Ew | Ew]; apply Z.ltb_lt in Ew; lia. }
  apply orb_false_iff in Ew as [Ew1 Ew2]. apply Z.ltb_ge in Ew1, Ew2.
  destruct (match Coupon.usage_limit c with
            | Some limit => negb (limit =? 0)%Z && (limit <=? Coupon.used_count c)%Z
            | None => false
            end) eqn:El.
  { split; [split; [discriminate |] | split; [discriminate | reflexivity]].
    intros (c' & t & [= <-] & _ & Hl & _).
    destruct (Coupon.usage_limit c) as [limit |]; [| discriminate].
    apply andb_true_iff in El as [E0 E1]. apply negb_true_iff, Z.eqb_neq in E0.
    apply Z.leb_le in E1. lia. }
  destruct (cart_items db s now) as [t |];
    [| split; [split; [discriminate | intros (c' & t & _ & _ & _ & [=] & _)] |
               split; [discriminate | reflexivity]]].
  destruct (Qle_bool (Coupon.min_purchase c) (t_subtotal t)) eqn:Em; simpl negb; cbv iota.
  - split; [| split; [reflexivity | simpl; congruence]]. split; [| reflexivity].
    intros _. exists c, t. split; [reflexivity |]. split; [lia |].
    split; [| split; [reflexivity | now apply Qle_bool_iff]].
    destruct (Coupon.usage_limit c) as [limit |]; [| exact I].
    apply andb_false_iff in El as [E0 | E1].
    + apply negb_false_iff, Z.eqb_eq in E0. now left.
    + apply Z.leb_gt in E1. now right.
  - split; [split; [discriminate |] | split; [discriminate | reflexivity]].
    intros (c' & t' & [= <-] & _ & _ & [= <-] & Hm).
    apply Qle_bool_iff in Hm. congruence.
Qed.

Lemma cart_coupon_applies_witness :
  cart_coupon Sample.db Sample.basket 5 "  flat " = (CouponApplied, mkSession (cart Sample.basket) (Some "FLAT")) /\
  (cart_coupon Sample.db Sample.basket 5 "half").2 = Sample.basket /\
  (cart_coupon Sample.db Sample.basket 1001 "flat").2 = Sample.basket /\
  (cart_coupon Sample.db Sample.basket 5 "nope").2 = Sample.basket.
Proof.
  destruct (cart_coupon_applies Sample.db Sample.basket 5 "  flat ") as (_ & Hyes & _).
  split; [| repeat split].
  - destruct (cart_coupon Sample.db Sample.basket 5 "  flat ") as [r s'] eqn:E.
    assert (Hr : r = CouponApplied) by (vm_compute in E; now injection E as <- _).
    subst r. simpl in Hyes. rewrite (Hyes eq_refl). reflexivity.
Defined.

(** X7. A code that [cart_coupon] has just applied is in force at once: the
    same cart is priced with the same lines and subtotal, and with the
    coupon's discount, min(subtotal * value / 100, cap) for a percentage
    coupon (the cap being maxDiscount when set and not zero, else the
    subtotal) and min(value, subtotal) otherwise. *)
Theorem applied_coupon_is_priced db s now coupon_code :
  (cart_coupon db s now coupon_code).1 = CouponApplied ->
  upper (Py.strip coupon_code) <> EmptyString ->
  let s' := (cart_coupon db s now coupon_code).2 in
  exists c t t',
    find_active_coupon (coupons db) (upper (Py.strip coupon_code)) = Some c /\
    cart_items db s now = Some t /\
    cart_items db s' now = Some t' /\
    t_items t' = t_items t /\
    t_subtotal t' = t_subtotal t /\
    Coupon.min_purchase c <= t_subtotal t' /\
    t_discount t' ==
      if String.eqb (Coupon.discount_type c) "percentage"
      then Qmin (t_subtotal t' * Coupon.discount_value c / 100)
                (match Coupon.max_discount c with
                 | Some m => if Qeq_bool m 0 then t_subtotal t' else m
                 | None => t_subtotal t'
                 end)
      else Qmin (Coupon.discount_value c) (t_subtotal t').
Proof.
  intros Hr Hne s'.
  destruct (cart_coupon_applied db s now coupon_code Hr) as (c & t & Hf & Hw & Ht & Hm & Hs').
  fold s' in Hs'.
  destruct (upper (Py.strip coupon_code)) as [| a code] eqn:Ecode; [congruence |].
  assert (Hl : cart_lines (products db) (cart s) = Some (t_items t))
    by (eapply cart_items_lines; exact Ht).
  assert (Hsub : t_subtotal t = Py.sum (map item_subtotal (t_items t))).
  { revert Ht. unfold cart_items. rewrite Hl. simpl. now intros [= <-]. }
  set (subtotal := Py.sum (map item_subtotal (t_items t))) in *.
  set (discount := cart_discount (coupons db) (Some (String a code)) now subtotal).
  exists c, t,
    (mkTotals (t_items t) subtotal (tax_of subtotal) (shipping_of subtotal) discount
       (subtotal + tax_of subtotal + shipping_of subtotal - discount)).
  split; [exact Hf |]. split; [exact Ht |].
  split; [rewrite Hs'; unfold cart_items; cbn [cart session_coupon_code];
          rewrite Hl; reflexivity |].
  cbn [t_items t_subtotal t_discount]. unfold discount.
  split; [reflexivity |]. split; [now rewrite Hsub |].
  rewrite <- Hsub. split; [exact Hm |].
  rewrite (cart_discount_found _ _ _ _ _ _ Hf Hw).
  destruct (String.eqb (Coupon.discount_type c) "percentage"); apply py_min_Qmin.
Qed.

Lemma applied_coupon_is_priced_witness :
  exists t', cart_items Sample.db (cart_coupon Sample.db Sample.basket 5 "Double").2 5 = Some t' /\
             t_discount t' == 900.
Proof.
  destruct (applied_coupon_is_priced Sample.db Sample.basket 5 "Double")
    as (c & t & t' & Hc & _ & Ht' & _ & _ & _ & Hd).
  - reflexivity.
  - discriminate.
  - exists t'. split; [exact Ht' |].
    vm_compute in Hc. injection Hc as <-.
    vm_compute in Ht'. injection Ht' as <-. reflexivity.
Defined.

End ApplyCoupon.

(** ** Status changes by an admin *)

Section AdminOrders.

Lemma admin_orders_updated db u oid status e o :
  User.is_admin u = true ->
  orders db !! oid = Some o ->
  String.eqb status "shipped" && negb (Py.truthy (Order.tracking_code o)) = false ->
  admin_orders db u oid status e =
    (OrderUpdated,
     mkDb (products db) (coupons db)
       (<[oid :=
            Order.mk (Order.user_id o) (Order.order_number o) status
              (if String.eqb status "delivered" then "paid" else Order.payment_status o)
              (Order.payment_method o) (Order.subtotal o) (Order.tax o)
              (Order.shipping o) (Order.discount o) (Order.coupon_code o)
              (Order.total o) (Order.shipping_address o) (Order.tracking_code o)
              (Order.estimated_delivery o)
              (if String.eqb status "delivered" then Some (utcnow e)
               else Order.delivered_at o)
              (Order.notes o)]> (orders db))
       (order_items db) (addresses db)).
Proof.
  intros Ha Ho Hg. unfold admin_orders. rewrite Ha, Ho, Hg. reflexivity.
Qed.

(** X8. Only an admin changes an order through [admin_orders], and only
    the order named: products, coupons, order lines, addresses and every
    other order stay as they are. The new status is whatever the form
    sends, from any current status; the order keeps its owner, number and
    amounts; a change to delivered sets the payment status to paid and the
    delivery time to now, any other change leaves both. *)
Theorem admin_orders_effect db u oid status e :
  let r := admin_orders db u oid status e in
  (User.is_admin u = false -> r = (AdminLoginRequired, db)) /\
  (r.1 <> OrderUpdated -> r.2 = db) /\
  (products r.2 = products db /\ coupons r.2 = coupons db /\
   order_items r.2 = order_items db /\ addresses r.2 = addresses db) /\
  (forall j, j <> oid -> orders r.2 !! j = orders db !! j) /\
  (r.1 = OrderUpdated ->
   exists o o',
     User.is_admin u = true /\
     orders db !! oid = Some o /\ orders r.2 !! oid = Some o' /\
     Order.status o' = status /\
     (Order.user_id o', Order.order_number o', Order.payment_method o', Order.coupon_code o')
       = (Order.user_id o, Order.order_number o, Order.payment_method o, Order.coupon_code o) /\
     (Order.subtotal o', Order.tax o', Order.shipping o', Order.discount o', Order.total o')
       = (Order.subtotal o, Order.tax o, Order.shipping o, Order.discount o, Order.total o) /\
     (status = "delivered" ->
      Order.payment_status o' = "paid" /\ Order.delivered_at o' = Some (utcnow e)) /\
     (status <> "delivered" ->
      Order.payment_status o' = Order.payment_status o /\
      Order.delivered_at o' = Order.delivered_at o)).
Proof.
  cbv zeta. unfold admin_orders.
  destruct (User.is_admin u) eqn:Ha; simpl negb; cbv iota.
  2: { repeat split; try reflexivity; try discriminate. }
  destruct (orders db !! oid) as [o |] eqn:Ho.
  2: { repeat split; try reflexivity; try discriminate. }
  destruct (String.eqb status "shipped" && negb (Py.truthy (Order.tracking_code o))
            && tracking_code_in_use (delete oid (orders db)) (generate_tracking_code e)) eqn:Hr.
  { repeat split; try reflexivity; try discriminate. }
  cbn [fst snd products coupons order_items addresses orders].
  split; [discriminate |]. split; [congruence |].
  split; [repeat split |]. split; [intros j Hj; now apply lookup_insert_ne |].
  intros _. exists o. eexists. split; [reflexivity |]. split; [reflexivity |].
  split; [apply lookup_insert_eq |]. cbn.
  split; [reflexivity |]. split; [reflexivity |]. split; [reflexivity |].
  split; intros Hs.
  - subst status. simpl. split; reflexivity.
  - apply String.eqb_neq in Hs. rewrite Hs. split; reflexivity.
Qed.

Lemma admin_orders_effect_witness :
  admin_orders Sample.placed_db Sample.customer 1 "delivered" Sample.later
    = (AdminLoginRequired, Sample.placed_db) /\
  Order.payment_status <$> orders (admin_orders Sample.placed_db Sample.admin 1 "delivered" Sample.later).2 !! 1
    = Some "paid".
Proof.
  split.
  - apply (proj1 (admin_orders_effect Sample.placed_db Sample.customer 1 "delivered"
                    Sample.later)).
    reflexivity.
  - vm_compute. reflexivity.
Defined.

(** X9. The restore of a cancellation is not tied to the order: when an
    admin sets a cancelled order back to placed and it is cancelled again,
    both cancellations succeed and every product's stock has grown by twice
    the quantities of the order's lines. *)
Theorem reopened_order_restores_twice db u admin oid o e :
  orders db !! oid = Some o ->
  Order.user_id o = User.id u \/ User.is_admin u = true ->
  Order.status o = "placed" \/ Order.status o = "packed" ->
  User.is_admin admin = true ->
  let db1 := (order_cancel db u oid).2 in
  let db2 := (admin_orders db1 admin oid "placed" e).2 in
  let db3 := (order_cancel db2 u oid).2 in
  (order_cancel db u oid).1 = OrderCancelled /\
  (admin_orders db1 admin oid "placed" e).1 = OrderUpdated /\
  (order_cancel db2 u oid).1 = OrderCancelled /\
  forall k,
    products db3 !! k =
      (fun p => with_stock p
                  (Product.stock p + 2 * total_of (ordered_for k (order_items_of db oid)))
                  (Product.sold_count p))
      <$> products db !! k.
Proof.
  intros Ho Hu Hs Ha db1 db2 db3.
  apply cancellable_iff in Hs.
  pose proof (order_cancel_allowed _ _ _ _ Ho Hu) as H1. rewrite Hs in H1.
  assert (Ho1 : orders db1 !! oid =
                Some (set_status o "cancelled"
                        (if String.eqb (Order.payment_status o) "paid"
                         then "refunded" else "cancelled"))).
  { unfold db1. rewrite H1. simpl. apply lookup_insert_eq. }
  pose proof (admin_orders_updated db1 admin oid "placed" e _ Ha Ho1 eq_refl) as H2.
  assert (Ho2 : exists o2, orders db2 !! oid = Some o2 /\
                           Order.user_id o2 = Order.user_id o /\
                           Order.status o2 = "placed").
  { unfold db2. rewrite H2. simpl. eexists. split; [apply lookup_insert_eq |].
    split; reflexivity. }
  destruct Ho2 as (o2 & Ho2 & Hu2 & Hs2).
  assert (Hu' : Order.user_id o2 = User.id u \/ User.is_admin u = true)
    by (rewrite Hu2; exact Hu).
  pose proof (order_cancel_allowed _ _ _ _ Ho2 Hu') as H3.
  rewrite Hs2 in H3. simpl cancellable in H3. cbv iota in H3.
  split; [now rewrite H1 |]. split; [now rewrite H2 |]. split; [now rewrite H3 |].
  intros k. unfold db3. rewrite H3. simpl. rewrite restore_items_products.
  assert (Hitems : order_items_of db2 oid = order_items_of db oid).
  { unfold order_items_of, db2. rewrite H2. simpl. unfold db1. rewrite H1. reflexivity. }
  assert (Hp : products db2 = fold_left restore_item (order_items_of db oid) (products db)).
  { unfold db2. rewrite H2. simpl. unfold db1. rewrite H1. reflexivity. }
  rewrite Hitems, Hp, restore_items_products.
  destruct (products db !! k) as [p |]; simpl; [| reflexivity].
  unfold with_stock. simpl. f_equal. f_equal. lia.
Qed.

Lemma reopened_order_restores_twice_witness :
  let db1 := (order_cancel Sample.placed_db Sample.customer 1).2 in
  let db2 := (admin_orders db1 Sample.admin 1 "placed" Sample.later).2 in
  let db3 := (order_cancel db2 Sample.customer 1).2 in
  Product.stock <$> products Sample.db !! 1 = Some 5 /\
  Product.stock <$> products Sample.placed_db !! 1 = Some 3 /\
  Product.stock <$> products db3 !! 1 = Some 7.
Proof.
  cbv zeta.
  destruct (orders Sample.placed_db !! 1) as [o |] eqn:Ho;
    [| vm_compute in Ho; discriminate].
  assert (Hu : Order.user_id o = 1 /\ Order.status o = "placed").
  { vm_compute in Ho. injection Ho as <-. split; reflexivity. }
  destruct (reopened_order_restores_twice Sample.placed_db Sample.customer Sample.admin 1 o
              Sample.later Ho (or_introl (proj1 Hu)) (or_introl (proj2 Hu)) eq_refl)
    as (_ & _ & _ & Hp).
  split; [reflexivity |]. split; [vm_compute; reflexivity |].
  rewrite Hp. vm_compute. reflexivity.
Defined.

End AdminOrders.

(** ** Shipping addresses *)

Section Addresses.

Lemma find_some_In {A} (f : A -> bool) l x :
  List.find f l = Some x -> In x l /\ f x = true.
Proof. apply List.find_some. Qed.

(** The first row that a filter keeps, and the rows before it. *)
Lemma filter_head_split {A} (P : A -> Prop) `{!forall x, Decision (P x)} (l : list A) x rest :
  filter P l = x :: rest ->
  exists pre post, l = pre ++ x :: post /\ Forall (fun y => ~ P y) pre /\ P x.
Proof.
  induction l as [| y l IH]; [discriminate |].
  rewrite filter_cons. destruct (decide (P y)) as [Hy | Hy].
  - intros [= -> _]. exists [], l. split; [reflexivity |]. split; [constructor | exact Hy].
  - intros Hl0. destruct (IH Hl0) as (pre & post & -> & Hpre & Hx).
    exists (y :: pre), post. split; [reflexivity |]. split; [| exact Hx].
    constructor; assumption.
Qed.

(** The first kept row that passes a test, and the rows before it. *)
Lemma find_filter_split {A} (P : A -> Prop) `{!forall x, Decision (P x)} (f : A -> bool)
    (l : list A) a :
  List.find f (filter P l) = Some a ->
  exists pre post, l = pre ++ a :: post /\
                   Forall (fun y => P y -> f y = false) pre /\ P a /\ f a = true.
Proof.
  induction l as [| y l IH]; [discriminate |].
  rewrite filter_cons. destruct (decide (P y)) as [Hy | Hy].
  - simpl. destruct (f y) eqn:Ef.
    + intros [= ->]. exists [], l. split; [reflexivity |]. split; [constructor | auto].
    + intros Hl0. destruct (IH Hl0) as (pre & post & -> & Hpre & Ha).
      exists (y :: pre), post. split; [reflexivity |]. split; [| exact Ha].
      constructor; auto.
  - intros Hl0. destruct (IH Hl0) as (pre & post & -> & Hpre & Ha).
    exists (y :: pre), post. split; [reflexivity |]. split; [| exact Ha].
    constructor; [tauto | exact Hpre].
Qed.

(** X10. [checkout] ships only to an address row of the logged-in user: an
    address chosen by id must exist and be the user's, else the choice is
    invalid.  With no id chosen the address used is, in the order of the
    table, the first of the user's addresses that is a default, or, when
    none of the user's addresses is a default, the first of the user's
    addresses.  The user is sent to add an address exactly when no id is
    chosen and the user has none. *)
Theorem resolve_address_owned db u address_id :
  let chosen := match address_id with Some i => 0 <? i | None => false end in
  (forall text, resolve_address db u address_id = AddressOk text ->
     exists a, In a (addresses db) /\ Address.user_id a = User.id u /\
               text = format_address a /\
               (chosen = true -> address_id = Some (Address.id a)) /\
               (chosen = false ->
                (exists b, In b (addresses db) /\ Address.user_id b = User.id u /\
                           Address.is_default b = true) ->
                Address.is_default a = true) /\
               (chosen = false ->
                exists pre post, addresses db = pre ++ a :: post /\
                  if Address.is_default a
                  then Forall (fun b => Address.user_id b = User.id u ->
                                        Address.is_default b = false) pre
                  else Forall (fun b => Address.user_id b <> User.id u) pre /\
                       forall b, In b (addresses db) ->
                                 Address.user_id b = User.id u ->
                                 Address.is_default b = false)) /\
  (resolve_address db u address_id = NoAddress <->
     chosen = false /\
     forall a, In a (addresses db) -> Address.user_id a <> User.id u) /\
  (chosen = true ->
   (forall a, In a (addresses db) -> Address.id a = default 0 address_id ->
              Address.user_id a <> User.id u) ->
   resolve_address db u address_id = InvalidAddress).
Proof.
  cbv zeta. unfold resolve_address.
  destruct (match address_id with Some i => 0 <? i | None => false end) eqn:Ec.
  - destruct address_id as [i |]; [| discriminate]. simpl default.
    destruct (List.find (fun a => Address.id a =? i) (addresses db)) as [a |] eqn:Ef.
    + apply find_some_In in Ef as [Hin Hid]. apply Z.eqb_eq in Hid.
      destruct (Address.user_id a =? User.id u) eqn:Eu.
      * apply Z.eqb_eq in Eu. split; [| split].
        -- intros text [= <-]. exists a. split; [exact Hin |]. split; [exact Eu |].
           split; [reflexivity |]. split; [intros _; congruence |].
           split; intros [=].
        -- split; [discriminate | intros [[=] _]].
        -- intros _ H. destruct (H a Hin Hid Eu).
      * split; [discriminate |]. split; [| reflexivity].
        split; [discriminate | intros [[=] _]].
    + split; [discriminate |]. split; [| reflexivity].
      split; [discriminate | intros [[=] _]].
  - set (mine := filter (fun a => Address.user_id a = User.id u) (addresses db)).
    assert (Hmine : forall a, In a mine <-> In a (addresses db) /\ Address.user_id a = User.id u).
    { intros a. unfold mine. rewrite <- !list_elem_of_In, list_elem_of_filter. tauto. }
    destruct mine as [| first rest] eqn:Em.
    + split; [discriminate |]. split; [| discriminate].
      split; [| reflexivity]. intros _. split; [reflexivity |].
      intros a Hin Hu. apply (proj2 (Hmine a)); auto.
    + split; [| split; [| discriminate]].
      * destruct (List.find Address.is_default (first :: rest)) as [a |] eqn:Ef;
          simpl default; intros text [= <-].
        -- pose proof Ef as Ef'. rewrite <- Em in Ef'. unfold mine in Ef'.
           apply find_filter_split in Ef' as (pre & post & Hl & Hpre & _ & _).
           apply find_some_In in Ef as [Hin Hd]. apply Hmine in Hin as [Hin Hu].
           exists a. split; [exact Hin |]. split; [exact Hu |]. split; [reflexivity |].
           split; [intros [=] |]. split; [intros _ _; exact Hd |].
           intros _. exists pre, post. split; [exact Hl |]. now rewrite Hd.
        -- assert (Hf : In first (first :: rest)) by now left.
           apply Hmine in Hf as [Hin Hu].
           assert (Hnone : forall b, In b (addresses db) ->
                                     Address.user_id b = User.id u ->
                                     Address.is_default b = false).
           { intros b Hb Hbu.
             assert (Hbm : In b (first :: rest)) by (apply Hmine; auto).
             exact (List.find_none _ _ Ef b Hbm). }
           exists first. split; [exact Hin |]. split; [exact Hu |]. split; [reflexivity |].
           split; [intros [=] |]. split.
           ++ intros _ (b & Hb & Hbu & Hbd). rewrite (Hnone b Hb Hbu) in Hbd. discriminate.
           ++ intros _. pose proof Em as Em'. unfold mine in Em'.
              apply filter_head_split in Em' as (pre & post & Hl & Hpre & _).
              exists pre, post. split; [exact Hl |].
              rewrite (Hnone first Hin Hu). split; [exact Hpre | exact Hnone].
      * split; [discriminate |]. intros [_ H].
        assert (Hf : In first (first :: rest)) by now left.
        apply Hmine in Hf as [Hin Hu]. destruct (H first Hin Hu).
Qed.

Lemma resolve_address_owned_witness :
  resolve_address Sample.db Sample.customer None = AddressOk (format_address Sample.home) /\
  resolve_address Sample.address_book Sample.customer None
    = AddressOk (format_address Sample.office) /\
  resolve_address Sample.db Sample.admin (Some 7) = InvalidAddress /\
  resolve_address Sample.db Sample.admin None = NoAddress.
Proof.
  split; [reflexivity |]. split; [reflexivity |]. split.
  - apply (proj2 (proj2 (resolve_address_owned Sample.db Sample.admin (Some 7)))).
    + reflexivity.
    + intros a [<- | []] _. simpl. lia.
  - apply (proj1 (proj2 (resolve_address_owned Sample.db Sample.admin None))).
    split; [reflexivity |]. intros a [<- | []]. simpl. lia.
Defined.

(** X11. [address_delete] deletes only an address of the logged-in user;
    otherwise the store is unchanged. After a deletion the other address
    rows are all still there, no other table has changed, and the deleted
    id can no longer be chosen at checkout by any user. *)
Theorem address_delete_owner_only db u address_id :
  let r := address_delete db u address_id in
  (r.1 = AddressDeleted <->
   exists a, List.find (fun a => Address.id a =? address_id) (addresses db) = Some a /\
             Address.user_id a = User.id u) /\
  (r.1 <> AddressDeleted -> r.2 = db) /\
  (r.1 = AddressDeleted ->
   (forall a, In a (addresses r.2) <-> In a (addresses db) /\ Address.id a <> address_id) /\
   (products r.2, coupons r.2, orders r.2, order_items r.2)
     = (products db, coupons db, orders db, order_items db) /\
   forall v, 0 < address_id -> resolve_address r.2 v (Some address_id) = InvalidAddress).
Proof.
  cbv zeta. unfold address_delete.
  destruct (List.find (fun a => Address.id a =? address_id) (addresses db)) as [a |] eqn:Ef.
  2: { split; [split; [discriminate | intros (a & [=] & _)] |].
       split; [reflexivity | discriminate]. }
  destruct (Address.user_id a =? User.id u) eqn:Eu; simpl negb; cbv iota.
  - apply Z.eqb_eq in Eu. split; [split; [eauto | reflexivity] |].
    split; [simpl; congruence |]. intros _. simpl.
    assert (Hin : forall b, In b (List.filter (fun a0 => negb (Address.id a0 =? address_id))
                                    (addresses db))
                            <-> In b (addresses db) /\ Address.id b <> address_id).
    { intros b. rewrite filter_In, negb_true_iff, Z.eqb_neq. reflexivity. }
    split; [exact Hin |]. split; [reflexivity |].
    intros v Hpos. unfold resolve_address. simpl.
    apply Z.ltb_lt in Hpos. rewrite Hpos.
    destruct (List.find _ (List.filter _ _)) as [b |] eqn:Ef'; [| reflexivity].
    apply find_some_In in Ef' as [Hb Hid]. apply Z.eqb_eq in Hid.
    apply Hin in Hb as [_ Hb]. contradiction.
  - apply Z.eqb_neq in Eu.
    split; [split; [discriminate | intros (a' & [= <-] & Hu); contradiction] |].
    split; [reflexivity | discriminate].
Qed.

Lemma address_delete_owner_only_witness :
  (address_delete Sample.db Sample.admin 7).2 = Sample.db /\
  addresses (address_delete Sample.db Sample.customer 7).2 = [] /\
  resolve_address (address_delete Sample.db Sample.customer 7).2 Sample.customer (Some 7)
    = InvalidAddress.
Proof.
  destruct (address_delete_owner_only Sample.db Sample.admin 7) as (_ & Hno & _).
  destruct (address_delete_owner_only Sample.db Sample.customer 7) as (_ & _ & Hyes).
  split; [apply Hno; vm_compute; congruence |]. split; [reflexivity |].
  apply (Hyes eq_refl). lia.
Defined.

End Addresses.

(** ** Orders and their lines *)

Section PlacedOrders.

Lemma cart_items_total db s now t :
  cart_items db s now = Some t ->
  t_subtotal t = Py.sum (map item_subtotal (t_items t)) /\
  t_grand_total t = (t_subtotal t + t_tax t + t_shipping t - t_discount t)%Q.
Proof.
  unfold cart_items. destruct (cart_lines _ _); simpl; [| discriminate].
  intros [= <-]. split; reflexivity.
Qed.

(** What a placed order leaves in the store. *)
Lemma checkout_placed_store db s u form e oid db' s' :
  checkout db s u form e = (OrderPlaced oid, db', s') ->
  exists t addr new,
    cart_items db s (utcnow e) = Some t /\ t_items t <> [] /\
    oid = next_order_id (orders db) /\
    s' = empty_cart_session /\
    orders db' = <[oid := new_order s u form e t addr]> (orders db) /\
    order_items db' = order_items db ++ new /\
    Forall2 (fun item oi => exists p, products db !! item_product item = Some p /\
                                      oi = snapshot oid p item) (t_items t) new /\
    (forall k, products db' !! k =
       (fun p => with_stock p (drain (Product.stock p) (quantities_for k (t_items t)))
                   (Product.sold_count p + total_of (quantities_for k (t_items t))))
       <$> products db !! k) /\
    coupons db' = count_coupon_use s (coupons db) /\
    addresses db' = addresses db.
Proof.
  intros Hc.
  destruct (checkout_placed _ _ _ _ _ _ _ _ Hc) as (t & addr & Ht & Hne & Hv & Ha & Hu).
  rewrite (checkout_places _ _ _ _ _ _ _ Ht Hne Hv Ha Hu) in Hc.
  injection Hc as <- <- <-.
  destruct (place_items_lines (next_order_id (orders db)) (t_items t)
              (products db) (order_items db)) as (new & Hnew & Hsnap).
  { eapply Forall_impl; [apply (cart_items_products _ _ _ _ Ht) |].
    intros item (p & Hp & _). eauto. }
  exists t, addr, new. simpl.
  repeat (split; [first [assumption | reflexivity] |]).
  split; [intros k; apply place_items_products | split; reflexivity].
Qed.

Lemma filter_lines_old oid (ois : list OrderItem.t) :
  Forall (fun oi => OrderItem.order_id oi <> oid) ois ->
  filter (fun it => OrderItem.order_id it = oid) ois = [].
Proof.
  induction 1 as [| oi ois H _ IH]; [reflexivity |].
  rewrite filter_cons. destruct (decide (OrderItem.order_id oi = oid)); [contradiction | exact IH].
Qed.

Lemma filter_lines_new oid (ois : list OrderItem.t) :
  Forall (fun oi => OrderItem.order_id oi = oid) ois ->
  filter (fun it => OrderItem.order_id it = oid) ois = ois.
Proof.
  induction 1 as [| oi ois H _ IH]; [reflexivity |].
  rewrite filter_cons. destruct (decide (OrderItem.order_id oi = oid)); [| contradiction].
  now rewrite IH.
Qed.

(** With the foreign key in place, the lines of a freshly placed order are
    exactly the ones checkout appended. *)
Lemma new_order_lines db oid (new : list OrderItem.t) :
  lines_reference_orders db ->
  orders db !! oid = None ->
  Forall (fun oi => OrderItem.order_id oi = oid) new ->
  filter (fun it => OrderItem.order_id it = oid) (order_items db ++ new) = new.
Proof.
  intros Hfk Hfresh Hnew. rewrite filter_app, (filter_lines_new _ new Hnew).
  rewrite filter_lines_old; [reflexivity |].
  eapply Forall_impl; [exact Hfk |]. intros oi [o Ho] E. simpl in E.
  rewrite E in Ho. congruence.
Qed.

Lemma snapshots_order_id oid (ps : gmap Z Product.t) items new :
  Forall2 (fun item oi => exists p : Product.t, ps !! item_product item = Some p /\
                                   oi = snapshot oid p item) items new ->
  Forall (fun oi => OrderItem.order_id oi = oid) new.
Proof.
  induction 1 as [| item oi items new (p & _ & ->) _ IH]; constructor; auto.
Qed.

Lemma snapshots_quantities oid (ps : gmap Z Product.t) items new k :
  Forall2 (fun item oi => exists p : Product.t, ps !! item_product item = Some p /\
                                   oi = snapshot oid p item) items new ->
  ordered_for k new = quantities_for k items.
Proof.
  unfold ordered_for, quantities_for.
  induction 1 as [| item oi items new (p & _ & ->) _ IH]; [reflexivity |].
  rewrite !filter_cons. simpl.
  destruct (decide (item_product item = k)); simpl; now rewrite IH.
Qed.

Lemma snapshots_amounts oid (ps : gmap Z Product.t) cart_ items new :
  cart_lines ps cart_ = Some items ->
  Forall2 (fun item oi => exists p : Product.t, ps !! item_product item = Some p /\
                                   oi = snapshot oid p item) items new ->
  map (fun it => inject_Z (OrderItem.quantity it) * OrderItem.unit_price it)%Q new
    = map item_subtotal items.
Proof.
  intros Hl H.
  assert (Hsound : forall item, In item items ->
            exists p, ps !! item_product item = Some p /\
                      item_subtotal item = (inject_Z (item_quantity item) * Product.price p)%Q).
  { intros item Hin.
    destruct (cart_lines_sound _ _ _ Hl item Hin) as (_ & qty & p & _ & _ & Hp & _ & Heq).
    exists p. split; [exact Hp |]. rewrite Heq at 1 2. reflexivity. }
  clear Hl. induction H as [| item oi items new (p & Hp & ->) _ IH]; [reflexivity |].
  simpl. f_equal.
  - destruct (Hsound item (or_introl eq_refl)) as (p' & Hp' & ->).
    rewrite Hp in Hp'. now injection Hp' as <-.
  - apply IH. intros it Hit. apply Hsound. now right.
Qed.

(** X12. The amounts of a freshly placed order agree with its lines: under
    the foreign key from order lines to orders, the order has at least one
    line, its stored subtotal is the sum of quantity * unit price over its
    lines, and [Order.recalc_total] leaves it exactly as checkout stored
    it. *)
Theorem recalc_total_fixes_placed_order db s u form e oid db' s' :
  lines_reference_orders db ->
  checkout db s u form e = (OrderPlaced oid, db', s') ->
  exists o,
    orders db' !! oid = Some o /\
    order_items_of db' oid <> [] /\
    Order.subtotal o =
      Py.sum (map (fun it => inject_Z (OrderItem.quantity it) * OrderItem.unit_price it)%Q
                  (order_items_of db' oid)) /\
    recalc_total (order_items_of db' oid) o = o.
Proof.
  intros Hfk Hc.
  destruct (checkout_placed_store _ _ _ _ _ _ _ _ Hc)
    as (t & addr & new & Ht & Hne & -> & _ & Ho & Hi & Hsnap & _).
  assert (Hlines : order_items_of db' (next_order_id (orders db)) = new).
  { unfold order_items_of. rewrite Hi. apply new_order_lines; auto.
    - apply next_order_id_fresh.
    - eapply snapshots_order_id, Hsnap. }
  destruct (cart_items_total _ _ _ _ Ht) as [Hsub Htot].
  pose proof (snapshots_amounts _ _ _ _ _ (cart_items_lines _ _ _ _ Ht) Hsnap) as Hamt.
  exists (new_order s u form e t addr). rewrite Hlines, Ho.
  split; [apply lookup_insert_eq |]. split.
  { intros ->. inversion Hsnap; subst. congruence. }
  split; [simpl; now rewrite Hamt |].
  unfold recalc_total. rewrite Hamt, <- Hsub. unfold new_order. simpl.
  now rewrite <- Htot.
Qed.

Lemma recalc_total_fixes_placed_order_witness :
  exists o, orders Sample.placed_db !! 1 = Some o /\
            recalc_total (order_items_of Sample.placed_db 1) o = o.
Proof.
  destruct (recalc_total_fixes_placed_order Sample.db Sample.basket Sample.customer
              Sample.form Sample.env 1 Sample.placed_db empty_cart_session)
    as (o & Ho & _ & _ & Hr).
  - constructor.
  - vm_compute. reflexivity.
  - exists o. split; assumption.
Defined.

Lemma quantities_for_absent k items :
  ~ In k (map item_product items) -> quantities_for k items = [].
Proof.
  unfold quantities_for. induction items as [| item items IH]; [reflexivity |].
  simpl. intros H. rewrite filter_cons.
  destruct (decide (item_product item = k)) as [E | E]; [destruct H; now left |].
  apply IH. intros Hin. apply H. now right.
Qed.

Lemma quantities_for_cons k item items :
  quantities_for k (item :: items) =
    if decide (item_product item = k)
    then item_quantity item :: quantities_for k items
    else quantities_for k items.
Proof.
  unfold quantities_for. rewrite filter_cons.
  now destruct (decide (item_product item = k)).
Qed.

(** One decrement and the matching restore cancel out when each product has
    at most one line, of at most its stock. *)
Lemma drain_then_restore k stock items :
  List.NoDup (map item_product items) ->
  (forall item, In item items -> item_product item = k -> item_quantity item <= stock) ->
  drain stock (quantities_for k items) + total_of (quantities_for k items) = stock.
Proof.
  induction items as [| item items IH]; intros Hnd Hq.
  - simpl. lia.
  - inversion Hnd as [| ? ? Hnot Hnd']; subst.
    rewrite quantities_for_cons.
    destruct (decide (item_product item = k)) as [E | E].
    + rewrite quantities_for_absent by (rewrite <- E; exact Hnot).
      simpl. specialize (Hq item (or_introl eq_refl) E). lia.
    + apply IH; [exact Hnd' |]. intros it Hit. apply Hq. now right.
Qed.

(** X13. Placing an order and cancelling it gives the stock back: when the
    priced lines refer to distinct products (and order lines refer to
    stored orders), the cancel by the customer who placed the order
    succeeds and every product has the stock it had before the checkout.
    The sold count is not taken back: it stays raised by the ordered
    quantity. *)
Theorem checkout_then_cancel_restores_stock db s u form e t oid db' s' :
  lines_reference_orders db ->
  cart_items db s (utcnow e) = Some t ->
  List.NoDup (map item_product (t_items t)) ->
  checkout db s u form e = (OrderPlaced oid, db', s') ->
  (order_cancel db' u oid).1 = OrderCancelled /\
  forall k,
    products (order_cancel db' u oid).2 !! k =
      (fun p => with_stock p (Product.stock p)
                  (Product.sold_count p + total_of (quantities_for k (t_items t))))
      <$> products db !! k.
Proof.
  intros Hfk Ht Hnd Hc.
  destruct (checkout_placed_store _ _ _ _ _ _ _ _ Hc)
    as (t' & addr & new & Ht' & Hne & -> & _ & Ho & Hi & Hsnap & Hp & _).
  rewrite Ht in Ht'. injection Ht' as <-.
  assert (Hlines : order_items_of db' (next_order_id (orders db)) = new).
  { unfold order_items_of. rewrite Hi. apply new_order_lines; auto.
    - apply next_order_id_fresh.
    - eapply snapshots_order_id, Hsnap. }
  assert (Ho' : orders db' !! next_order_id (orders db) = Some (new_order s u form e t addr))
    by (rewrite Ho; apply lookup_insert_eq).
  rewrite (order_cancel_allowed _ _ _ _ Ho' (or_introl eq_refl)). simpl.
  split; [reflexivity |]. intros k.
  rewrite restore_items_products, Hlines, Hp,
    (snapshots_quantities _ _ _ _ k Hsnap).
  destruct (products db !! k) as [p |] eqn:Hk; simpl; [| reflexivity].
  unfold with_stock. simpl. f_equal. f_equal.
  apply drain_then_restore; [exact Hnd |].
  intros item Hin E.
  destruct (cart_lines_sound _ _ _ (cart_items_lines _ _ _ _ Ht) item Hin)
    as (_ & qty & p' & _ & _ & Hp' & _ & Heq).
  rewrite E, Hk in Hp'. injection Hp' as <-. rewrite Heq. simpl. lia.
Qed.

Lemma checkout_then_cancel_restores_stock_witness :
  Product.stock <$> products Sample.db !! 2 = Some 3 /\
  Product.stock <$> products Sample.placed_db !! 2 = Some 2 /\
  (Product.stock <$> products (order_cancel Sample.placed_db Sample.customer 1).2 !! 2,
   Product.sold_count <$> products (order_cancel Sample.placed_db Sample.customer 1).2 !! 2)
    = (Some 3, Some 1).
Proof.
  split; [reflexivity |]. split; [vm_compute; reflexivity |].
  destruct (cart_items Sample.db Sample.basket (utcnow Sample.env)) as [t |] eqn:Ht;
    [| vm_compute in Ht; discriminate].
  destruct (checkout_then_cancel_restores_stock Sample.db Sample.basket Sample.customer
              Sample.form Sample.env t 1 Sample.placed_db empty_cart_session) as [_ Hp].
  - constructor.
  - exact Ht.
  - vm_compute in Ht. injection Ht as <-. simpl.
    repeat constructor; simpl; intuition discriminate.
  - vm_compute. reflexivity.
  - rewrite Hp. vm_compute in Ht. injection Ht as <-. vm_compute. reflexivity.
Defined.

(** X14. A checkout is all or nothing for the session and the store: unless
    it answers that the order is placed, neither changes. When it does,
    the cart is emptied and the coupon code dropped, the new order takes a
    key that was free, every earlier order and order line is still there
    unchanged, the new lines all belong to the new order, and the addresses
    are untouched. *)
Theorem checkout_all_or_nothing db s u form e :
  let r := checkout db s u form e in
  ((forall oid, r.1.1 <> OrderPlaced oid) -> r.1.2 = db /\ r.2 = s) /\
  (forall oid, r.1.1 = OrderPlaced oid ->
     r.2 = empty_cart_session /\
     orders db !! oid = None /\
     is_Some (orders r.1.2 !! oid) /\
     (forall j o, orders db !! j = Some o -> orders r.1.2 !! j = Some o) /\
     (exists new, order_items r.1.2 = order_items db ++ new /\ new <> [] /\
                  Forall (fun oi => OrderItem.order_id oi = oid) new) /\
     addresses r.1.2 = addresses db).
Proof.
  cbv zeta. destruct (checkout db s u form e) as [[r db'] s'] eqn:Hc. simpl. split.
  - intros H. eapply checkout_not_placed; eauto.
  - intros oid ->.
    destruct (checkout_placed_store _ _ _ _ _ _ _ _ Hc)
      as (t & addr & new & Ht & Hne & -> & -> & Ho & Hi & Hsnap & _ & _ & Ha).
    split; [reflexivity |]. split; [apply next_order_id_fresh |].
    rewrite Ho. split; [rewrite lookup_insert_eq; eauto |]. split.
    + intros j o Hj. rewrite lookup_insert_ne; [exact Hj |].
      intros <-. rewrite next_order_id_fresh in Hj. discriminate.
    + split; [| exact Ha]. exists new. split; [exact Hi |]. split.
      * intros ->. inversion Hsnap; subst. congruence.
      * eapply snapshots_order_id, Hsnap.
Qed.

Lemma checkout_all_or_nothing_witness :
  checkout Sample.db (mkSession [("4", 2); ("3", 1)] (Some "FLAT")) Sample.customer
    Sample.form Sample.env
  = (EmptyCart, Sample.db, mkSession [("4", 2); ("3", 1)] (Some "FLAT")) /\
  (checkout Sample.db Sample.basket Sample.admin Sample.form Sample.env).1.2 = Sample.db.
Proof.
  split; [reflexivity |].
  apply (proj1 (checkout_all_or_nothing Sample.db Sample.basket Sample.admin
                  Sample.form Sample.env)).
  intros oid. vm_compute. discriminate.
Defined.

(** X15. Two cart keys that read as the same product are priced as two
    lines, each clamped to the stock on its own: when both ask for at least
    the stock, twice the stock is priced, and a placed order leaves the
    stock at zero and raises the sold count by twice the stock. *)
Theorem aliased_lines_oversell db s u form e a b qa qb k p :
  cart s = [(a, qa); (b, qb)] ->
  Py.int a = Some k -> Py.int b = Some k ->
  products db !! k = Some p -> available p ->
  Product.stock p <= qa -> Product.stock p <= qb ->
  (exists t, cart_items db s (utcnow e) = Some t /\
             map item_product (t_items t) = [k; k] /\
             map item_quantity (t_items t) = [Product.stock p; Product.stock p]) /\
  (forall oid db' s',
      checkout db s u form e = (OrderPlaced oid, db', s') ->
      products db' !! k =
        Some (with_stock p 0 (Product.sold_count p + 2 * Product.stock p)) /\
      map OrderItem.quantity (order_items db')
        = map OrderItem.quantity (order_items db) ++ [Product.stock p; Product.stock p]).
Proof.
  intros Hcart Ha Hb Hp Hav Hqa Hqb.
  assert (Hl : cart_lines (products db) (cart s)
               = Some [line_of k qa p; line_of k qb p]).
  { rewrite Hcart, !cart_lines_cons, Ha, Hb. simpl cart_lines. rewrite Hp.
    apply available_test in Hav. now rewrite Hav. }
  assert (Ht : exists t, cart_items db s (utcnow e) = Some t /\
                         t_items t = [line_of k qa p; line_of k qb p]).
  { unfold cart_items. rewrite Hl. simpl. eexists. split; reflexivity. }
  destruct Ht as (t & Ht & Hitems). split.
  - exists t. split; [exact Ht |]. rewrite Hitems. simpl.
    rewrite !Z.min_r by lia. split; reflexivity.
  - intros oid db' s' Hc.
    destruct (checkout_placed_store _ _ _ _ _ _ _ _ Hc)
      as (t' & addr & new & Ht' & _ & _ & _ & _ & Hi & Hsnap & Hprod & _).
    rewrite Ht in Ht'. injection Ht' as <-. rewrite Hitems in *. split.
    + rewrite Hprod, Hp, !quantities_for_cons. simpl item_product.
      destruct (decide (k = k)); [| contradiction]. simpl.
      destruct Hav as [_ Hpos]. unfold with_stock. rewrite !Z.min_r by lia.
      f_equal. f_equal; lia.
    + rewrite Hi, map_app. f_equal.
      inversion Hsnap as [| ? oi1 ? new1 (p1 & _ & ->) Hsnap1]; subst.
      inversion Hsnap1 as [| ? oi2 ? new2 (p2 & _ & ->) Hsnap2]; subst.
      inversion Hsnap2; subst. simpl. rewrite !Z.min_r by lia. reflexivity.
Qed.

Lemma aliased_lines_oversell_witness :
  let s := (cart_update Sample.db empty_cart_session [("qty_2", "3"); ("qty_02", "3")]).2 in
  cart s = [("2", 3); ("02", 3)] /\
  exists t, cart_items Sample.db s 500 = Some t /\ map item_quantity (t_items t) = [3; 3].
Proof.
  cbv zeta. split; [reflexivity |].
  destruct (aliased_lines_oversell Sample.db
              (cart_update Sample.db empty_cart_session [("qty_2", "3"); ("qty_02", "3")]).2
              Sample.customer Sample.form Sample.env "2" "02" 3 3 2 Sample.truck)
    as [(t & Ht & _ & Hq) _].
  - reflexivity.
  - reflexivity.
  - reflexivity.
  - reflexivity.
  - split; reflexivity.
  - vm_compute. discriminate.
  - vm_compute. discriminate.
  - exists t. split; [exact Ht | exact Hq].
Defined.

End PlacedOrders.

(** ** Identifiers *)

Section Identifiers.

Lemma tracking_alphabet_nth i : In (nth (i mod 36)%nat tracking_alphabet "A"%char) tracking_alphabet.
Proof.
  apply nth_In. change (length tracking_alphabet) with 36%nat.
  apply Nat.mod_upper_bound. discriminate.
Qed.

(** X16. A generated tracking code is [MZ-] followed by exactly 12
    characters, each an upper-case letter or a digit; it is 15 characters
    long and never empty. *)
Theorem tracking_code_format e :
  exists body,
    generate_tracking_code e = "MZ-" +:+ string_of_list_ascii body /\
    length body = 12%nat /\
    Forall (fun c => In c tracking_alphabet) body /\
    String.length (generate_tracking_code e) = 15%nat /\
    Py.truthy (Some (generate_tracking_code e)) = true.
Proof.
  exists (random_choices e 12). split; [reflexivity |].
  split; [reflexivity |]. split; [| split; reflexivity].
  unfold random_choices. apply Forall_forall. intros c Hc.
  apply list_elem_of_In, in_map_iff in Hc as (i & <- & _).
  apply tracking_alphabet_nth.
Qed.

Lemma existsb_false_forall {A} (f : A -> bool) l :
  existsb f l = false -> forall x, In x l -> f x = false.
Proof.
  intros H x Hin. destruct (f x) eqn:E; [| reflexivity].
  assert (existsb f l = true) by (apply existsb_exists; eauto). congruence.
Qed.

(** X17. Checkout keeps order numbers and tracking codes unique: if no two
    stored orders share an order number or a tracking code, the same holds
    after any checkout. When the generated order number or tracking code is
    already taken the checkout raises and stores nothing. *)
Theorem checkout_keeps_identifiers_unique db s u form e :
  unique_identifiers db ->
  unique_identifiers (checkout db s u form e).1.2 /\
  ((exists j o, orders db !! j = Some o /\
                (Order.order_number o = generate_order_number e \/
                 Order.tracking_code o = Some (generate_tracking_code e))) ->
   forall oid, (checkout db s u form e).1.1 <> OrderPlaced oid).
Proof.
  intros Huniq. destruct (checkout db s u form e) as [[r db'] s'] eqn:Hc. simpl.
  assert (Hplaced : forall oid, r = OrderPlaced oid ->
            exists t addr,
              orders db' = <[oid := new_order s u form e t addr]> (orders db) /\
              orders db !! oid = None /\
              forall j o, orders db !! j = Some o ->
                Order.order_number o <> generate_order_number e /\
                Order.tracking_code o <> Some (generate_tracking_code e)).
  { intros oid ->.
    destruct (checkout_placed _ _ _ _ _ _ _ _ Hc) as (t & addr & _ & _ & _ & _ & Hu).
    destruct (checkout_placed_store _ _ _ _ _ _ _ _ Hc)
      as (t' & addr' & _ & _ & _ & -> & _ & Ho & _).
    exists t', addr'. split; [exact Ho |]. split; [apply next_order_id_fresh |].
    intros j o Hj. apply elem_of_map_to_list, list_elem_of_In in Hj.
    unfold violates_unique in Hu. apply orb_false_iff in Hu as [Hn Ht].
    simpl in Hn, Ht.
    pose proof (existsb_false_forall _ _ Hn _ Hj) as Hn'.
    pose proof (existsb_false_forall _ _ Ht _ Hj) as Ht'.
    simpl in Hn', Ht'. apply String.eqb_neq in Hn'. split; [exact Hn' |].
    intros E. rewrite E, String.eqb_refl in Ht'. discriminate. }
  split.
  - destruct r as [| | | | | oid];
      try (destruct (checkout_not_placed _ _ _ _ _ _ _ _ Hc) as [-> _];
           [discriminate | exact Huniq]).
    destruct (Hplaced oid eq_refl) as (t & addr & Ho & Hfresh & Hnew).
    intros i j oi oj. rewrite Ho.
    destruct (decide (oid = i)) as [<- | Hi]; destruct (decide (oid = j)) as [<- | Hj].
    + congruence.
    + rewrite lookup_insert_eq, lookup_insert_ne by exact Hj.
      intros [= <-] Hoj _. destruct (Hnew _ _ Hoj) as [H1 H2]. split.
      * simpl. congruence.
      * simpl. intros c [= <-]. exact H2.
    + rewrite lookup_insert_eq, lookup_insert_ne by exact Hi.
      intros Hoi [= <-] _. destruct (Hnew _ _ Hoi) as [H1 H2]. split.
      * simpl. exact H1.
      * simpl. intros c Hc' [= <-]. congruence.
    + rewrite !lookup_insert_ne by assumption. apply Huniq.
  - intros (j & o & Hj & Hclash) oid ->.
    destruct (Hplaced oid eq_refl) as (_ & _ & _ & _ & Hnew).
    destruct (Hnew _ _ Hj) as [H1 H2]. destruct Hclash; contradiction.
Qed.

Lemma checkout_keeps_identifiers_unique_witness :
  unique_identifiers Sample.placed_db /\
  checkout Sample.placed_db Sample.basket Sample.customer Sample.form Sample.env
    = (CheckoutRaised, Sample.placed_db, Sample.basket) /\
  (checkout Sample.placed_db Sample.basket Sample.customer Sample.form Sample.later).1.1
    = OrderPlaced 2 /\
  unique_identifiers
    (checkout Sample.placed_db Sample.basket Sample.customer Sample.form Sample.later).1.2.
Proof.
  assert (H0 : unique_identifiers Sample.db).
  { intros i j oi oj Hi. simpl in Hi. rewrite lookup_empty in Hi. discriminate. }
  assert (H1 : unique_identifiers Sample.placed_db).
  { apply (proj1 (checkout_keeps_identifiers_unique Sample.db Sample.basket Sample.customer
                    Sample.form Sample.env H0)). }
  split; [exact H1 |]. split; [vm_compute; reflexivity |].
  split; [vm_compute; reflexivity |].
  apply (proj1 (checkout_keeps_identifiers_unique Sample.placed_db Sample.basket
                  Sample.customer Sample.form Sample.later H1)).
Defined.

End Identifiers.

(** ** An empty cart *)

Section EmptyCart.

Local Open Scope Q_scope.

(** X18. When nothing in the cart can be priced (the cart is empty, or all
    its lines are over missing, inactive or out-of-stock products), the
    subtotal and the tax are 0 but the flat shipping fee of 50 is still
    charged, so the cart shows a total of 50 without a coupon; and checkout
    answers that the cart is empty and changes nothing. *)
Theorem nothing_priced_totals db s u form e t :
  cart_items db s (utcnow e) = Some t ->
  t_items t = [] ->
  t_subtotal t == 0 /\ t_tax t == 0 /\ t_shipping t = 50 /\
  (~ Py.truthy (session_coupon_code s) = true -> t_discount t = 0 /\ t_grand_total t == 50) /\
  checkout db s u form e = (EmptyCart, db, s).
Proof.
  intros Ht Hi. pose proof (cart_items_lines _ _ _ _ Ht) as Hl.
  unfold checkout. rewrite Ht, Hi.
  revert Ht. unfold cart_items. rewrite Hl, Hi. simpl. intros [= <-]. simpl.
  split; [reflexivity |]. split; [reflexivity |]. split; [reflexivity |].
  split; [| reflexivity]. intros Hc.
  assert (Hd : cart_discount (coupons db) (session_coupon_code s) (utcnow e) (Py.sum []) = 0).
  { unfold cart_discount. destruct (session_coupon_code s) as [[| a c] |]; try reflexivity.
    destruct Hc. reflexivity. }
  rewrite Hd. split; reflexivity.
Qed.

Lemma nothing_priced_totals_witness :
  exists t, cart_items Sample.db (mkSession [("4", 2%Z); ("3", 1%Z); ("8", 1%Z)] None) 500%Z = Some t /\
            t_grand_total t == 50.
Proof.
  destruct (cart_items Sample.db (mkSession [("4", 2%Z); ("3", 1%Z); ("8", 1%Z)] None) 500%Z)
    as [t |] eqn:Ht; [| vm_compute in Ht; discriminate].
  exists t. split; [reflexivity |].
  apply (nothing_priced_totals Sample.db _ Sample.customer Sample.form Sample.env t Ht).
  - vm_compute in Ht. injection Ht as <-. reflexivity.
  - simpl. discriminate.
Defined.

End EmptyCart.

(** ** Uploaded file names *)

Section Uploads.

Lemma after_last_dot_none s : after_last_dot s = None <-> has_dot s = false.
Proof.
  induction s as [| c s IH]; simpl; [tauto |].
  destruct (after_last_dot s) as [ext |].
  - split; [discriminate |]. intros H. apply orb_false_iff in H as [_ H].
    apply IH in H. discriminate.
  - destruct (Ascii.eqb c "."); simpl; [split; discriminate |].
    split; intros _; [now apply IH | reflexivity].
Qed.

Lemma after_last_dot_app name ext :
  has_dot ext = false -> after_last_dot (name +:+ String "." ext) = Some ext.
Proof.
  intros H. apply after_last_dot_none in H.
  induction name as [| c name IH].
  - change (after_last_dot (String "." ext) = Some ext). simpl. now rewrite H.
  - change (after_last_dot (String c (name +:+ String "." ext)) = Some ext).
    simpl. now rewrite IH.
Qed.

(** X19. [allowed_file] looks only at the text after the last dot, without
    regard to upper or lower case: a name ending in [.ext], where [ext]
    has no dot, is allowed exactly when [ext] in lower case is one of png,
    jpg, jpeg, webp, gif; a name without a dot is never allowed. *)
Theorem allowed_file_extension name ext :
  has_dot ext = false ->
  (allowed_file (name +:+ String "." ext) = true <-> In (lower ext) ALLOWED_EXTENSIONS) /\
  (allowed_file ext = false).
Proof.
  intros H. unfold allowed_file. rewrite (after_last_dot_app name ext H).
  split.
  - rewrite existsb_exists. split.
    + intros (x & Hx & E). apply String.eqb_eq in E. now subst.
    + intros Hin. exists (lower ext). split; [exact Hin | apply String.eqb_refl].
  - apply after_last_dot_none in H. now rewrite H.
Qed.

Lemma allowed_file_extension_witness :
  allowed_file "car.photo.JPeG" = true /\ allowed_file "car.png.exe" = false /\
  allowed_file "png" = false /\ allowed_file "car." = false.
Proof.
  split.
  - apply (proj1 (allowed_file_extension "car.photo" "JPeG" eq_refl)).
    vm_compute. tauto.
  - repeat split.
Defined.

End Uploads.

(** ** Ratings and reviews *)

Section Reviews.

Lemma fold_add_bounds lo hi (l : list Z) : forall a,
  Forall (fun x => lo <= x <= hi) l ->
  a + lo * Z.of_nat (length l) <= fold_left Z.add l a <= a + hi * Z.of_nat (length l).
Proof.
  induction l as [| x l IH]; intros a H.
  - simpl. lia.
  - inversion H as [| ? ? Hx Hl]; subst. cbn [fold_left length].
    specialize (IH (a + x) Hl). lia.
Qed.

Lemma update_rating_eq reviews product_id :
  update_rating reviews product_id =
    match approved_for product_id reviews with
    | [] => (0%Q, 0)
    | _ :: _ =>
        ((inject_Z (fold_left Z.add (map Review.rating (approved_for product_id reviews)) 0%Z)
          / inject_Z (Z.of_nat (length (approved_for product_id reviews))))%Q,
         Z.of_nat (length (approved_for product_id reviews)))
    end.
Proof. reflexivity. Qed.

(** X20. [update_rating] counts the approved reviews of the product: with
    none, rating and count are 0; otherwise the count is their number and
    the rating, the sum of their ratings divided by the count, lies between
    1 and 5 when every approved rating does. *)
Theorem update_rating_bounds reviews product_id :
  (forall r, In r (approved_for product_id reviews) -> 1 <= Review.rating r <= 5) ->
  let rc := update_rating reviews product_id in
  rc.2 = Z.of_nat (length (approved_for product_id reviews)) /\
  (approved_for product_id reviews = [] -> rc.1 = 0%Q) /\
  (approved_for product_id reviews <> [] -> 0 < rc.2 /\ (1 <= rc.1 <= 5)%Q).
Proof.
  intros Hr. cbv zeta. rewrite update_rating_eq.
  set (rs := approved_for product_id reviews) in *.
  destruct rs as [| r0 rs'] eqn:E.
  - simpl. split; [reflexivity |]. split; [reflexivity | congruence].
  - rewrite <- E in *. cbn [fst snd].
    split; [reflexivity |]. split; [rewrite E; discriminate |]. intros _.
    set (n := Z.of_nat (length rs)).
    set (total := fold_left Z.add (map Review.rating rs) 0).
    assert (Hn : 0 < n) by (unfold n; rewrite E; simpl; lia).
    assert (Hb : 1 * n <= total <= 5 * n).
    { pose proof (fold_add_bounds 1 5 (map Review.rating rs) 0) as H.
      rewrite length_map in H. unfold total, n.
      assert (HF : Forall (fun x => 1 <= x <= 5) (map Review.rating rs)).
      { apply Forall_forall. intros x Hx.
        apply list_elem_of_In, in_map_iff in Hx as (r & <- & Hin). now apply Hr. }
      specialize (H HF). lia. }
    assert (HnQ : (0 < inject_Z n)%Q).
    { change (inject_Z 0 < inject_Z n)%Q. rewrite <- Zlt_Qlt. exact Hn. }
    split; [exact Hn |]. split.
    + apply Qle_shift_div_l; [exact HnQ |].
      change (inject_Z 1 * inject_Z n <= inject_Z total)%Q.
      rewrite <- inject_Z_mult, <- Zle_Qle. lia.
    + apply Qle_shift_div_r; [exact HnQ |].
      change (inject_Z total <= inject_Z 5 * inject_Z n)%Q.
      rewrite <- inject_Z_mult, <- Zle_Qle. lia.
Qed.

Lemma update_rating_bounds_witness :
  let reviews := [Review.mk 1 1 5 true; Review.mk 2 1 4 true; Review.mk 3 1 1 false;
                  Review.mk 1 2 2 true] in
  (update_rating reviews 1).2 = 2 /\ ((update_rating reviews 1).1 == 9 # 2)%Q /\
  (1 <= (update_rating reviews 1).1 <= 5)%Q.
Proof.
  cbv zeta. split; [reflexivity |]. split; [reflexivity |].
  refine (proj2 (proj2 (proj2 (update_rating_bounds
            [Review.mk 1 1 5 true; Review.mk 2 1 4 true; Review.mk 3 1 1 false;
             Review.mk 1 2 2 true] 1 _)) _)).
  - intros r [<- | [<- | []]]; simpl; lia.
  - discriminate.
Defined.

Lemma approved_for_app product_id l1 l2 :
  approved_for product_id (l1 ++ l2) = approved_for product_id l1 ++ approved_for product_id l2.
Proof. unfold approved_for. apply List.filter_app. Qed.

(** X21. A submitted review waits for approval: [add_review] appends it
    unapproved, so the rating and review count that [update_rating] gives
    any product are what they were before, and these are the values it
    reports. It stores at most one review per user and product: when the
    user has already reviewed the product nothing is stored. *)
Theorem add_review_waits_for_approval db reviews u product_id valid rating :
  let r := add_review db reviews u product_id valid rating in
  (forall p, update_rating r.2 p = update_rating reviews p) /\
  (forall q c, r.1 = ReviewSubmitted q c ->
     (q, c) = update_rating reviews product_id /\
     r.2 = reviews ++ [Review.mk (User.id u) product_id rating false] /\
     reviews_by (User.id u) product_id reviews = []) /\
  (reviews_by (User.id u) product_id reviews <> [] -> r.2 = reviews) /\
  ((length (reviews_by (User.id u) product_id reviews) <= 1)%nat ->
   (length (reviews_by (User.id u) product_id r.2) <= 1)%nat).
Proof.
  cbv zeta.
  assert (Hsame : forall p,
            update_rating (reviews ++ [Review.mk (User.id u) product_id rating false]) p
            = update_rating reviews p).
  { intros p. rewrite !update_rating_eq, approved_for_app.
    unfold approved_for at 2 4 6. simpl. rewrite andb_false_r.
    now rewrite app_nil_r. }
  assert (Hex : existsb (fun r => (Review.user_id r =? User.id u)
                                  && (Review.product_id r =? product_id)) reviews = false
                <-> reviews_by (User.id u) product_id reviews = []).
  { clear Hsame. unfold reviews_by. induction reviews as [| r l IH]; simpl; [tauto |].
    destruct ((Review.user_id r =? User.id u) && (Review.product_id r =? product_id));
      simpl; [split; discriminate | exact IH]. }
  unfold add_review.
  destruct (products db !! product_id) as [p0 |];
    [| repeat split; auto; discriminate].
  destruct valid; simpl negb; cbv iota; [| repeat split; auto; discriminate].
  destruct (existsb _ reviews) eqn:E.
  - repeat split; auto; discriminate.
  - simpl. clear E. pose proof (proj1 Hex eq_refl) as E.
    split; [exact Hsame |]. split; [| split].
    + intros q c [= <- <-]. rewrite Hsame.
      split; [now destruct (update_rating reviews product_id) |]. now split.
    + congruence.
    + intros _. unfold reviews_by in *. rewrite List.filter_app, E. simpl.
      rewrite !Z.eqb_refl. simpl. lia.
Qed.

Lemma add_review_waits_for_approval_witness :
  let reviews := [Review.mk 2 1 4 true] in
  (add_review Sample.db reviews Sample.customer 1 true 1).1 = ReviewSubmitted 4 1 /\
  (add_review Sample.db (add_review Sample.db reviews Sample.customer 1 true 1).2
     Sample.customer 1 true 5).1 = AlreadyReviewed.
Proof.
  cbv zeta. split; [| reflexivity].
  destruct (add_review Sample.db [Review.mk 2 1 4 true] Sample.customer 1 true 1) as [r rs] eqn:E.
  destruct (add_review_waits_for_approval Sample.db [Review.mk 2 1 4 true] Sample.customer
              1 true 1) as (_ & H & _).
  rewrite E in H. simpl in *.
  vm_compute in E. injection E as <- _. reflexivity.
Defined.

End Reviews.

(** ** Image paths *)

Section ImagePaths.

Lemma first_ok_lstrip s : first_ok (Py.lstrip s) = true.
Proof.
  induction s as [| c s IH]; simpl; [reflexivity |].
  destruct (Py.isspace c) eqn:E; [exact IH |]. simpl. now rewrite E.
Qed.

Lemma lstrip_first_ok s : first_ok s = true -> Py.lstrip s = s.
Proof.
  destruct s as [| c s]; simpl; [reflexivity |].
  intros H. apply negb_true_iff in H. now rewrite H.
Qed.

Lemma string_app_assoc (a b c : string) : (a +:+ b) +:+ c = a +:+ (b +:+ c).
Proof.
  induction a as [| x a IH]; [reflexivity |].
  change (String x ((a +:+ b) +:+ c) = String x (a +:+ (b +:+ c))). now rewrite IH.
Qed.

Lemma rev_app_eq a : forall c, String.rev_app a c = String.rev a +:+ c.
Proof.
  unfold String.rev. induction a as [| x a IH]; intros c; [reflexivity |].
  simpl. rewrite IH, (IH (String x "")), string_app_assoc. reflexivity.
Qed.

Lemma rev_string_app a b : String.rev (a +:+ b) = String.rev b +:+ String.rev a.
Proof.
  induction a as [| x a IH].
  - change (String.rev b = String.rev b +:+ ""). now rewrite string_app_empty.
  - change (String.rev_app (a +:+ b) (String x "") = String.rev b +:+ String.rev (String x a)).
    rewrite rev_app_eq, IH, string_app_assoc.
    unfold String.rev at 4. simpl. now rewrite rev_app_eq.
Qed.

Lemma first_ok_app a b : a <> EmptyString -> first_ok (a +:+ b) = first_ok a.
Proof. destruct a; [congruence | reflexivity]. Qed.

Lemma rev_nonempty a : a <> EmptyString -> String.rev a <> EmptyString.
Proof.
  destruct a as [| x a]; [congruence |]. intros _ E.
  apply (f_equal String.rev) in E. rewrite rev_rev in E. discriminate.
Qed.

(** A left-stripped text is what is left of the text after some prefix. *)
Lemma lstrip_suffix s : exists pre, s = pre +:+ Py.lstrip s.
Proof.
  induction s as [| c s [pre IH]]; [now exists "" |].
  simpl. destruct (Py.isspace c); [| now exists ""].
  exists (String c pre). change (String c s = String c (pre +:+ Py.lstrip s)).
  now rewrite <- IH.
Qed.

Lemma strip_stripped s : stripped (Py.strip s).
Proof.
  unfold stripped, Py.strip. rewrite rev_rev. split; [| apply first_ok_lstrip].
  set (t := Py.lstrip s). set (w := Py.lstrip (String.rev t)).
  destruct (lstrip_suffix (String.rev t)) as [pre Hpre]. fold w in Hpre.
  assert (Ht : t = String.rev w +:+ String.rev pre).
  { rewrite <- (rev_rev t), Hpre. apply rev_string_app. }
  destruct w as [| x w'] eqn:Ew; [reflexivity |].
  pose proof (first_ok_lstrip s) as Hf. fold t in Hf. rewrite Ht in Hf.
  rewrite first_ok_app in Hf; [exact Hf |]. apply rev_nonempty. discriminate.
Qed.

Lemma stripped_strip s : stripped s -> Py.strip s = s.
Proof.
  intros [H1 H2]. unfold Py.strip.
  rewrite (lstrip_first_ok s H1), (lstrip_first_ok _ H2). apply rev_rev.
Qed.

Lemma stripped_prefix pre s :
  pre <> EmptyString -> first_ok pre = true -> s <> EmptyString -> stripped s ->
  stripped (pre +:+ s).
Proof.
  intros Hpre Hf Hs [_ H2]. split.
  - now rewrite first_ok_app.
  - rewrite rev_string_app, first_ok_app; [exact H2 |]. now apply rev_nonempty.
Qed.

(** [normalize_value] on a text that is already stripped and not empty. *)
Lemma normalize_stripped s :
  stripped s -> s <> EmptyString ->
  normalize_value (Some s) =
    if startswith "http://" s || startswith "https://" s then Some s
    else if startswith "/static/" s then Some s
    else if startswith "static/" s then Some ("/" +:+ s)
    else if negb (contains "/" s) then Some ("/uploads/" +:+ s)
    else Some (if startswith "/" s then s else "/" +:+ s).
Proof.
  intros Hs Hne. destruct s as [| a r]; [congruence |].
  unfold normalize_value. rewrite (stripped_strip _ Hs). reflexivity.
Qed.

(** The result of [normalize_value], case by case. *)
Lemma normalize_cases p r :
  normalize_value p = Some r ->
  exists s, stripped s /\ s <> EmptyString /\
    ((startswith "http://" s || startswith "https://" s = true /\ r = s) \/
     (startswith "http://" s || startswith "https://" s = false /\
      startswith "/static/" s = true /\ r = s) \/
     (startswith "http://" s || startswith "https://" s = false /\
      startswith "/static/" s = false /\ startswith "static/" s = true /\
      r = String "/" s) \/
     (contains "/" s = false /\ r = "/uploads/" +:+ s) \/
     (startswith "http://" s || startswith "https://" s = false /\
      startswith "/static/" s = false /\ startswith "static/" s = false /\
      contains "/" s = true /\ startswith "/" s = true /\ r = s) \/
     (startswith "/static/" s = false /\ startswith "static/" s = false /\
      startswith "/" s = false /\ r = String "/" s)).
Proof.
  destruct p as [[| a0 p0] |]; [discriminate | | discriminate].
  unfold normalize_value.
  pose proof (strip_stripped (String a0 p0)) as Hs.
  destruct (Py.strip (String a0 p0)) as [| a x] eqn:E; [discriminate |].
  set (s := String a x) in *.
  destruct (startswith "http://" s || startswith "https://" s) eqn:E1.
  { intros [= <-]. exists s. split; [exact Hs |]. split; [discriminate |]. now left. }
  destruct (startswith "/static/" s) eqn:E2.
  { intros [= <-]. exists s. split; [exact Hs |]. split; [discriminate |].
    right; left. auto. }
  destruct (startswith "static/" s) eqn:E3.
  { intros [= <-]. exists s. split; [exact Hs |]. split; [discriminate |].
    right; right; left. auto. }
  destruct (contains "/" s) eqn:E4; simpl negb; cbv iota.
  - destruct (startswith "/" s) eqn:E5; intros [= <-]; exists s;
      (split; [exact Hs |]); (split; [discriminate |]).
    + right; right; right; right; left. auto 8.
    + right; right; right; right; right. auto.
  - intros [= <-]. exists s. split; [exact Hs |]. split; [discriminate |].
    right; right; right; left. auto.
Qed.

Lemma startswith_static_slash s : startswith "/static/" s = true -> startswith "/" s = true.
Proof.
  destruct s as [| a x]; [discriminate |]. simpl.
  intros H. apply andb_true_iff in H as [H _]. now rewrite H.
Qed.

(** X22. [normalize_value] gives no value exactly for a missing image or
    one that is empty or all white space. A value it gives is not empty,
    has no white space at either end, and starts with [http://],
    [https://] or [/]. *)
Theorem normalize_value_shape p :
  (normalize_value p = None <->
   p = None \/ exists x, p = Some x /\ Py.strip x = EmptyString) /\
  (forall r, normalize_value p = Some r ->
     r <> EmptyString /\ Py.strip r = r /\
     (startswith "http://" r = true \/ startswith "https://" r = true \/
      startswith "/" r = true)).
Proof.
  split.
  - destruct p as [[| a0 p0] |].
    + split; [right; now exists "" | reflexivity].
    + unfold normalize_value. destruct (Py.strip (String a0 p0)) as [| a x] eqn:E.
      * split; [right; eauto | reflexivity].
      * split.
        -- destruct (_ || _); [discriminate |].
           destruct (startswith "/static/" _); [discriminate |].
           destruct (startswith "static/" _); [discriminate |].
           destruct (negb _); discriminate.
        -- intros [[=] | (y & [= <-] & Hy)]. congruence.
    + split; [now left | reflexivity].
  - intros r Hr.
    destruct (normalize_cases _ _ Hr) as (s & Hs & Hne & Hcase).
    assert (Hslash : stripped (String "/" s))
      by (apply (stripped_prefix "/" s); auto; discriminate).
    destruct Hcase as [[H ->] | [(_ & H & ->) | [(_ & _ & _ & ->) | [(_ & ->) |
                      [(_ & _ & _ & _ & H & ->) | (_ & _ & _ & ->)]]]]].
    + split; [exact Hne |]. split; [now apply stripped_strip |].
      apply orb_true_iff in H as [H | H]; auto.
    + split; [exact Hne |]. split; [now apply stripped_strip |].
      right; right. now apply startswith_static_slash.
    + split; [discriminate |]. split; [now apply stripped_strip |]. auto.
    + split; [discriminate |]. split; [| auto].
      apply stripped_strip, stripped_prefix; auto; discriminate.
    + split; [exact Hne |]. split; [now apply stripped_strip |]. auto.
    + split; [discriminate |]. split; [now apply stripped_strip |]. auto.
Qed.

Lemma normalize_value_shape_witness :
  normalize_value (Some "  car.png ") = Some "/uploads/car.png" /\
  normalize_value (Some "static/img/car.png") = Some "/static/img/car.png" /\
  normalize_value (Some "img/car.png") = Some "/img/car.png" /\
  normalize_value (Some "   ") = None /\
  Py.strip "/uploads/car.png" = "/uploads/car.png".
Proof.
  repeat (split; [reflexivity |]).
  apply (proj2 (normalize_value_shape (Some "  car.png ")) "/uploads/car.png").
  reflexivity.
Defined.

(** X23. [normalize_value] is idempotent: a value it has produced is left
    as it is by a second run, so the script changes nothing when it is
    run again. *)
Theorem normalize_value_idempotent p :
  normalize_value (normalize_value p) = normalize_value p.
Proof.
  destruct (normalize_value p) as [r |] eqn:Hr; [| reflexivity].
  destruct (normalize_cases _ _ Hr) as (s & Hs & Hne & Hcase).
  assert (Hslash : stripped (String "/" s))
    by (apply (stripped_prefix "/" s); auto; discriminate).
  destruct Hcase as [[H ->] | [(H1 & H2 & ->) | [(H1 & H2 & H3 & ->) | [(H4 & ->) |
                    [(H1 & H2 & H3 & H4 & H5 & ->) | (H2 & H3 & H5 & ->)]]]]].
  - rewrite (normalize_stripped _ Hs Hne), H. reflexivity.
  - rewrite (normalize_stripped _ Hs Hne), H1, H2. reflexivity.
  - rewrite (normalize_stripped _ Hslash) by discriminate.
    change (startswith "/static/" (String "/" s)) with (startswith "static/" s).
    rewrite H3. reflexivity.
  - rewrite normalize_stripped.
    + reflexivity.
    + apply stripped_prefix; auto; discriminate.
    + discriminate.
  - rewrite (normalize_stripped _ Hs Hne), H1, H2, H3, H4, H5. reflexivity.
  - rewrite (normalize_stripped _ Hslash) by discriminate.
    change (startswith "/static/" (String "/" s)) with (startswith "static/" s).
    rewrite H3. reflexivity.
Qed.

End ImagePaths.
